(** * A model of the Tessie gateway workers

    Shallow embedding of the two Cloudflare workers of the repository:
    - [src_python/main.py] with [src_python/tessie_client.py] and
      [src_python/utils/health.py]: the multi-API worker (module [Worker]);
    - [src/main.py]: the single-API worker guarded by a bearer token
      (module [Gated]);
    - [tessie_api/tessie_wrapper.py] with [tessie_api/fake_api.py]: the
      request wrapper and its canned responses (module [Wrapper]).

    Python coroutines are modelled as computations over an explicit world
    (connection pool, upstream call record, printed log events) that either
    return a value or raise a Python exception. *)

From Stdlib Require Import ZArith List String Ascii Bool Lia DecimalString.
Import ListNotations.
Open Scope string_scope.
Open Scope Z_scope.
Set Warnings "-register-all".

(* ================================================================== *)
(** ** Python values and the builtins the workers use *)

Module Py.

(** [s.startswith(p)] *)
Definition startswith (s p : string) : bool := String.prefix p s.

(** [s.endswith(suf)] *)
Fixpoint endswith (s suf : string) : bool :=
  String.eqb s suf ||
  match s with
  | EmptyString => false
  | String _ s' => endswith s' suf
  end.

(** [sub in s] *)
Fixpoint contains (sub s : string) : bool :=
  String.prefix sub s ||
  match s with
  | EmptyString => false
  | String _ s' => contains sub s'
  end.

(** [s.lstrip(c)] for a one-character set. *)
Fixpoint lstrip (c : ascii) (s : string) : string :=
  match s with
  | String a s' => if Ascii.eqb a c then lstrip c s' else s
  | EmptyString => EmptyString
  end.

(** [s.rstrip(c)] for a one-character set. *)
Fixpoint rstrip (c : ascii) (s : string) : string :=
  match s with
  | String a s' =>
      match rstrip c s' with
      | EmptyString => if Ascii.eqb a c then EmptyString else String a EmptyString
      | r => String a r
      end
  | EmptyString => EmptyString
  end.

(** [s.split(sep)] for a non-empty separator: left to right, matches do
    not overlap.  [skip] counts the separator characters still to drop,
    [cur] is the piece being read. *)
Fixpoint split_from (sep s : string) (skip : nat) (cur : string) : list string :=
  match s with
  | EmptyString => [cur]
  | String c s' =>
      match skip with
      | S k => split_from sep s' k cur
      | O =>
          if String.prefix sep s
          then cur :: split_from sep s' (Nat.pred (String.length sep)) EmptyString
          else split_from sep s' O (cur ++ String c EmptyString)
      end
  end.

Definition split (s sep : string) : list string := split_from sep s O EmptyString.

(** [s.split(c, 1)]: cut at the first occurrence of [c] only. *)
Fixpoint split_once (s : string) (c : ascii) : list string :=
  match s with
  | EmptyString => [EmptyString]
  | String a s' =>
      if Ascii.eqb a c then [EmptyString; s']
      else
        match split_once s' c with
        | h :: t => String a h :: t
        | [] => [String a EmptyString]
        end
  end.

(** [s[n:]] *)
Fixpoint slice_from (n : nat) (s : string) : string :=
  match n, s with
  | O, _ => s
  | S k, String _ s' => slice_from k s'
  | S _, EmptyString => EmptyString
  end.

(** [l[i]] on a list of strings; [None] stands for IndexError. *)
Definition index (l : list string) (i : nat) : option string := nth_error l i.

(** A [string] stands for a Python [str] by its code points, one
    character for each, so for text whose code points are below 256:
    what a header value holds.  ASCII text is the part on which every
    reading of a string literal agrees. *)
Fixpoint is_ascii (s : string) : bool :=
  match s with
  | EmptyString => true
  | String c s' => (nat_of_ascii c <? 128)%nat && is_ascii s'
  end.

(** The characters [str.isspace] accepts: below 256 these are the code
    points 9 to 13, 28 to 32, 133 (NEL) and 160 (NBSP). *)
Definition isspace (c : ascii) : bool :=
  let n := nat_of_ascii c in
  ((9 <=? n) && (n <=? 13) || (28 <=? n) && (n <=? 32) ||
   (n =? 133) || (n =? 160))%nat.

Fixpoint lstrip_ws (s : string) : string :=
  match s with
  | String a s' => if isspace a then lstrip_ws s' else s
  | EmptyString => EmptyString
  end.

Fixpoint rstrip_ws (s : string) : string :=
  match s with
  | String a s' =>
      match rstrip_ws s' with
      | EmptyString => if isspace a then EmptyString else String a EmptyString
      | r => String a r
      end
  | EmptyString => EmptyString
  end.

(** [s.strip()] *)
Definition strip (s : string) : string := rstrip_ws (lstrip_ws s).

Definition upper_char (c : ascii) : ascii :=
  let n := nat_of_ascii c in
  if ((97 <=? n) && (n <=? 122))%nat then ascii_of_nat (n - 32) else c.

Definition lower_char (c : ascii) : ascii :=
  let n := nat_of_ascii c in
  if ((65 <=? n) && (n <=? 90))%nat then ascii_of_nat (n + 32) else c.

Fixpoint map_chars (f : ascii -> ascii) (s : string) : string :=
  match s with
  | EmptyString => EmptyString
  | String c s' => String (f c) (map_chars f s')
  end.

(** [s.upper()] and [s.lower()] on ASCII letters. *)
Definition upper : string -> string := map_chars upper_char.
Definition lower : string -> string := map_chars lower_char.

(** [str(n)] for an integer. *)
Definition str_of_int (n : Z) : string := NilZero.string_of_int (Z.to_int n).

(** A Python [float]: the finite value [m * 2 ^ e], an infinity, or
    NaN. *)
Inductive pyfloat : Type :=
| Finite (m e : Z)
| Infinity (negative : bool)
| NaN.

(** [int(x)] for a finite float: the fraction is cut off, towards zero. *)
Definition truncate (m e : Z) : Z :=
  if 0 <=? e then m * 2 ^ e else Z.quot m (2 ^ (- e)).

(** JSON values as [json.loads] and [request.json()] deliver them: a
    number is an [int] or a [float]; an object keeps its keys in order. *)
Inductive json : Type :=
| JNull
| JBool (b : bool)
| JNum (n : Z)
| JFloat (x : pyfloat)
| JStr (s : string)
| JArr (items : list json)
| JObj (fields : list (string * json)).

(** [type(v).__name__] *)
Definition type_name (v : json) : string :=
  match v with
  | JNull => "NoneType"
  | JBool _ => "bool"
  | JNum _ => "int"
  | JFloat _ => "float"
  | JStr _ => "str"
  | JArr _ => "list"
  | JObj _ => "dict"
  end.

(** Truth value of a JSON value in a Python condition. *)
Definition truthy (j : json) : bool :=
  match j with
  | JNull => false
  | JBool b => b
  | JNum n => negb (n =? 0)
  | JFloat (Finite m _) => negb (m =? 0)
  | JFloat _ => true
  | JStr s => negb (String.eqb s "")
  | JArr l => match l with [] => false | _ => true end
  | JObj l => match l with [] => false | _ => true end
  end.

(** Lookup in an insertion-ordered mapping with string keys. *)
Fixpoint assoc {V : Type} (k : string) (l : list (string * V)) : option V :=
  match l with
  | [] => None
  | (k', v) :: l' => if String.eqb k' k then Some v else assoc k l'
  end.

(** Truth value of an optional string: [None] and [""] are false. *)
Definition truthy_str (o : option string) : bool :=
  match o with
  | Some s => negb (String.eqb s "")
  | None => false
  end.

(** Python exceptions the workers raise or meet. *)
Inductive exn : Type :=
| HTTPException (status : Z) (message : string)
| TessieAPIError (message : string) (status_code : option Z)
| HTTPStatusError (status_code : Z) (text : string)
| PyError (kind : string) (message : string).

(** [str(e)] *)
Definition str_of_exn (e : exn) : string :=
  match e with
  | HTTPException _ m => m
  | TessieAPIError m _ => m
  | HTTPStatusError _ t => t
  | PyError _ m => m
  end.

Definition is_digit (c : ascii) : bool :=
  let n := nat_of_ascii c in ((48 <=? n) && (n <=? 57))%nat.

Definition digit_value (c : ascii) : Z := Z.of_nat (nat_of_ascii c) - 48.

(** Decimal digits, single underscores allowed between two digits. *)
Fixpoint parse_digits (s : string) (acc : Z) (after_digit : bool) : option Z :=
  match s with
  | EmptyString => if after_digit then Some acc else None
  | String c s' =>
      if is_digit c then parse_digits s' (10 * acc + digit_value c) true
      else if Ascii.eqb c "_" && after_digit then parse_digits s' acc false
      else None
  end.

(** The white space that [int] skips around a literal: the ASCII
    characters 9 to 13 and 32, and the white space beyond ASCII; not the
    separators 28 to 31, which [strip] removes. *)
Definition isspace_int (c : ascii) : bool :=
  let n := nat_of_ascii c in
  ((9 <=? n) && (n <=? 13) || (n =? 32) || (n =? 133) || (n =? 160))%nat.

Fixpoint lstrip_int (s : string) : string :=
  match s with
  | String a s' => if isspace_int a then lstrip_int s' else s
  | EmptyString => EmptyString
  end.

Fixpoint rstrip_int (s : string) : string :=
  match s with
  | String a s' =>
      match rstrip_int s' with
      | EmptyString => if isspace_int a then EmptyString else String a EmptyString
      | r => String a r
      end
  | EmptyString => EmptyString
  end.

(** The number of digits in the run of digits and single underscores
    that a literal begins with; [None] when the run is empty or an
    underscore does not stand between two digits. *)
Fixpoint leading_digits (s : string) (after_digit : bool) : option Z :=
  match s with
  | EmptyString => if after_digit then Some 0 else None
  | String c s' =>
      if is_digit c then option_map Z.succ (leading_digits s' true)
      else if Ascii.eqb c "_" then
        if after_digit then leading_digits s' false else None
      else if after_digit then Some 0 else None
  end.

(** What [int] makes of a string in base 10: a value, the refusal of a
    literal of more than 4300 digits, or the refusal of anything else. *)
Inductive literal : Type :=
| Value (n : Z)
| TooLong (digits : Z)
| Invalid.

Definition read_int (s : string) : literal :=
  let body := rstrip_int (lstrip_int s) in
  let unsigned := match body with
                  | String "-" d | String "+" d => d
                  | d => d
                  end in
  match leading_digits unsigned false with
  | None => Invalid
  | Some digits =>
      if 4300 <? digits then TooLong digits
      else
        match parse_digits unsigned 0 false with
        | Some n => Value (match body with
                           | String "-" _ => - n
                           | _ => n
                           end)
        | None => Invalid
        end
  end.

(** [int(s)] for a string, base 10, when it has a value. *)
Definition int_of_str (s : string) : option Z :=
  match read_int s with
  | Value n => Some n
  | _ => None
  end.

(** [int(v)] for a JSON value other than [None]: the integer, or the
    exception raised. *)
Definition int (v : json) : Z + exn :=
  match v with
  | JNum n => inl n
  | JBool b => inl (if b then 1 else 0)
  | JFloat (Finite m e) => inl (truncate m e)
  | JFloat (Infinity _) =>
      inr (PyError "OverflowError" "cannot convert float infinity to integer")
  | JFloat NaN =>
      inr (PyError "ValueError" "cannot convert float NaN to integer")
  | JStr s =>
      match read_int s with
      | Value n => inl n
      | TooLong digits =>
          inr (PyError "ValueError"
                 ("Exceeds the limit (4300 digits) for integer string conversion: value has "
                  ++ str_of_int digits
                  ++ " digits; use sys.set_int_max_str_digits() to increase the limit"))
      | Invalid =>
          inr (PyError "ValueError"
                 ("invalid literal for int() with base 10: '" ++ s ++ "'"))
      end
  | JNull => inr (PyError "TypeError" "int() argument must be a string, a bytes-like object or a real number, not 'NoneType'")
  | JArr _ => inr (PyError "TypeError" "int() argument must be a string, a bytes-like object or a real number, not 'list'")
  | JObj _ => inr (PyError "TypeError" "int() argument must be a string, a bytes-like object or a real number, not 'dict'")
  end.

(** [d.get(k)]: an object answers with the value or [None]; any other
    value has no such method. *)
Definition get (d : json) (k : string) : json + exn :=
  match d with
  | JObj fields =>
      match assoc k fields with
      | Some v => inl v
      | None => inl JNull
      end
  | _ => inr (PyError "AttributeError"
                ("'" ++ type_name d ++ "' object has no attribute 'get'"))
  end.

(** [d.get(k, [])] *)
Definition get_or_empty_list (d : json) (k : string) : json + exn :=
  match d with
  | JObj fields =>
      match assoc k fields with
      | Some v => inl v
      | None => inl (JArr [])
      end
  | _ => inr (PyError "AttributeError"
                ("'" ++ type_name d ++ "' object has no attribute 'get'"))
  end.

(** [len(v)] *)
Definition len (v : json) : Z + exn :=
  match v with
  | JArr l => inl (Z.of_nat (List.length l))
  | JObj l => inl (Z.of_nat (List.length l))
  | JStr s => inl (Z.of_nat (String.length s))
  | _ => inr (PyError "TypeError"
                ("object of type '" ++ type_name v ++ "' has no len()"))
  end.

(** A value of the mapping that [parse_qs] yields, after the workers
    collapse one-element lists to their element. *)
Inductive qval : Type :=
| QOne (s : string)
| QMany (l : list string).

Definition truthy_qval (o : option qval) : bool :=
  match o with
  | Some (QOne s) => negb (String.eqb s "")
  | Some (QMany l) => match l with [] => false | _ => true end
  | None => false
  end.

Fixpoint mem (x : string) (l : list string) : bool :=
  match l with
  | [] => false
  | y :: l' => String.eqb x y || mem x l'
  end.

End Py.

(* ================================================================== *)
(** ** Coroutines: state and exceptions *)

Module Eff.
Import Py.

(** One call of [httpx.AsyncClient.request] as the upstream sees it. *)
Record upstream_call : Type := {
  uc_method : string;
  uc_url : string;
  uc_headers : list (string * string);
  uc_params : option (list (string * qval));
  uc_json : option json
}.

(** What comes back: an HTTP response (status, body text, and the value
    of [response.json()] or the message of its failure), or no response
    at all, with the message of the transport error. *)
Inductive reply : Type :=
| HttpResponse (status_code : Z) (text : string) (parsed : json + string)
| NoResponse (detail : string).

(** A line printed by [log_api_call]; duration and timestamp are left
    out. *)
Record log_event : Type := {
  log_api : string;
  log_endpoint : string;
  log_status : Z;
  log_error : option string
}.

(** The world of one request: the upstream (answering the n-th call),
    whether the connection pool is open, the upstream calls made and
    the events logged, oldest first. *)
Record world : Type := {
  upstream : nat -> upstream_call -> reply;
  pool_open : bool;
  calls : list upstream_call;
  logs : list log_event
}.

Inductive outcome (A : Type) : Type :=
| Return (a : A)
| Raise (e : exn).
Arguments Return {A} a.
Arguments Raise {A} e.

Definition M (A : Type) : Type := world -> outcome A * world.

Definition ret {A} (a : A) : M A := fun w => (Return a, w).

Definition raise {A} (e : exn) : M A := fun w => (Raise e, w).

Definition bind {A B} (m : M A) (k : A -> M B) : M B :=
  fun w =>
    match m w with
    | (Return a, w') => k a w'
    | (Raise e, w') => (Raise e, w')
    end.

(** [try: body except ...]: [handler e] is the clause that matches
    [e], if one does. *)
Definition try_except {A} (body : M A) (handler : exn -> option (M A)) : M A :=
  fun w =>
    match body w with
    | (Return a, w') => (Return a, w')
    | (Raise e, w') =>
        match handler e with
        | Some h => h w'
        | None => (Raise e, w')
        end
    end.

(** A pure step that may raise. *)
Definition lift {A} (r : A + exn) : M A :=
  match r with
  | inl a => ret a
  | inr e => raise e
  end.

(** [l[i]] *)
Definition item (l : list string) (i : nat) : M string :=
  match index l i with
  | Some s => ret s
  | None => raise (PyError "IndexError" "list index out of range")
  end.

End Eff.

Declare Scope eff_scope.
Delimit Scope eff_scope with eff.
Notation "x <- m ;; k" := (Eff.bind m (fun x => k))
  (at level 61, m at next level, right associativity) : eff_scope.
Notation "m ;;; k" := (Eff.bind m (fun _ => k))
  (at level 61, right associativity) : eff_scope.
Open Scope eff_scope.

(* ================================================================== *)
(** ** src_python/tessie_client.py *)

Module Client.
Import Py Eff.

Inductive APIType : Type := FLEET | TELEMETRY | TESSIE.

Definition APIType_value (t : APIType) : string :=
  match t with
  | FLEET => "fleet"
  | TELEMETRY => "telemetry"
  | TESSIE => "tessie"
  end.

(** [log_api_call]: the error key is added only for a non-empty error. *)
Definition log_api_call (api_type : APIType) (endpoint : string) (status : Z)
    (error : option string) : M unit :=
  fun w =>
    (Return tt,
     {| upstream := upstream w;
        pool_open := pool_open w;
        calls := calls w;
        logs := logs w ++
          [{| log_api := APIType_value api_type;
              log_endpoint := endpoint;
              log_status := status;
              log_error := if truthy_str error then error else None |}] |}).

(** [BaseAPIClient]; [region] is set by [FleetAPIClient] only. *)
Record BaseAPIClient : Type := {
  base_url : string;
  access_token : string;
  api_type : APIType;
  region : string
}.

Definition BaseAPIClient_init (base_url access_token : string) : BaseAPIClient :=
  {| base_url := rstrip "/" base_url;
     access_token := access_token;
     api_type := TESSIE;
     region := "" |}.

(** The response object of httpx as far as [_request] reads it. *)
Record response : Type := {
  status_code : Z;
  text : string;
  parsed : json + string
}.

(** [response.json()] *)
Definition response_json (r : response) : M json :=
  match parsed r with
  | inl v => ret v
  | inr message => raise (PyError "JSONDecodeError" message)
  end.

(** [httpx.AsyncClient.request]: a closed client refuses to send;
    otherwise the call reaches the upstream and is recorded. *)
Definition client_request (c : upstream_call) : M response :=
  fun w =>
    if pool_open w then
      let w' := {| upstream := upstream w;
                   pool_open := pool_open w;
                   calls := calls w ++ [c];
                   logs := logs w |} in
      match upstream w (List.length (calls w)) c with
      | HttpResponse s t j =>
          (Return {| status_code := s; text := t; parsed := j |}, w')
      | NoResponse detail => (Raise (PyError "TransportError" detail), w')
      end
    else
      (Raise (PyError "RuntimeError"
                "Cannot send a request, as the client has been closed."), w).

(** [response.is_success] *)
Definition is_success (status : Z) : bool := (200 <=? status) && (status <=? 299).

(** [response.raise_for_status()] *)
Definition raise_for_status (r : response) : M unit :=
  if is_success (status_code r) then ret tt
  else raise (HTTPStatusError (status_code r) (text r)).

Definition _request (self : BaseAPIClient) (method endpoint : string)
    (params : option (list (string * qval))) (json_data : option json) : M json :=
  let url := base_url self ++ "/" ++ lstrip "/" endpoint in
  let headers := [("Authorization", "Bearer " ++ access_token self);
                  ("Content-Type", "application/json")] in
  try_except
    (response <- client_request
                   {| uc_method := method; uc_url := url; uc_headers := headers;
                      uc_params := params; uc_json := json_data |} ;;
     log_api_call (api_type self) endpoint (status_code response) None ;;;
     raise_for_status response ;;;
     response_json response)
    (fun e =>
       match e with
       | HTTPStatusError code body =>
           Some (let error_msg := "HTTP " ++ str_of_int code ++ ": " ++ body in
                 log_api_call (api_type self) endpoint code (Some error_msg) ;;;
                 raise (TessieAPIError error_msg (Some code)))
       | _ =>
           Some (let error_msg := "Request failed: " ++ str_of_exn e in
                 log_api_call (api_type self) endpoint 0 (Some error_msg) ;;;
                 raise (TessieAPIError error_msg None))
       end).

(** *** TessieClient *)

Definition TessieClient_init (access_token : string) : BaseAPIClient :=
  let b := BaseAPIClient_init "https://api.tessie.com" access_token in
  {| base_url := base_url b; access_token := Client.access_token b;
     api_type := TESSIE; region := region b |}.

Definition str_bool_lower (b : bool) : string := if b then "true" else "false".

Module Tessie.
Definition list_vehicles (self : BaseAPIClient) (only_active : bool) : M json :=
  _request self "GET" "vehicles"
    (Some [("only_active", QOne (str_bool_lower only_active))]) None.
Definition state (self : BaseAPIClient) (vin : string) : M json :=
  _request self "GET" (vin ++ "/state") None None.
Definition battery (self : BaseAPIClient) (vin : string) : M json :=
  _request self "GET" (vin ++ "/battery") None None.
Definition wake (self : BaseAPIClient) (vin : string) : M json :=
  _request self "POST" (vin ++ "/wake") None None.
Definition start_charging (self : BaseAPIClient) (vin : string) : M json :=
  _request self "POST" (vin ++ "/command/start_charging") None None.
Definition stop_charging (self : BaseAPIClient) (vin : string) : M json :=
  _request self "POST" (vin ++ "/command/stop_charging") None None.
Definition set_charge_limit (self : BaseAPIClient) (vin : string) (percent : Z) : M json :=
  _request self "POST" (vin ++ "/command/set_charge_limit") None
    (Some (JObj [("percent", JNum percent)])).
Definition lock (self : BaseAPIClient) (vin : string) : M json :=
  _request self "POST" (vin ++ "/command/lock") None None.
Definition unlock (self : BaseAPIClient) (vin : string) : M json :=
  _request self "POST" (vin ++ "/command/unlock") None None.
Definition flash_lights (self : BaseAPIClient) (vin : string) : M json :=
  _request self "POST" (vin ++ "/command/flash_lights") None None.
Definition honk (self : BaseAPIClient) (vin : string) : M json :=
  _request self "POST" (vin ++ "/command/honk") None None.
Definition start_climate (self : BaseAPIClient) (vin : string) : M json :=
  _request self "POST" (vin ++ "/command/start_climate") None None.
Definition stop_climate (self : BaseAPIClient) (vin : string) : M json :=
  _request self "POST" (vin ++ "/command/stop_climate") None None.
End Tessie.

(** *** TeslemetryClient *)

Definition TeslemetryClient_init (access_token : string) (server : option string)
    : BaseAPIClient :=
  let b := BaseAPIClient_init
             (if truthy_str server
              then match server with Some s => s | None => "" end
              else "https://api.teslemetry.com")
             access_token in
  {| base_url := base_url b; access_token := Client.access_token b;
     api_type := TELEMETRY; region := region b |}.

Module Teslemetry.
Definition ping (self : BaseAPIClient) : M json :=
  _request self "GET" "ping" None None.
Definition test (self : BaseAPIClient) : M json :=
  _request self "GET" "test" None None.
Definition metadata (self : BaseAPIClient) : M json :=
  _request self "GET" "metadata" None None.
Definition scopes (self : BaseAPIClient) : M json :=
  _request self "GET" "scopes" None None.
Definition server_side_polling (self : BaseAPIClient) (vin : string)
    (enabled : option bool) : M json :=
  match enabled with
  | None => _request self "GET" ("vehicles/" ++ vin ++ "/polling") None None
  | Some true => _request self "POST" ("vehicles/" ++ vin ++ "/polling") None None
  | Some false => _request self "DELETE" ("vehicles/" ++ vin ++ "/polling") None None
  end.
Definition vehicle_data_refresh (self : BaseAPIClient) (vin : string) : M json :=
  _request self "POST" ("vehicles/" ++ vin ++ "/refresh") None None.
End Teslemetry.

(** *** FleetAPIClient *)

Definition region_urls : list (string * string) :=
  [("na", "https://fleet-api.prd.na.vn.cloud.tesla.com");
   ("eu", "https://fleet-api.prd.eu.vn.cloud.tesla.com");
   ("cn", "https://fleet-api.prd.cn.vn.cloud.tesla.cn")].

Definition FleetAPIClient_init (access_token region : string) : BaseAPIClient :=
  let base_url :=
    match assoc region region_urls with
    | Some u => u
    | None => "https://fleet-api.prd.na.vn.cloud.tesla.com"
    end in
  let b := BaseAPIClient_init base_url access_token in
  {| base_url := Client.base_url b; access_token := Client.access_token b;
     api_type := FLEET; region := region |}.

Module Fleet.
Definition list_vehicles (self : BaseAPIClient) : M json :=
  _request self "GET" "api/1/vehicles" None None.
Definition vehicle_data (self : BaseAPIClient) (vin : string)
    (endpoints : option qval) : M json :=
  let params :=
    match endpoints with
    | Some v => if truthy_qval endpoints then Some [("endpoints", v)] else None
    | None => None
    end in
  _request self "GET" ("api/1/vehicles/" ++ vin ++ "/vehicle_data") params None.
Definition wake_up (self : BaseAPIClient) (vin : string) : M json :=
  _request self "POST" ("api/1/vehicles/" ++ vin ++ "/wake_up") None None.
Definition command (self : BaseAPIClient) (vin command : string)
    (params : option json) : M json :=
  _request self "POST" ("api/1/vehicles/" ++ vin ++ "/command/" ++ command)
    None params.
End Fleet.

(** *** UnifiedTessieClient *)

Record UnifiedTessieClient : Type := {
  tessie : option BaseAPIClient;
  telemetry : option BaseAPIClient;
  fleet : option BaseAPIClient
}.

(** The constructor opens the shared [httpx.AsyncClient] and builds a
    client for every token that is set. *)
Definition UnifiedTessieClient_init
    (tessie_token telemetry_token fleet_token : option string)
    (fleet_region : string) : M UnifiedTessieClient :=
  fun w =>
    (Return
       {| tessie :=
            match tessie_token with
            | Some t => if truthy_str tessie_token
                        then Some (TessieClient_init t) else None
            | None => None
            end;
          telemetry :=
            match telemetry_token with
            | Some t => if truthy_str telemetry_token
                        then Some (TeslemetryClient_init t None) else None
            | None => None
            end;
          fleet :=
            match fleet_token with
            | Some t => if truthy_str fleet_token
                        then Some (FleetAPIClient_init t fleet_region) else None
            | None => None
            end |},
     {| upstream := upstream w; pool_open := true;
        calls := calls w; logs := logs w |}).

(** [close]: [self.client.aclose()] *)
Definition close (self : UnifiedTessieClient) : M unit :=
  fun w =>
    (Return tt,
     {| upstream := upstream w; pool_open := false;
        calls := calls w; logs := logs w |}).

End Client.

(* ================================================================== *)
(** ** src_python/utils/health.py *)

Module Health.
Import Py Eff Client.

Inductive HealthStatus : Type := HEALTHY | DEGRADED | UNHEALTHY | UNKNOWN.

Definition HealthStatus_value (s : HealthStatus) : string :=
  match s with
  | HEALTHY => "healthy"
  | DEGRADED => "degraded"
  | UNHEALTHY => "unhealthy"
  | UNKNOWN => "unknown"
  end.

Definition HealthStatus_eqb (a b : HealthStatus) : bool :=
  match a, b with
  | HEALTHY, HEALTHY | DEGRADED, DEGRADED
  | UNHEALTHY, UNHEALTHY | UNKNOWN, UNKNOWN => true
  | _, _ => false
  end.

(** [APIStatus]; response time and time of the check are left out. *)
Record APIStatus : Type := {
  name : string;
  status : HealthStatus;
  error : option string;
  details : option json
}.

Definition json_of_option_int (o : option Z) : json :=
  match o with
  | Some n => JNum n
  | None => JNull
  end.

(** [DEGRADED if e.status_code and e.status_code < 500 else UNHEALTHY] *)
Definition error_status (status_code : option Z) : HealthStatus :=
  match status_code with
  | Some c => if negb (c =? 0) && (c <? 500) then DEGRADED else UNHEALTHY
  | None => UNHEALTHY
  end.

Definition check_tessie (client : UnifiedTessieClient) : M APIStatus :=
  match tessie client with
  | None =>
      ret {| name := "Tessie API"; status := UNKNOWN;
             error := Some "API token not configured"; details := None |}
  | Some c =>
      try_except
        (result <- Tessie.list_vehicles c true ;;
         results <- lift (get_or_empty_list result "results") ;;
         count <- lift (len results) ;;
         ret {| name := "Tessie API"; status := HEALTHY; error := None;
                details := Some (JObj [("vehicle_count", JNum count);
                                       ("endpoint", JStr "vehicles")]) |})
        (fun e =>
           match e with
           | TessieAPIError message status_code =>
               Some (ret {| name := "Tessie API";
                            status := error_status status_code;
                            error := Some message;
                            details := Some (JObj [("status_code",
                                         json_of_option_int status_code)]) |})
           | _ =>
               Some (ret {| name := "Tessie API"; status := UNHEALTHY;
                            error := Some (str_of_exn e); details := None |})
           end)
  end.

Definition check_telemetry (client : UnifiedTessieClient) : M APIStatus :=
  match telemetry client with
  | None =>
      ret {| name := "Teslemetry API"; status := UNKNOWN;
             error := Some "API token not configured"; details := None |}
  | Some c =>
      try_except
        (result <- Teslemetry.ping c ;;
         ret {| name := "Teslemetry API"; status := HEALTHY; error := None;
                details := Some (JObj [("ping_result", result)]) |})
        (fun e =>
           match e with
           | TessieAPIError message status_code =>
               Some (ret {| name := "Teslemetry API";
                            status := error_status status_code;
                            error := Some message;
                            details := Some (JObj [("status_code",
                                         json_of_option_int status_code)]) |})
           | _ =>
               Some (ret {| name := "Teslemetry API"; status := UNHEALTHY;
                            error := Some (str_of_exn e); details := None |})
           end)
  end.

Definition check_fleet (client : UnifiedTessieClient) : M APIStatus :=
  match fleet client with
  | None =>
      ret {| name := "Tesla Fleet API"; status := UNKNOWN;
             error := Some "API token not configured"; details := None |}
  | Some c =>
      try_except
        (result <- Fleet.list_vehicles c ;;
         response <- lift (get_or_empty_list result "response") ;;
         count <- lift (len response) ;;
         ret {| name := "Tesla Fleet API"; status := HEALTHY; error := None;
                details := Some (JObj [("vehicle_count", JNum count);
                                       ("region", JStr (region c))]) |})
        (fun e =>
           match e with
           | TessieAPIError message status_code =>
               Some (ret {| name := "Tesla Fleet API";
                            status := error_status status_code;
                            error := Some message;
                            details := Some (JObj [("status_code",
                                         json_of_option_int status_code)]) |})
           | _ =>
               Some (ret {| name := "Tesla Fleet API"; status := UNHEALTHY;
                            error := Some (str_of_exn e); details := None |})
           end)
  end.

(** The statuses that are not [UNKNOWN]: the generator
    [s for s in statuses if s != HealthStatus.UNKNOWN]. *)
Definition known (statuses : list HealthStatus) : list HealthStatus :=
  filter (fun s => negb (HealthStatus_eqb s UNKNOWN)) statuses.

(** The if/elif chain of [check_all] that determines the overall status. *)
Definition overall (statuses : list HealthStatus) : HealthStatus :=
  if forallb (fun s => HealthStatus_eqb s HEALTHY) (known statuses) then HEALTHY
  else if existsb (fun s => HealthStatus_eqb s UNHEALTHY) (known statuses) then UNHEALTHY
  else if existsb (fun s => HealthStatus_eqb s DEGRADED) (known statuses) then DEGRADED
  else UNKNOWN.

Definition json_of_option_str (o : option string) : json :=
  match o with
  | Some s => JStr s
  | None => JNull
  end.

Definition json_of_details (o : option json) : json :=
  match o with
  | Some j => j
  | None => JNull
  end.

Definition json_of_APIStatus (s : APIStatus) : json :=
  JObj [("status", JStr (HealthStatus_value (status s)));
        ("error", json_of_option_str (error s));
        ("details", json_of_details (details s))].

(** [check_all]; the three checks run one after the other here. *)
Definition check_all (client : UnifiedTessieClient) : M json :=
  tessie_status <- check_tessie client ;;
  telemetry_status <- check_telemetry client ;;
  fleet_status <- check_fleet client ;;
  let statuses := [status tessie_status; status telemetry_status;
                   status fleet_status] in
  let overall_status := overall statuses in
  ret (JObj [("status", JStr (HealthStatus_value overall_status));
             ("apis", JObj [("tessie", json_of_APIStatus tessie_status);
                            ("telemetry", json_of_APIStatus telemetry_status);
                            ("fleet", json_of_APIStatus fleet_status)])]).

(** One entry of [check_auth]: only [TessieAPIError] is caught. *)
Definition auth_entry (probe : option (M json)) : M json :=
  match probe with
  | Some call =>
      try_except
        (call ;;;
         ret (JObj [("valid", JBool true);
                    ("message", JStr "Authentication successful")]))
        (fun e =>
           match e with
           | TessieAPIError message status_code =>
               Some (ret (JObj [("valid", JBool false);
                                ("message", JStr message);
                                ("status_code", json_of_option_int status_code)]))
           | _ => None
           end)
  | None =>
      ret (JObj [("valid", JNull); ("message", JStr "Token not configured")])
  end.

Definition check_auth (client : UnifiedTessieClient) : M json :=
  t <- auth_entry (option_map (fun c => Tessie.list_vehicles c true) (tessie client)) ;;
  m <- auth_entry (option_map Teslemetry.test (telemetry client)) ;;
  f <- auth_entry (option_map Fleet.list_vehicles (fleet client)) ;;
  ret (JObj [("auth_status", JObj [("tessie", t); ("telemetry", m); ("fleet", f)])]).

End Health.

(* ================================================================== *)
(** ** The host runtime: requests, responses, bindings *)

Module Host.
Import Py.

(** [Response(body, status, headers)]; [body] is the value handed to
    [json.dumps]. *)
Record Response : Type := {
  body : json;
  status : Z;
  headers : list (string * string)
}.

(** An inbound request: method, the path and the query mapping that
    [urlparse] and [parse_qs] read from its URL, its headers, and what
    [await request.json()] yields. *)
Record Request : Type := {
  req_method : string;
  req_path : string;
  req_query : list (string * list string);
  req_headers : list (string * string);
  req_json : json + exn
}.

(** [request.headers.get(name, "")] *)
Definition header_or_empty (request : Request) (name : string) : string :=
  match assoc name (req_headers request) with
  | Some v => v
  | None => ""
  end.

(** Bindings and secrets of the worker; [None] is an unset variable. *)
Record Env : Type := {
  JWT_SECRET : option string;
  TESSIE_API_KEY : option string;
  TESLEMETRY_API_KEY : option string;
  FLEET_API_KEY : option string;
  FLEET_REGION : option string;
  ASSETS : option (Request -> Response + exn)
}.

End Host.

(* ================================================================== *)
(** ** src_python/main.py: the multi-API worker *)

Module Worker.
Import Py Eff Client Host.

Definition _json_response (data : json) (status : Z) : Response :=
  {| body := data; status := status;
     headers := [("Content-Type", "application/json")] |}.

Definition _error_response (status : Z) (message : string) : Response :=
  _json_response (JObj [("error", JStr message)]) status.

(** [{k: v[0] if len(v) == 1 else v for k, v in params.items()}] *)
Definition _parse_query_params (request : Request) : list (string * qval) :=
  map (fun kv =>
         (fst kv,
          match snd kv with
          | [v] => QOne v
          | vs => QMany vs
          end))
      (req_query request).

Definition _parse_json_body (request : Request) : M json :=
  try_except
    (if startswith (header_or_empty request "Content-Type") "application/json"
     then lift (req_json request)
     else ret (JObj []))
    (fun e => Some (raise (HTTPException 400
                             ("Invalid JSON body: " ++ str_of_exn e)))).

Definition _extract_path_suffix (full_path prefix : string) : string :=
  if startswith full_path prefix
  then lstrip "/" (slice_from (String.length prefix) full_path)
  else "".

(** [e.status_code or 500] *)
Definition status_or_500 (status_code : option Z) : Z :=
  match status_code with
  | Some c => if c =? 0 then 500 else c
  | None => 500
  end.

(** The clause [except TessieAPIError as e] of the three route blocks. *)
Definition on_api_error (client : UnifiedTessieClient) (e : exn)
    : option (M Response) :=
  match e with
  | TessieAPIError message status_code =>
      Some (close client ;;;
            ret (_error_response (status_or_500 status_code) message))
  | _ => None
  end.

(** The statements after a route block's if/elif chain. *)
Definition respond (client : UnifiedTessieClient) (result : json) : M Response :=
  close client ;;;
  ret (_json_response result 200).

(** [json_body = await _parse_json_body(request) if method in [...] else None] *)
Definition body_for (request : Request) (method : string) : M (option json) :=
  if mem method ["POST"; "PUT"; "PATCH"]
  then j <- _parse_json_body request ;; ret (Some j)
  else ret None.

(** [params.get("only_active", "true").lower() == "true"] *)
Definition only_active_of (params : list (string * qval)) : M bool :=
  match assoc "only_active" params with
  | None => ret (String.eqb (lower "true") "true")
  | Some (QOne s) => ret (String.eqb (lower s) "true")
  | Some (QMany _) =>
      raise (PyError "AttributeError" "'list' object has no attribute 'lower'")
  end.

(** [json_body.get("percent") if json_body else None] *)
Definition percent_of (json_body : option json) : M json :=
  match json_body with
  | Some j => if truthy j then lift (get j "percent") else ret JNull
  | None => ret JNull
  end.

Definition is_none (j : json) : bool :=
  match j with
  | JNull => true
  | _ => false
  end.

Definition tessie_routes (client : UnifiedTessieClient) (request : Request)
    (path method : string) : M Response :=
  match tessie client with
  | None =>
      close client ;;;
      ret (_error_response 503 "Tessie API not configured")
  | Some api =>
      let endpoint := _extract_path_suffix path "/api/tessie" in
      let params := _parse_query_params request in
      json_body <- body_for request method ;;
      try_except
        (if String.eqb endpoint "vehicles" then
           only_active <- only_active_of params ;;
           result <- Tessie.list_vehicles api only_active ;;
           respond client result
         else if endswith endpoint "/state" then
           vin <- item (split endpoint "/") 0 ;;
           result <- Tessie.state api vin ;;
           respond client result
         else if endswith endpoint "/battery" then
           vin <- item (split endpoint "/") 0 ;;
           result <- Tessie.battery api vin ;;
           respond client result
         else if endswith endpoint "/wake" && String.eqb method "POST" then
           vin <- item (split endpoint "/") 0 ;;
           result <- Tessie.wake api vin ;;
           respond client result
         else if contains "/command/start_charging" endpoint
                 && String.eqb method "POST" then
           vin <- item (split endpoint "/") 0 ;;
           result <- Tessie.start_charging api vin ;;
           respond client result
         else if contains "/command/stop_charging" endpoint
                 && String.eqb method "POST" then
           vin <- item (split endpoint "/") 0 ;;
           result <- Tessie.stop_charging api vin ;;
           respond client result
         else if contains "/command/set_charge_limit" endpoint
                 && String.eqb method "POST" then
           vin <- item (split endpoint "/") 0 ;;
           percent <- percent_of json_body ;;
           if is_none percent then
             raise (HTTPException 400 "Missing 'percent' parameter")
           else
             n <- lift (int percent) ;;
             result <- Tessie.set_charge_limit api vin n ;;
             respond client result
         else if contains "/command/lock" endpoint
                 && String.eqb method "POST" then
           vin <- item (split endpoint "/") 0 ;;
           result <- Tessie.lock api vin ;;
           respond client result
         else if contains "/command/unlock" endpoint
                 && String.eqb method "POST" then
           vin <- item (split endpoint "/") 0 ;;
           result <- Tessie.unlock api vin ;;
           respond client result
         else if contains "/command/flash_lights" endpoint
                 && String.eqb method "POST" then
           vin <- item (split endpoint "/") 0 ;;
           result <- Tessie.flash_lights api vin ;;
           respond client result
         else if contains "/command/honk" endpoint
                 && String.eqb method "POST" then
           vin <- item (split endpoint "/") 0 ;;
           result <- Tessie.honk api vin ;;
           respond client result
         else if contains "/command/start_climate" endpoint
                 && String.eqb method "POST" then
           vin <- item (split endpoint "/") 0 ;;
           result <- Tessie.start_climate api vin ;;
           respond client result
         else if contains "/command/stop_climate" endpoint
                 && String.eqb method "POST" then
           vin <- item (split endpoint "/") 0 ;;
           result <- Tessie.stop_climate api vin ;;
           respond client result
         else
           close client ;;;
           ret (_error_response 404 ("Tessie endpoint not found: " ++ endpoint)))
        (on_api_error client)
  end.

(** [enabled_param == "true"] and [enabled_param == "false"] *)
Definition qval_is (o : option qval) (s : string) : bool :=
  match o with
  | Some (QOne v) => String.eqb v s
  | _ => false
  end.

Definition qval_is_none (o : option qval) : bool :=
  match o with
  | None => true
  | Some _ => false
  end.

Definition telemetry_routes (client : UnifiedTessieClient) (request : Request)
    (path method : string) : M Response :=
  match telemetry client with
  | None =>
      close client ;;;
      ret (_error_response 503 "Teslemetry API not configured")
  | Some api =>
      let endpoint := _extract_path_suffix path "/api/telemetry" in
      let params := _parse_query_params request in
      try_except
        (if String.eqb endpoint "ping" then
           result <- Teslemetry.ping api ;;
           respond client result
         else if String.eqb endpoint "test" then
           result <- Teslemetry.test api ;;
           respond client result
         else if String.eqb endpoint "metadata" then
           result <- Teslemetry.metadata api ;;
           respond client result
         else if String.eqb endpoint "scopes" then
           result <- Teslemetry.scopes api ;;
           respond client result
         else if contains "/polling" endpoint then
           vin <- item (split endpoint "/") 1 ;;
           let enabled_param := assoc "enabled" params in
           if qval_is_none enabled_param && String.eqb method "GET" then
             result <- Teslemetry.server_side_polling api vin None ;;
             respond client result
           else if qval_is enabled_param "true" || String.eqb method "POST" then
             result <- Teslemetry.server_side_polling api vin (Some true) ;;
             respond client result
           else if qval_is enabled_param "false" || String.eqb method "DELETE" then
             result <- Teslemetry.server_side_polling api vin (Some false) ;;
             respond client result
           else
             raise (HTTPException 400 "Invalid polling operation")
         else if contains "/refresh" endpoint && String.eqb method "POST" then
           vin <- item (split endpoint "/") 1 ;;
           result <- Teslemetry.vehicle_data_refresh api vin ;;
           respond client result
         else
           close client ;;;
           ret (_error_response 404
                  ("Teslemetry endpoint not found: " ++ endpoint)))
        (on_api_error client)
  end.

Definition fleet_routes (client : UnifiedTessieClient) (request : Request)
    (path method : string) : M Response :=
  match fleet client with
  | None =>
      close client ;;;
      ret (_error_response 503 "Tesla Fleet API not configured")
  | Some api =>
      let endpoint := _extract_path_suffix path "/api/fleet" in
      let params := _parse_query_params request in
      json_body <- body_for request method ;;
      try_except
        (if String.eqb endpoint "vehicles" then
           result <- Fleet.list_vehicles api ;;
           respond client result
         else if contains "/vehicle_data" endpoint then
           vin <- item (split endpoint "/") 0 ;;
           let endpoints_param := assoc "endpoints" params in
           result <- Fleet.vehicle_data api vin endpoints_param ;;
           respond client result
         else if contains "/wake_up" endpoint && String.eqb method "POST" then
           vin <- item (split endpoint "/") 0 ;;
           result <- Fleet.wake_up api vin ;;
           respond client result
         else if contains "/command/" endpoint && String.eqb method "POST" then
           let parts := split endpoint "/command/" in
           vin <- item parts 0 ;;
           command <- item parts 1 ;;
           result <- Fleet.command api vin command json_body ;;
           respond client result
         else
           close client ;;;
           ret (_error_response 404 ("Fleet endpoint not found: " ++ endpoint)))
        (on_api_error client)
  end.

Definition is_some {A} (o : option A) : bool :=
  match o with
  | Some _ => true
  | None => false
  end.

Definition json_of_token_set (o : option string) : json := JBool (is_some o).

(** The clauses [except HTTPException] and [except Exception] that end
    [fetch]; the [print] of the second is not part of the world. *)
Definition on_failure (client : UnifiedTessieClient) (e : exn)
    : option (M Response) :=
  match e with
  | HTTPException status message =>
      Some (close client ;;;
            ret (_error_response status message))
  | _ =>
      Some (close client ;;;
            ret (_error_response 500
                   ("Internal Server Error: " ++ str_of_exn e)))
  end.

(** The statements of [fetch] inside its [try]. *)
Definition guarded (client : UnifiedTessieClient) (request : Request) (env : Env)
    : M Response :=
  let path := req_path request in
  let method := upper (req_method request) in
  let tessie_token := TESSIE_API_KEY env in
  let telemetry_token := TESLEMETRY_API_KEY env in
  let fleet_token := FLEET_API_KEY env in
  let fleet_region :=
    match FLEET_REGION env with
    | Some r => r
    | None => "na"
    end in
  if String.eqb path "/health" && String.eqb method "GET" then
    result <- Health.check_all client ;;
    close client ;;;
    ret (_json_response result 200)
  else if String.eqb path "/status" && String.eqb method "GET" then
    health_result <- Health.check_all client ;;
    auth_result <- Health.check_auth client ;;
    close client ;;;
    ret (_json_response
           (JObj [("health", health_result);
                  ("authentication", auth_result);
                  ("configuration",
                   JObj [("tessie_configured", json_of_token_set tessie_token);
                         ("telemetry_configured", json_of_token_set telemetry_token);
                         ("fleet_configured", json_of_token_set fleet_token);
                         ("fleet_region", JStr fleet_region)])])
           200)
  else if startswith path "/api/tessie/" then
    tessie_routes client request path method
  else if startswith path "/api/telemetry/" then
    telemetry_routes client request path method
  else if startswith path "/api/fleet/" then
    fleet_routes client request path method
  else
    match ASSETS env with
    | Some assets_binding =>
        close client ;;;
        lift (assets_binding request)
    | None =>
        close client ;;;
        ret (_error_response 404 "Not Found")
    end.

(** [fetch]: the unified client is built from the environment, then the
    guarded statements run under the two closing [except] clauses. *)
Definition fetch (request : Request) (env : Env) : M Response :=
  let fleet_region :=
    match FLEET_REGION env with
    | Some r => r
    | None => "na"
    end in
  client <- UnifiedTessieClient_init (TESSIE_API_KEY env) (TESLEMETRY_API_KEY env)
              (FLEET_API_KEY env) fleet_region ;;
  try_except (guarded client request env) (on_failure client).

End Worker.

(* ================================================================== *)
(** ** src/main.py: the single-API worker behind the bearer-token gate *)

Module Gated.
Import Py Eff Host.

Section Collaborators.

(** [jwt.decode(token, secret, algorithms=["HS256"])]: [true] when the
    library accepts the token, [false] when it raises [PyJWTError]. *)
Variable jwt_decode : string -> string -> bool.

(** The four upstream operations that the module imports from the
    package [tessie_api]; each takes the session (the pool of the
    world), the API key, the VIN and, for the last, the percentage. *)
Variable get_state : string -> string -> M json.
Variable wake : string -> string -> M json.
Variable start_charging : string -> string -> M json.
Variable set_charge_limit : string -> string -> Z -> M json.

Definition _authorize_request (request : Request) (env : Env) : M unit :=
  match assoc "Authorization" (req_headers request) with
  | None => raise (HTTPException 401 "Missing or invalid Authorization header")
  | Some authorization =>
      if negb (truthy_str (Some authorization))
         || negb (startswith authorization "Bearer ")
      then raise (HTTPException 401 "Missing or invalid Authorization header")
      else
        rest <- item (split_once authorization " ") 1 ;;
        let token := strip rest in
        if String.eqb token "" then
          raise (HTTPException 401 "Missing bearer token")
        else
          match JWT_SECRET env with
          | None => raise (HTTPException 500 "JWT secret is not configured")
          | Some jwt_secret =>
              if negb (truthy_str (Some jwt_secret)) then
                raise (HTTPException 500 "JWT secret is not configured")
              else if jwt_decode token jwt_secret then ret tt
              else raise (HTTPException 403 "Invalid token")
          end
  end.

Definition _extract_vin (params : list (string * json)) : M string :=
  let vin := match assoc "vin" params with
             | Some v => v
             | None => JNull
             end in
  vin <- match vin with
         | JArr (first :: _) => ret first
         | JArr [] => raise (PyError "IndexError" "list index out of range")
         | v => ret v
         end ;;
  match vin with
  | JStr s =>
      if String.eqb s "" then
        raise (HTTPException 400 "Missing required 'vin' parameter")
      else ret s
  | _ => raise (HTTPException 400 "Missing required 'vin' parameter")
  end.

(** [{key: values if len(values) > 1 else values[0] for key, values in
    parse_qs(parsed.query).items()}] *)
Fixpoint query_items (items : list (string * list string))
    : M (list (string * json)) :=
  match items with
  | [] => ret []
  | (key, values) :: rest =>
      v <- match values with
           | [] => raise (PyError "IndexError" "list index out of range")
           | [v] => ret (JStr v)
           | vs => ret (JArr (map JStr vs))
           end ;;
      tail <- query_items rest ;;
      ret ((key, v) :: tail)
  end.

Definition _parse_request_data (request : Request) : M (list (string * json)) :=
  if String.eqb (upper (req_method request)) "GET" then
    query_items (req_query request)
  else if startswith (header_or_empty request "Content-Type") "application/json" then
    body <- try_except (lift (req_json request))
              (fun _ => Some (raise (HTTPException 400 "Invalid JSON body"))) ;;
    match body with
    | JObj fields => ret fields
    | _ => raise (HTTPException 400 "JSON body must be an object")
    end
  else raise (HTTPException 400 "Unsupported content type").

Definition _json_response (data : json) (status : Z) : Response :=
  {| body := data; status := status;
     headers := [("Content-Type", "application/json")] |}.

Definition _error_response (status : Z) (message : string) : Response :=
  _json_response (JObj [("error", JStr message)]) status.

Definition _handle_status (tessie_key : string) (params : list (string * json))
    : M json :=
  vin <- _extract_vin params ;;
  get_state tessie_key vin.

Definition _handle_wake (tessie_key : string) (params : list (string * json))
    : M json :=
  vin <- _extract_vin params ;;
  wake tessie_key vin.

Definition _handle_start_charging (tessie_key : string)
    (params : list (string * json)) : M json :=
  vin <- _extract_vin params ;;
  start_charging tessie_key vin.

Definition _handle_set_charge_limit (tessie_key : string)
    (params : list (string * json)) : M json :=
  vin <- _extract_vin params ;;
  match assoc "percent" params with
  | None | Some JNull =>
      raise (HTTPException 400 "Missing required 'percent' parameter")
  | Some percent =>
      percent_value <-
        try_except (lift (int percent))
          (fun e =>
             match e with
             | PyError "TypeError" _ | PyError "ValueError" _ =>
                 Some (raise (HTTPException 400 "'percent' must be an integer"))
             | _ => None
             end) ;;
      set_charge_limit tessie_key vin percent_value
  end.

(** The route table of [fetch], keyed by method and path. *)
Definition routes (method path : string)
    : option (string -> list (string * json) -> M json) :=
  if String.eqb method "GET" && String.eqb path "/status" then Some _handle_status
  else if String.eqb method "POST" && String.eqb path "/wake" then Some _handle_wake
  else if String.eqb method "POST" && String.eqb path "/command/start_charging"
  then Some _handle_start_charging
  else if String.eqb method "POST" && String.eqb path "/command/set_charge_limit"
  then Some _handle_set_charge_limit
  else None.

(** [async with ClientSession() as session]: the session is open
    inside the block and closed when the block is left, also by an
    exception. *)
Definition with_session {A} (block : M A) : M A :=
  fun w =>
    let opened := {| upstream := upstream w; pool_open := true;
                     calls := calls w; logs := logs w |} in
    let (r, w') := block opened in
    (r, {| upstream := upstream w'; pool_open := false;
           calls := calls w'; logs := logs w' |}).

(** [fetch]: the gate runs before the [try]; the final
    [return _json_response(result)], which follows the [try] in the
    source, is the last step of the guarded block here. *)
Definition fetch (request : Request) (env : Env) : M Response :=
  _authorize_request request env ;;;
  match routes (upper (req_method request)) (req_path request) with
  | None => ret (_json_response (JObj [("error", JStr "Not Found")]) 404)
  | Some route_handler =>
      match TESSIE_API_KEY env with
      | None =>
          ret (_json_response
                 (JObj [("error", JStr "Tessie API key is not configured")]) 500)
      | Some tessie_key =>
          if negb (truthy_str (Some tessie_key)) then
            ret (_json_response
                   (JObj [("error", JStr "Tessie API key is not configured")]) 500)
          else
            try_except
              (params <- _parse_request_data request ;;
               result <- with_session (route_handler tessie_key params) ;;
               ret (_json_response result 200))
              (fun e =>
                 match e with
                 | HTTPException status message =>
                     Some (ret (_error_response status message))
                 | _ =>
                     Some (ret (_json_response
                                  (JObj [("error", JStr "Internal Server Error")])
                                  500))
                 end)
      end
  end.

End Collaborators.

End Gated.

(* ================================================================== *)
(** ** The route blocks as ordered tables

    The design reads each route block of the multi-API worker as an
    ordered list of rules (shape of the descriptor, method filter,
    operation) of which the first that matches wins.  The tables below
    follow that reading; the theorems compare them with the if/elif
    chains of [Worker]. *)

Module Table.
Import Py Eff Client Host.

Inductive shape : Type :=
| Exact (s : string)
| EndsWith (s : string)
| Contains (s : string).

Definition shape_matches (p : shape) (endpoint : string) : bool :=
  match p with
  | Exact s => String.eqb endpoint s
  | EndsWith s => endswith endpoint s
  | Contains s => contains s endpoint
  end.

Record rule (Op : Type) : Type := {
  rule_shape : shape;
  rule_method : option string;
  rule_op : Op
}.
Arguments rule_shape {Op} r.
Arguments rule_method {Op} r.
Arguments rule_op {Op} r.

Definition rule_matches {Op} (r : rule Op) (endpoint method : string) : bool :=
  shape_matches (rule_shape r) endpoint &&
  match rule_method r with
  | Some m => String.eqb method m
  | None => true
  end.

(** The operation of the first rule, in the order of the table, that
    matches. *)
Definition first_match {Op} (rules : list (rule Op)) (endpoint method : string)
    : option Op :=
  option_map rule_op (find (fun r => rule_matches r endpoint method) rules).

Definition is_exact (p : shape) : bool :=
  match p with
  | Exact _ => true
  | _ => false
  end.

(** No exact rule stands after a rule of another shape. *)
Fixpoint literals_first {Op} (rules : list (rule Op)) : bool :=
  match rules with
  | [] => true
  | r :: rest =>
      if is_exact (rule_shape r) then literals_first rest
      else forallb (fun r' => negb (is_exact (rule_shape r'))) rest
  end.

Inductive tessie_op : Type :=
| ListVehicles | State | Battery | Wake | StartCharging | StopCharging
| SetChargeLimit | Lock | Unlock | FlashLights | Honk | StartClimate
| StopClimate.

Definition tessie_rules : list (rule tessie_op) :=
  [ {| rule_shape := Exact "vehicles"; rule_method := None; rule_op := ListVehicles |};
    {| rule_shape := EndsWith "/state"; rule_method := None; rule_op := State |};
    {| rule_shape := EndsWith "/battery"; rule_method := None; rule_op := Battery |};
    {| rule_shape := EndsWith "/wake"; rule_method := Some "POST"; rule_op := Wake |};
    {| rule_shape := Contains "/command/start_charging"; rule_method := Some "POST";
       rule_op := StartCharging |};
    {| rule_shape := Contains "/command/stop_charging"; rule_method := Some "POST";
       rule_op := StopCharging |};
    {| rule_shape := Contains "/command/set_charge_limit"; rule_method := Some "POST";
       rule_op := SetChargeLimit |};
    {| rule_shape := Contains "/command/lock"; rule_method := Some "POST";
       rule_op := Lock |};
    {| rule_shape := Contains "/command/unlock"; rule_method := Some "POST";
       rule_op := Unlock |};
    {| rule_shape := Contains "/command/flash_lights"; rule_method := Some "POST";
       rule_op := FlashLights |};
    {| rule_shape := Contains "/command/honk"; rule_method := Some "POST";
       rule_op := Honk |};
    {| rule_shape := Contains "/command/start_climate"; rule_method := Some "POST";
       rule_op := StartClimate |};
    {| rule_shape := Contains "/command/stop_climate"; rule_method := Some "POST";
       rule_op := StopClimate |} ].

(** The client call that an operation of the Tessie table stands for,
    with its arguments taken from the descriptor, the query and the body. *)
Definition tessie_run (op : tessie_op) (api : BaseAPIClient) (endpoint : string)
    (params : list (string * qval)) (json_body : option json) : M json :=
  match op with
  | ListVehicles =>
      only_active <- Worker.only_active_of params ;;
      Tessie.list_vehicles api only_active
  | SetChargeLimit =>
      vin <- item (split endpoint "/") 0 ;;
      percent <- Worker.percent_of json_body ;;
      if Worker.is_none percent then
        raise (HTTPException 400 "Missing 'percent' parameter")
      else
        n <- lift (int percent) ;;
        Tessie.set_charge_limit api vin n
  | _ =>
      vin <- item (split endpoint "/") 0 ;;
      match op with
      | State => Tessie.state api vin
      | Battery => Tessie.battery api vin
      | Wake => Tessie.wake api vin
      | StartCharging => Tessie.start_charging api vin
      | StopCharging => Tessie.stop_charging api vin
      | Lock => Tessie.lock api vin
      | Unlock => Tessie.unlock api vin
      | FlashLights => Tessie.flash_lights api vin
      | Honk => Tessie.honk api vin
      | StartClimate => Tessie.start_climate api vin
      | _ => Tessie.stop_climate api vin
      end
  end.

Inductive telemetry_op : Type :=
| Ping | Test | Metadata | Scopes | Polling | Refresh.

Definition telemetry_rules : list (rule telemetry_op) :=
  [ {| rule_shape := Exact "ping"; rule_method := None; rule_op := Ping |};
    {| rule_shape := Exact "test"; rule_method := None; rule_op := Test |};
    {| rule_shape := Exact "metadata"; rule_method := None; rule_op := Metadata |};
    {| rule_shape := Exact "scopes"; rule_method := None; rule_op := Scopes |};
    {| rule_shape := Contains "/polling"; rule_method := None; rule_op := Polling |};
    {| rule_shape := Contains "/refresh"; rule_method := Some "POST";
       rule_op := Refresh |} ].

Definition telemetry_run (op : telemetry_op) (api : BaseAPIClient)
    (endpoint method : string) (params : list (string * qval)) : M json :=
  match op with
  | Ping => Teslemetry.ping api
  | Test => Teslemetry.test api
  | Metadata => Teslemetry.metadata api
  | Scopes => Teslemetry.scopes api
  | Polling =>
      vin <- item (split endpoint "/") 1 ;;
      let enabled_param := assoc "enabled" params in
      if Worker.qval_is_none enabled_param && String.eqb method "GET" then
        Teslemetry.server_side_polling api vin None
      else if Worker.qval_is enabled_param "true" || String.eqb method "POST" then
        Teslemetry.server_side_polling api vin (Some true)
      else if Worker.qval_is enabled_param "false" || String.eqb method "DELETE" then
        Teslemetry.server_side_polling api vin (Some false)
      else raise (HTTPException 400 "Invalid polling operation")
  | Refresh =>
      vin <- item (split endpoint "/") 1 ;;
      Teslemetry.vehicle_data_refresh api vin
  end.

Inductive fleet_op : Type :=
| FleetVehicles | VehicleData | WakeUp | Command.

Definition fleet_rules : list (rule fleet_op) :=
  [ {| rule_shape := Exact "vehicles"; rule_method := None; rule_op := FleetVehicles |};
    {| rule_shape := Contains "/vehicle_data"; rule_method := None;
       rule_op := VehicleData |};
    {| rule_shape := Contains "/wake_up"; rule_method := Some "POST";
       rule_op := WakeUp |};
    {| rule_shape := Contains "/command/"; rule_method := Some "POST";
       rule_op := Command |} ].

Definition fleet_run (op : fleet_op) (api : BaseAPIClient) (endpoint : string)
    (params : list (string * qval)) (json_body : option json) : M json :=
  match op with
  | FleetVehicles => Fleet.list_vehicles api
  | VehicleData =>
      vin <- item (split endpoint "/") 0 ;;
      Fleet.vehicle_data api vin (assoc "endpoints" params)
  | WakeUp =>
      vin <- item (split endpoint "/") 0 ;;
      Fleet.wake_up api vin
  | Command =>
      let parts := split endpoint "/command/" in
      vin <- item parts 0 ;;
      command <- item parts 1 ;;
      Fleet.command api vin command json_body
  end.

(** A route block driven by its table: run the operation of the first
    matching rule and answer 200 with its result, answer 404 when no
    rule matches; an upstream error is answered as in the worker. *)
Definition by_table {Op} (rules : list (rule Op)) (run : Op -> M json)
    (client : UnifiedTessieClient) (endpoint method family : string)
    : M Response :=
  try_except
    match first_match rules endpoint method with
    | Some op =>
        result <- run op ;;
        Worker.respond client result
    | None =>
        close client ;;;
        ret (Worker._error_response 404
               (family ++ " endpoint not found: " ++ endpoint))
    end
    (Worker.on_api_error client).

End Table.

(* ================================================================== *)
(** ** Vocabulary of the statements *)

Module Spec.
Import Py Eff Client Host.

(** [m] never raises. *)
Definition returns {A} (m : M A) : Prop :=
  forall w, exists a w', m w = (Return a, w').

(** When [m] returns, the connection pool is closed. *)
Definition closed_on_return {A} (m : M A) : Prop :=
  forall w a w', m w = (Return a, w') -> pool_open w' = false.

(** The three API families of the multi-API worker. *)
Inductive family : Type := FTessie | FTelemetry | FFleet.

Definition family_prefix (f : family) : string :=
  match f with
  | FTessie => "/api/tessie"
  | FTelemetry => "/api/telemetry"
  | FFleet => "/api/fleet"
  end.

Definition family_token (env : Env) (f : family) : option string :=
  match f with
  | FTessie => TESSIE_API_KEY env
  | FTelemetry => TESLEMETRY_API_KEY env
  | FFleet => FLEET_API_KEY env
  end.

Definition family_unconfigured (f : family) : string :=
  match f with
  | FTessie => "Tessie API not configured"
  | FTelemetry => "Teslemetry API not configured"
  | FFleet => "Tesla Fleet API not configured"
  end.

(** [c] occurs in [s]. *)
Fixpoint has_char (c : ascii) (s : string) : bool :=
  match s with
  | EmptyString => false
  | String a s' => Ascii.eqb a c || has_char c s'
  end.

(** [isinstance(e, HTTPException)] *)
Definition is_http_exception (e : exn) : bool :=
  match e with
  | HTTPException _ _ => true
  | _ => false
  end.

(** [isinstance(e, (TypeError, ValueError))] *)
Definition type_or_value_error (e : exn) : bool :=
  match e with
  | PyError kind _ => String.eqb kind "TypeError" || String.eqb kind "ValueError"
  | _ => false
  end.

(** A three-digit HTTP status code. *)
Definition http_status (code : Z) : Prop := 100 <= code <= 999.

(** The upstream call that [_request] makes. *)
Definition request_call (self : BaseAPIClient) (method endpoint : string)
    (params : option (list (string * qval))) (json_data : option json)
    : upstream_call :=
  {| uc_method := method;
     uc_url := base_url self ++ "/" ++ lstrip "/" endpoint;
     uc_headers := [("Authorization", "Bearer " ++ access_token self);
                    ("Content-Type", "application/json")];
     uc_params := params;
     uc_json := json_data |}.

Definition event (self : BaseAPIClient) (endpoint : string) (status : Z)
    (error : option string) : log_event :=
  {| log_api := APIType_value (api_type self); log_endpoint := endpoint;
     log_status := status; log_error := error |}.

(** The world after one more upstream call and the events logged for it. *)
Definition record (w : world) (c : upstream_call) (events : list log_event)
    : world :=
  {| upstream := upstream w; pool_open := pool_open w;
     calls := calls w ++ [c]; logs := logs w ++ events |}.

(** The world after [close]. *)
Definition closed (w : world) : world :=
  {| upstream := upstream w; pool_open := false;
     calls := calls w; logs := logs w |}.

(** [m] neither reads nor changes the world. *)
Definition pure {A} (m : M A) : Prop :=
  forall w, (exists a, m w = (Return a, w)) \/ (exists e, m w = (Raise e, w)).

(** From [w], [m] either raises before it has touched the world, or it
    raises [err] after an upstream call. *)
Definition fails_with {A} (err : exn) (m : M A) (w : world) : Prop :=
  (exists e, m w = (Raise e, w)) \/
  (exists w', m w = (Raise err, w') /\ calls w' <> calls w).

(** The world after [httpx.AsyncClient()] is constructed. *)
Definition opened (w : world) : world :=
  {| upstream := upstream w; pool_open := true;
     calls := calls w; logs := logs w |}.

End Spec.

(* ================================================================== *)
(** ** Concrete requests, environments and worlds *)

Module Sample.
Import Py Eff Client Host.

(** A world in which the upstream gives the same reply to every call;
    nothing has been called or logged. *)
Definition world_of (r : reply) : world :=
  {| upstream := fun _ _ => r; pool_open := false; calls := []; logs := [] |}.

Definition online : world :=
  world_of (HttpResponse 200 "{}" (inl (JObj [("result", JBool true)]))).

Definition offline : world := world_of (NoResponse "connection refused").

Definition request (method path : string) (query : list (string * list string))
    (headers : list (string * string)) (body : json + exn) : Request :=
  {| req_method := method; req_path := path; req_query := query;
     req_headers := headers; req_json := body |}.

Definition no_body : json + exn :=
  inr (PyError "JSONDecodeError" "Expecting value").

(** Only the Tessie key and the JWT secret are set. *)
Definition tessie_only : Env :=
  {| JWT_SECRET := Some "secret";
     TESSIE_API_KEY := Some "tessie-key";
     TESLEMETRY_API_KEY := None;
     FLEET_API_KEY := None;
     FLEET_REGION := None;
     ASSETS := None |}.

(** A stand-in for [jwt.decode] of the PyJWT library: the one token it
    accepts under a secret is the secret prefixed by "signed.". *)
Definition toy_jwt (token secret : string) : bool :=
  String.eqb token ("signed." ++ secret).

(** Modelled from the spec: the four operations that [src/main.py]
    imports from the package [tessie_api] (get_state, wake, start_charging,
    set_charge_limit), whose definitions are not among the sources.  Each
    makes one upstream call through the session, to the path the design
    gives for it; the charge limit goes as the JSON body {"percent": n}. *)
Definition toy_call (method path : string) (api_key : string)
    (body : option json) : M json :=
  r <- client_request
         {| uc_method := method; uc_url := "https://api.tessie.com" ++ path;
            uc_headers := [("Authorization", "Bearer " ++ api_key);
                           ("Content-Type", "application/json")];
            uc_params := None; uc_json := body |} ;;
  raise_for_status r ;;;
  response_json r.

Definition toy_get_state (api_key vin : string) : M json :=
  toy_call "GET" ("/" ++ vin ++ "/state") api_key None.
Definition toy_wake (api_key vin : string) : M json :=
  toy_call "POST" ("/" ++ vin ++ "/wake") api_key None.
Definition toy_start_charging (api_key vin : string) : M json :=
  toy_call "POST" ("/" ++ vin ++ "/command/start_charging") api_key None.
Definition toy_set_charge_limit (api_key vin : string) (percent : Z) : M json :=
  toy_call "POST" ("/" ++ vin ++ "/command/set_charge_limit") api_key
    (Some (JObj [("percent", JNum percent)])).

Definition gated_fetch : Request -> Env -> M Response :=
  Gated.fetch toy_jwt toy_get_state toy_wake toy_start_charging
    toy_set_charge_limit.

End Sample.

(* ================================================================== *)
(** ** src/tessie_api/fake_api.py and src/tessie_api/tessie_wrapper.py *)

Module Wrapper.
Import Py Eff Client.

(** [os.getenv(name, default)] on the process environment. *)
Definition getenv_or (environ : list (string * string)) (name default : string)
    : string :=
  match assoc name environ with
  | Some v => v
  | None => default
  end.

Definition DEFAULT_VIN : string := "TESTVIN1234567890".

Definition _resolve_vin (environ : list (string * string)) : string :=
  getenv_or environ "TESLA_VIN" DEFAULT_VIN.

Definition json_of_qval (v : qval) : json :=
  match v with
  | QOne s => JStr s
  | QMany l => JArr (map JStr l)
  end.

(** [params or {}] as a JSON object. *)
Definition json_of_params (params : option (list (string * qval))) : json :=
  match params with
  | Some l => JObj (map (fun kv => (fst kv, json_of_qval (snd kv))) l)
  | None => JObj []
  end.

Definition get_fake_response (environ : list (string * string)) (path : string)
    (params : option (list (string * qval))) : json :=
  if String.eqb path "/vehicles" then
    let vin := _resolve_vin environ in
    JObj [("count", JNum 1);
          ("results",
           JArr [JObj [("vin", JStr vin);
                       ("state", JStr "online");
                       ("display_name", JStr "Simulated Tessie");
                       ("id", JStr (vin ++ "-simulated"))]])]
  else if endswith path "/state" then
    let vin := _resolve_vin environ in
    JObj [("vin", JStr vin); ("state", JStr "online")]
  else
    JObj [("path", JStr path);
          ("params", json_of_params params);
          ("status", JStr "simulated")].

(** [(value or "").strip().lower()] *)
Definition _normalize_flag (value : option string) : string :=
  lower (strip (match value with Some v => v | None => "" end)).

Definition _should_use_fake (environ : list (string * string))
    (api_key : option string) : bool :=
  if mem (_normalize_flag (assoc "TESSIE_USE_FAKE_RESPONSES" environ))
         ["1"; "true"; "yes"; "on"]
  then true
  else
    let fake_key := getenv_or environ "TESSIE_FAKE_API_KEY" "FAKE_TESSIE_KEY" in
    match api_key with
    | Some k => String.eqb k fake_key
    | None => false
    end.

(** [session.request] of aiohttp: a closed session refuses to send;
    otherwise the call reaches the upstream and is recorded. *)
Definition session_request (c : upstream_call) : M response :=
  fun w =>
    if pool_open w then
      let w' := {| upstream := upstream w;
                   pool_open := pool_open w;
                   calls := calls w ++ [c];
                   logs := logs w |} in
      match upstream w (List.length (calls w)) c with
      | HttpResponse s t j =>
          (Return {| status_code := s; text := t; parsed := j |}, w')
      | NoResponse detail => (Raise (PyError "ClientConnectionError" detail), w')
      end
    else (Raise (PyError "RuntimeError" "Session is closed"), w).

(** [response.raise_for_status()] of aiohttp: statuses from 400 on raise
    ClientResponseError. *)
Definition raise_for_status (r : response) : M unit :=
  if 400 <=? status_code r
  then raise (PyError "ClientResponseError" (str_of_int (status_code r)))
  else ret tt.

Definition tessieRequest (environ : list (string * string))
    (method path : string) (api_key : option string)
    (params : option (list (string * qval))) : M json :=
  if _should_use_fake environ api_key then
    ret (get_fake_response environ path params)
  else
    match api_key with
    | Some key =>
        if negb (truthy_str api_key) then
          raise (PyError "ValueError"
                   "A Tessie API key is required. Set the TESSIE_KEY environment variable or pass api_key explicitly.")
        else
          let url := "https://api.tessie.com" ++ path in
          let headers := [("Authorization", "Bearer " ++ key);
                          ("Content-Type", "application/json")] in
          response <- session_request
                        {| uc_method := method; uc_url := url;
                           uc_headers := headers; uc_params := params;
                           uc_json := None |} ;;
          raise_for_status response ;;;
          response_json response
    | None =>
        raise (PyError "ValueError"
                 "A Tessie API key is required. Set the TESSIE_KEY environment variable or pass api_key explicitly.")
    end.

End Wrapper.

(* ================================================================== *)
(** ** Vocabulary of the further statements *)

Module Cover.
Import Py Eff Client Host Spec.

(** The client that [UnifiedTessieClient] builds for a family, if its
    token is set. *)
Definition family_client (env : Env) (f : family) : option BaseAPIClient :=
  match f with
  | FTessie =>
      match TESSIE_API_KEY env with
      | Some t => if truthy_str (TESSIE_API_KEY env)
                  then Some (TessieClient_init t) else None
      | None => None
      end
  | FTelemetry =>
      match TESLEMETRY_API_KEY env with
      | Some t => if truthy_str (TESLEMETRY_API_KEY env)
                  then Some (TeslemetryClient_init t None) else None
      | None => None
      end
  | FFleet =>
      match FLEET_API_KEY env with
      | Some t => if truthy_str (FLEET_API_KEY env)
                  then Some (FleetAPIClient_init t
                               (match FLEET_REGION env with
                                | Some r => r
                                | None => "na"
                                end))
                  else None
      | None => None
      end
  end.

(** The unified client that [fetch] builds from the environment. *)
Definition clients (env : Env) : UnifiedTessieClient :=
  {| tessie := family_client env FTessie;
     telemetry := family_client env FTelemetry;
     fleet := family_client env FFleet |}.

(** The route block of a family in [fetch]. *)
Definition family_block (f : family) (client : UnifiedTessieClient)
    (request : Request) : M Response :=
  match f with
  | FTessie => Worker.tessie_routes client request (req_path request)
                 (upper (req_method request))
  | FTelemetry => Worker.telemetry_routes client request (req_path request)
                    (upper (req_method request))
  | FFleet => Worker.fleet_routes client request (req_path request)
                (upper (req_method request))
  end.

(** The hosts a family's client can be bound to. *)
Definition family_hosts (f : family) : list string :=
  match f with
  | FTessie => ["https://api.tessie.com"]
  | FTelemetry => ["https://api.teslemetry.com"]
  | FFleet => ["https://fleet-api.prd.na.vn.cloud.tesla.com";
               "https://fleet-api.prd.eu.vn.cloud.tesla.com";
               "https://fleet-api.prd.cn.vn.cloud.tesla.cn"]
  end.

(** Whatever [m] does from [w], it adds no upstream call or exactly one,
    made by [api] with a method that [ok] accepts. *)
Definition one_call (api : BaseAPIClient) (ok : string -> bool) {A} (m : M A)
    (w : world) : Prop :=
  forall r w', m w = (r, w') ->
    calls w' = calls w \/
    exists method endpoint params json_data,
      ok method = true /\
      calls w' =
        (calls w ++ [request_call api method endpoint params json_data])%list.

(** Whatever [m] does from [w], it adds exactly the call [c]. *)
Definition makes (c : upstream_call) {A} (m : M A) (w : world) : Prop :=
  forall r w', m w = (r, w') -> calls w' = (calls w ++ [c])%list.

(** [m] adds no upstream call. *)
Definition quiet {A} (m : M A) : Prop :=
  forall w r w', m w = (r, w') -> calls w' = calls w.

Definition is_get (method : string) : bool := String.eqb method "GET".

Definition any_method (method : string) : bool := true.

(** The number of families whose token is set. *)
Definition configured (env : Env) : nat :=
  (if truthy_str (TESSIE_API_KEY env) then 1 else 0) +
  (if truthy_str (TESLEMETRY_API_KEY env) then 1 else 0) +
  (if truthy_str (FLEET_API_KEY env) then 1 else 0).

(** The health check of a family. *)
Definition probe (f : family) (client : UnifiedTessieClient)
    : M Health.APIStatus :=
  match f with
  | FTessie => Health.check_tessie client
  | FTelemetry => Health.check_telemetry client
  | FFleet => Health.check_fleet client
  end.

(** The call that the health check of a family makes. *)
Definition probe_call (f : family) (api : BaseAPIClient) : upstream_call :=
  match f with
  | FTessie =>
      request_call api "GET" "vehicles" (Some [("only_active", QOne "true")]) None
  | FTelemetry => request_call api "GET" "ping" None None
  | FFleet => request_call api "GET" "api/1/vehicles" None None
  end.

(** From [w], [m] returns, leaves the pool as it was and adds [n] calls
    to the record, every one of them a GET. *)
Definition reads (n : nat) {A} (m : M A) (w : world) : Prop :=
  exists a w' l,
    m w = (Return a, w') /\
    pool_open w' = pool_open w /\
    calls w' = (calls w ++ l)%list /\
    List.length l = n /\
    Forall (fun c => uc_method c = "GET") l.

(** How the single-API [fetch] answers the outcome of a route handler:
    the result with 200, an HTTPException as its own status and
    message, any other exception as 500. *)
Definition gated_answer (r : outcome json) : Response :=
  match r with
  | Return result => Gated._json_response result 200
  | Raise (HTTPException status message) => Gated._error_response status message
  | Raise _ =>
      Gated._json_response (JObj [("error", JStr "Internal Server Error")]) 500
  end.

(** The keys of the route table of the single-API worker. *)
Definition gated_routes : list (string * string) :=
  [("GET", "/status"); ("POST", "/wake"); ("POST", "/command/start_charging");
   ("POST", "/command/set_charge_limit")].

(** A value of the parameter [vin] that [_extract_vin] accepts, as it is
    or as the first element of a list. *)
Definition usable_vin (v : option json) : option string :=
  match v with
  | Some (JStr s) | Some (JArr (JStr s :: _)) =>
      if String.eqb s "" then None else Some s
  | _ => None
  end.

(** The name of a family in the reports of /health and /status. *)
Definition family_key (f : family) : string :=
  match f with
  | FTessie => "tessie"
  | FTelemetry => "telemetry"
  | FFleet => "fleet"
  end.

(** The member of a JSON document that a path of keys leads to. *)
Fixpoint member_at (keys : list string) (j : json) : option json :=
  match keys with
  | [] => Some j
  | k :: keys' =>
      match j with
      | JObj fields =>
          match assoc k fields with
          | Some v => member_at keys' v
          | None => None
          end
      | _ => None
      end
  end.

End Cover.

(* ================================================================== *)
(** * Properties *)

Import Py Eff Client Host Spec.

(** ** Reasoning about coroutines *)

Section EffFacts.
Context {A B : Type}.

Lemma bind_return (m : M A) (k : A -> M B) w a w' :
  m w = (Return a, w') -> bind m k w = k a w'.
Proof. intros H. unfold bind. now rewrite H. Qed.

Lemma bind_raise (m : M A) (k : A -> M B) w e w' :
  m w = (Raise e, w') -> bind m k w = (Raise e, w').
Proof. intros H. unfold bind. now rewrite H. Qed.

Lemma try_return (body : M A) handler w a w' :
  body w = (Return a, w') -> try_except body handler w = (Return a, w').
Proof. intros H. unfold try_except. now rewrite H. Qed.

Lemma try_caught (body : M A) handler w e w' h :
  body w = (Raise e, w') -> handler e = Some h ->
  try_except body handler w = h w'.
Proof. intros H H'. unfold try_except. now rewrite H, H'. Qed.

Lemma try_passed (body : M A) handler w e w' :
  body w = (Raise e, w') -> handler e = None ->
  try_except body handler w = (Raise e, w').
Proof. intros H H'. unfold try_except. now rewrite H, H'. Qed.

(** Inversion of a bind that returned. *)
Lemma bind_returned (m : M A) (k : A -> M B) w b w' :
  bind m k w = (Return b, w') ->
  exists a w1, m w = (Return a, w1) /\ k a w1 = (Return b, w').
Proof.
  unfold bind. destruct (m w) as [[a | e] w1]; intros H.
  - now exists a, w1.
  - discriminate.
Qed.

End EffFacts.

Lemma returns_ret {A} (a : A) : returns (ret a).
Proof. intros w. now exists a, w. Qed.

Lemma returns_bind {A B} (m : M A) (k : A -> M B) :
  returns m -> (forall a, returns (k a)) -> returns (bind m k).
Proof.
  intros Hm Hk w. destruct (Hm w) as (a & w1 & E).
  rewrite (bind_return _ _ _ _ _ E). apply Hk.
Qed.

Lemma returns_try {A} (body : M A) handler :
  (forall e, exists h, handler e = Some h /\ returns h) ->
  returns (try_except body handler).
Proof.
  intros Hh w. unfold try_except.
  destruct (body w) as [[a | e] w1].
  - now exists a, w1.
  - destruct (Hh e) as (h & -> & R). apply R.
Qed.

Lemma cor_raise {A} e : closed_on_return (@raise A e).
Proof. intros w a w' H. discriminate. Qed.

Lemma cor_bind {A B} (m : M A) (k : A -> M B) :
  (forall a, closed_on_return (k a)) -> closed_on_return (bind m k).
Proof.
  intros Hk w b w' H. apply bind_returned in H.
  destruct H as (a & w1 & _ & H). now apply (Hk a w1 b).
Qed.

Lemma cor_try {A} (body : M A) handler :
  closed_on_return body ->
  (forall e h, handler e = Some h -> closed_on_return h) ->
  closed_on_return (try_except body handler).
Proof.
  intros Hb Hh w a w'. unfold try_except.
  destruct (body w) as [[x | e] w1] eqn:E.
  - intros H. inversion H; subst. now apply (Hb w a).
  - destruct (handler e) as [h |] eqn:E'; [| discriminate].
    apply (Hh e h E').
Qed.

Lemma cor_close_ret {A} client (r : A) : closed_on_return (close client ;;; ret r).
Proof. intros w a w' H. inversion H; subst. reflexivity. Qed.

Lemma cor_close_lift {A} client (r : A + exn) :
  closed_on_return (close client ;;; lift r).
Proof.
  intros w a w' H. destruct r; inversion H; subst. reflexivity.
Qed.

Lemma cor_respond client result : closed_on_return (Worker.respond client result).
Proof. apply cor_close_ret. Qed.

Lemma cor_on_api_error client e h :
  Worker.on_api_error client e = Some h -> closed_on_return h.
Proof.
  destruct e; simpl; intros H; try discriminate.
  inversion H; subst. apply cor_close_ret.
Qed.

Lemma cor_on_failure client e h :
  Worker.on_failure client e = Some h -> closed_on_return h.
Proof.
  destruct e; simpl; intros H; inversion H; subst; apply cor_close_ret.
Qed.

Lemma on_failure_returns client e :
  exists h, Worker.on_failure client e = Some h /\ returns h.
Proof.
  destruct e; simpl; eexists; (split; [reflexivity |]);
    intros w; eexists; eexists; reflexivity.
Qed.

(** Decomposition of a computation whose return must leave the pool
    closed. *)
Ltac cor_step :=
  match goal with
  | |- closed_on_return (raise _) => apply cor_raise
  | |- closed_on_return (Worker.respond _ _) => apply cor_respond
  | |- closed_on_return (close _ ;;; ret _) => apply cor_close_ret
  | |- closed_on_return (close _ ;;; lift _) => apply cor_close_lift
  | |- closed_on_return (bind _ _) => apply cor_bind; intros
  | |- closed_on_return (try_except _ (Worker.on_api_error _)) =>
      apply cor_try; [| apply cor_on_api_error]
  | |- closed_on_return (if ?c then _ else _) => destruct c
  | |- closed_on_return (match ?c with _ => _ end) => destruct c
  end.

Lemma cor_tessie_routes client request path method :
  closed_on_return (Worker.tessie_routes client request path method).
Proof. unfold Worker.tessie_routes. repeat cor_step. Qed.

Lemma cor_telemetry_routes client request path method :
  closed_on_return (Worker.telemetry_routes client request path method).
Proof. unfold Worker.telemetry_routes. repeat cor_step. Qed.

Lemma cor_fleet_routes client request path method :
  closed_on_return (Worker.fleet_routes client request path method).
Proof. unfold Worker.fleet_routes. repeat cor_step. Qed.

Lemma cor_guarded client request env :
  closed_on_return (Worker.guarded client request env).
Proof.
  unfold Worker.guarded.
  destruct (_ && _). { repeat cor_step. }
  destruct (_ && _). { repeat cor_step. }
  destruct (startswith _ _). { apply cor_tessie_routes. }
  destruct (startswith _ _). { apply cor_telemetry_routes. }
  destruct (startswith _ _). { apply cor_fleet_routes. }
  repeat cor_step.
Qed.

(** C9: on every path of the multi-API [fetch] - health and status, the
    503 answers, every route of the three families with its 200, 404 and
    upstream-error answers, the static-asset fallthrough, the
    HTTPException clause and the clause for any other exception - the
    handler returns a response, and the connection pool that the handler
    opened is closed when it does. *)
Theorem C9_pool_closed_on_every_return :
  forall (request : Request) (env : Env) (w : world),
    exists (resp : Response) (w' : world),
      Worker.fetch request env w = (Return resp, w') /\ pool_open w' = false.
Proof.
  intros request env w. unfold Worker.fetch.
  set (region := match FLEET_REGION env with Some r => r | None => "na" end).
  destruct (UnifiedTessieClient_init (TESSIE_API_KEY env) (TESLEMETRY_API_KEY env)
              (FLEET_API_KEY env) region w) as [[client | e] w1] eqn:E;
    [| discriminate].
  rewrite (bind_return _ _ _ _ _ E).
  pose proof (cor_try _ _ (cor_guarded client request env)
                (cor_on_failure client)) as Hc.
  destruct (returns_try (Worker.guarded client request env) (Worker.on_failure client)
              (on_failure_returns client) w1) as (resp & w' & R).
  exists resp, w'. split; [exact R |]. exact (Hc _ _ _ R).
Qed.

(** ** Health aggregation *)

Import Health.

Lemma known_unknown l : known (UNKNOWN :: l) = known l.
Proof. reflexivity. Qed.

(** [UNKNOWN] entries do not take part in the aggregate, wherever they
    stand. *)
Lemma overall_known l : overall (known l) = overall l.
Proof.
  unfold overall.
  assert (H : known (known l) = known l).
  { unfold known. induction l as [| s l IH]; simpl; [reflexivity |].
    destruct s; simpl; now rewrite ?IH. }
  now rewrite H.
Qed.

Lemma overall_app_unknown l1 l2 : overall (l1 ++ UNKNOWN :: l2) = overall (l1 ++ l2).
Proof.
  rewrite <- (overall_known (l1 ++ _)), <- (overall_known (l1 ++ l2)).
  unfold known. now rewrite !filter_app.
Qed.

Lemma overall_unhealthy l : In UNHEALTHY l -> overall l = UNHEALTHY.
Proof.
  intros H. unfold overall.
  assert (K : In UNHEALTHY (known l)) by (apply filter_In; now split).
  destruct (forallb _ (known l)) eqn:F.
  - rewrite forallb_forall in F. now specialize (F _ K).
  - assert (X : existsb (fun s => HealthStatus_eqb s UNHEALTHY) (known l) = true).
    { apply existsb_exists. now exists UNHEALTHY. }
    now rewrite X.
Qed.

Lemma overall_degraded l :
  ~ In UNHEALTHY l -> In DEGRADED l -> overall l = DEGRADED.
Proof.
  intros N H. unfold overall.
  assert (K : In DEGRADED (known l)) by (apply filter_In; now split).
  destruct (forallb _ (known l)) eqn:F.
  - rewrite forallb_forall in F. now specialize (F _ K).
  - destruct (existsb (fun s => HealthStatus_eqb s UNHEALTHY) (known l)) eqn:X.
    + apply existsb_exists in X. destruct X as (s & I & Es).
      destruct s; try discriminate. apply filter_In in I. tauto.
    + assert (Y : existsb (fun s => HealthStatus_eqb s DEGRADED) (known l) = true).
      { apply existsb_exists. now exists DEGRADED. }
      now rewrite Y.
Qed.

Lemma overall_healthy l :
  (forall s, In s l -> s <> UNKNOWN -> s = HEALTHY) -> overall l = HEALTHY.
Proof.
  intros H. unfold overall.
  assert (F : forallb (fun s => HealthStatus_eqb s HEALTHY) (known l) = true).
  { apply forallb_forall. intros s I. apply filter_In in I. destruct I as [I U].
    rewrite (H s I); [reflexivity |]. intros ->. discriminate. }
  now rewrite F.
Qed.

(** The last branch of the chain is dead: the aggregate is never
    [UNKNOWN]. *)
Lemma overall_never_unknown l : overall l <> UNKNOWN.
Proof.
  unfold overall.
  destruct (forallb _ (known l)) eqn:F; [discriminate |].
  destruct (existsb (fun s => HealthStatus_eqb s UNHEALTHY) (known l)) eqn:X;
    [discriminate |].
  destruct (existsb (fun s => HealthStatus_eqb s DEGRADED) (known l)) eqn:Y;
    [discriminate |].
  exfalso.
  assert (G : forallb (fun s => HealthStatus_eqb s HEALTHY) (known l) = true).
  { apply forallb_forall. intros s I.
    destruct s; try reflexivity.
    - assert (Z : existsb (fun s => HealthStatus_eqb s DEGRADED) (known l) = true)
        by (apply existsb_exists; now exists DEGRADED).
      congruence.
    - assert (Z : existsb (fun s => HealthStatus_eqb s UNHEALTHY) (known l) = true)
        by (apply existsb_exists; now exists UNHEALTHY).
      congruence.
    - apply filter_In in I. now destruct I. }
  congruence.
Qed.

Lemma check_tessie_returns client : returns (check_tessie client).
Proof.
  unfold check_tessie. destruct (tessie client); [| apply returns_ret].
  apply returns_try. intros e.
  destruct e; eexists; (split; [reflexivity | apply returns_ret]).
Qed.

Lemma check_telemetry_returns client : returns (check_telemetry client).
Proof.
  unfold check_telemetry. destruct (telemetry client); [| apply returns_ret].
  apply returns_try. intros e.
  destruct e; eexists; (split; [reflexivity | apply returns_ret]).
Qed.

Lemma check_fleet_returns client : returns (check_fleet client).
Proof.
  unfold check_fleet. destruct (fleet client); [| apply returns_ret].
  apply returns_try. intros e.
  destruct e; eexists; (split; [reflexivity | apply returns_ret]).
Qed.

(** [check_all] runs the three checks and reports the aggregate of their
    three statuses. *)
Lemma check_all_reports_overall client w :
  exists a1 w1 a2 w2 a3 w3 apis,
    check_tessie client w = (Return a1, w1) /\
    check_telemetry client w1 = (Return a2, w2) /\
    check_fleet client w2 = (Return a3, w3) /\
    check_all client w =
      (Return (JObj [("status",
                      JStr (HealthStatus_value
                              (overall [status a1; status a2; status a3])));
                     ("apis", apis)]), w3).
Proof.
  destruct (check_tessie_returns client w) as (a1 & w1 & E1).
  destruct (check_telemetry_returns client w1) as (a2 & w2 & E2).
  destruct (check_fleet_returns client w2) as (a3 & w3 & E3).
  exists a1, w1, a2, w2, a3, w3. eexists. repeat (split; [eassumption |]).
  unfold check_all.
  rewrite (bind_return _ _ _ _ _ E1), (bind_return _ _ _ _ _ E2),
    (bind_return _ _ _ _ _ E3).
  reflexivity.
Qed.

(** C8: [check_all] runs the three checks and reports the aggregate of
    the three statuses that they return, and for every combination of
    the three: one UNHEALTHY family makes the aggregate UNHEALTHY;
    otherwise one DEGRADED family makes it DEGRADED; if every family
    that is not UNKNOWN is HEALTHY it is HEALTHY; and a family that is
    UNKNOWN leaves the aggregate of the other families unchanged. *)
Theorem C8_check_all_aggregation :
  (forall client w, exists a1 w1 a2 w2 a3 w3 apis,
      check_tessie client w = (Return a1, w1) /\
      check_telemetry client w1 = (Return a2, w2) /\
      check_fleet client w2 = (Return a3, w3) /\
      check_all client w =
        (Return (JObj [("status",
                        JStr (HealthStatus_value
                                (overall [status a1; status a2; status a3])));
                       ("apis", apis)]), w3)) /\
  forall s1 s2 s3 : HealthStatus,
    (In UNHEALTHY [s1; s2; s3] -> overall [s1; s2; s3] = UNHEALTHY) /\
    (~ In UNHEALTHY [s1; s2; s3] -> In DEGRADED [s1; s2; s3] ->
     overall [s1; s2; s3] = DEGRADED) /\
    ((forall s, In s [s1; s2; s3] -> s <> UNKNOWN -> s = HEALTHY) ->
     overall [s1; s2; s3] = HEALTHY) /\
    overall [UNKNOWN; s2; s3] = overall [s2; s3] /\
    overall [s1; UNKNOWN; s3] = overall [s1; s3] /\
    overall [s1; s2; UNKNOWN] = overall [s1; s2].
Proof.
  split.
  - intros client w.
    destruct (check_all_reports_overall client w)
      as (a1 & w1 & a2 & w2 & a3 & w3 & apis & E1 & E2 & E3 & E).
    exists a1, w1, a2, w2, a3, w3, apis.
    exact (conj E1 (conj E2 (conj E3 E))).
  - intros s1 s2 s3.
    refine (conj _ (conj _ (conj _ (conj _ (conj _ _))))).
    + apply overall_unhealthy.
    + apply overall_degraded.
    + apply overall_healthy.
    + apply (overall_app_unknown [] [s2; s3]).
    + apply (overall_app_unknown [s1] [s3]).
    + apply (overall_app_unknown [s1; s2] []).
Qed.

Lemma C8_witness :
  overall [UNHEALTHY; HEALTHY; UNKNOWN] = UNHEALTHY /\
  overall [DEGRADED; HEALTHY; UNKNOWN] = DEGRADED /\
  overall [HEALTHY; UNKNOWN; HEALTHY] = HEALTHY.
Proof.
  destruct (proj2 C8_check_all_aggregation UNHEALTHY HEALTHY UNKNOWN)
    as (U & _).
  destruct (proj2 C8_check_all_aggregation DEGRADED HEALTHY UNKNOWN)
    as (_ & D & _).
  destruct (proj2 C8_check_all_aggregation HEALTHY UNKNOWN HEALTHY)
    as (_ & _ & H & _).
  split; [| split].
  - apply U. simpl. auto.
  - apply D.
    + simpl. intros [E | [E | [E | []]]]; discriminate.
    + simpl. auto.
  - apply H. simpl. intros s [E | [E | [E | []]]] N; congruence.
Defined.

(** C10: when none of the three tokens is configured, the three checks
    answer UNKNOWN without an upstream call and [check_all] reports
    "healthy"; and no combination of three statuses makes the aggregate
    UNKNOWN, so the last branch of the chain is never taken. *)
Theorem C10_unconfigured_reports_healthy :
  (forall (t1 t2 t3 : option string) (region : string) (w : world),
      truthy_str t1 = false -> truthy_str t2 = false -> truthy_str t3 = false ->
      exists client w1 apis,
        UnifiedTessieClient_init t1 t2 t3 region w = (Return client, w1) /\
        check_tessie client w1 =
          (Return {| name := "Tessie API"; status := UNKNOWN;
                     error := Some "API token not configured";
                     details := None |}, w1) /\
        check_telemetry client w1 =
          (Return {| name := "Teslemetry API"; status := UNKNOWN;
                     error := Some "API token not configured";
                     details := None |}, w1) /\
        check_fleet client w1 =
          (Return {| name := "Tesla Fleet API"; status := UNKNOWN;
                     error := Some "API token not configured";
                     details := None |}, w1) /\
        check_all client w1 =
          (Return (JObj [("status", JStr "healthy"); ("apis", apis)]), w1) /\
        calls w1 = calls w) /\
  overall [UNKNOWN; UNKNOWN; UNKNOWN] = HEALTHY /\
  (forall s1 s2 s3 : HealthStatus, overall [s1; s2; s3] <> UNKNOWN).
Proof.
  split; [| split].
  - intros t1 t2 t3 region w H1 H2 H3.
    eexists. eexists. eexists.
    split; [reflexivity |].
    unfold check_all, check_tessie, check_telemetry, check_fleet. simpl.
    destruct t1 as [s1 |], t2 as [s2 |], t3 as [s3 |];
      rewrite ?H1, ?H2, ?H3; simpl; repeat split; reflexivity.
  - reflexivity.
  - intros s1 s2 s3. apply overall_never_unknown.
Qed.

Lemma C10_witness :
  exists client w1 apis,
    UnifiedTessieClient_init None (Some "") None "na"
      {| upstream := fun _ _ => NoResponse "offline"; pool_open := false;
         calls := []; logs := [] |} = (Return client, w1) /\
    check_all client w1 =
      (Return (JObj [("status", JStr "healthy"); ("apis", apis)]), w1).
Proof.
  destruct (proj1 C10_unconfigured_reports_healthy None (Some "") None "na"
              {| upstream := fun _ _ => NoResponse "offline"; pool_open := false;
                 calls := []; logs := [] |} eq_refl eq_refl eq_refl)
    as (client & w1 & apis & E & _ & _ & _ & A & _).
  exists client, w1, apis. split; assumption.
Defined.
(** ** Strings *)

Lemma prefix_split p : forall s,
  String.prefix p s = true -> s = p ++ slice_from (String.length p) s.
Proof.
  induction p as [| a p IH]; intros s H; simpl.
  - reflexivity.
  - destruct s as [| b s]; simpl in H; [discriminate |].
    destruct (ascii_dec a b) as [-> |]; [| discriminate].
    simpl. f_equal. now apply IH.
Qed.

Lemma startswith_nil s : startswith s "" = true.
Proof. now destruct s. Qed.

Lemma startswith_split s p :
  startswith s p = true -> exists r, s = p ++ r.
Proof. intros H. eexists. now apply prefix_split. Qed.

Lemma init_spec t1 t2 t3 region w :
  exists client,
    UnifiedTessieClient_init t1 t2 t3 region w = (Return client, opened w) /\
    (truthy_str t1 = false -> tessie client = None) /\
    (truthy_str t2 = false -> telemetry client = None) /\
    (truthy_str t3 = false -> fleet client = None) /\
    (forall k, t1 = Some k -> truthy_str t1 = true ->
               tessie client = Some (TessieClient_init k)).
Proof.
  eexists. split; [reflexivity |]. simpl.
  repeat split.
  - intros H. destruct t1; [now rewrite H | reflexivity].
  - intros H. destruct t2; [now rewrite H | reflexivity].
  - intros H. destruct t3; [now rewrite H | reflexivity].
  - intros k -> H. now rewrite H.
Qed.

(** C6: for every request whose path lies under the prefix of a family
    whose token is not configured (unset or empty), the multi-API worker
    answers 503 with the message naming the family, makes no upstream
    call, and leaves the pool closed. *)
Theorem C6_unconfigured_family_503 :
  forall (f : family) (request : Request) (env : Env) (w : world),
    startswith (req_path request) (family_prefix f ++ "/") = true ->
    truthy_str (family_token env f) = false ->
    exists w',
      Worker.fetch request env w =
        (Return (Worker._error_response 503 (family_unconfigured f)), w') /\
      calls w' = calls w /\ pool_open w' = false.
Proof.
  intros f request env w Hp Ht.
  apply startswith_split in Hp. destruct Hp as [r Hr].
  unfold Worker.fetch.
  set (region := match FLEET_REGION env with Some r => r | None => "na" end).
  destruct (init_spec (TESSIE_API_KEY env) (TESLEMETRY_API_KEY env)
              (FLEET_API_KEY env) region w) as (client & E & T1 & T2 & T3 & _).
  rewrite (bind_return _ _ _ _ _ E).
  exists {| upstream := upstream w; pool_open := false;
            calls := calls w; logs := logs w |}.
  split; [| split; reflexivity].
  apply try_return. unfold Worker.guarded. rewrite Hr.
  destruct f; simpl in Ht |- *; rewrite startswith_nil.
  - unfold Worker.tessie_routes. rewrite (T1 Ht). reflexivity.
  - unfold Worker.telemetry_routes. rewrite (T2 Ht). reflexivity.
  - unfold Worker.fleet_routes. rewrite (T3 Ht). reflexivity.
Qed.

Lemma C6_witness :
  exists w',
    Worker.fetch (Sample.request "POST" "/api/telemetry/ping" [] [] Sample.no_body)
      Sample.tessie_only Sample.online =
      (Return (Worker._error_response 503 "Teslemetry API not configured"), w') /\
    calls w' = [] /\ pool_open w' = false.
Proof.
  apply (C6_unconfigured_family_503 FTelemetry
           (Sample.request "POST" "/api/telemetry/ping" [] [] Sample.no_body)
           Sample.tessie_only Sample.online); reflexivity.
Defined.

(** ** Request parsing and the content type *)

Lemma body_method_not_get m :
  mem m ["POST"; "PUT"; "PATCH"] = true -> String.eqb m "GET" = false.
Proof.
  intros H. destruct (String.eqb_spec m "GET") as [-> |]; [discriminate | reflexivity].
Qed.

(** C7 (amended): for every POST, PUT or PATCH request whose Content-Type
    does not start with application/json, the parser of the gated worker
    fails with 400 "Unsupported content type", while the body parser of
    the multi-API worker returns the empty mapping. *)
Theorem C7_content_type_policy :
  forall (request : Request) (w : world),
    mem (upper (req_method request)) ["POST"; "PUT"; "PATCH"] = true ->
    startswith (header_or_empty request "Content-Type") "application/json" = false ->
    Gated._parse_request_data request w =
      (Raise (HTTPException 400 "Unsupported content type"), w) /\
    Worker._parse_json_body request w = (Return (JObj []), w) /\
    Worker.body_for request (upper (req_method request)) w =
      (Return (Some (JObj [])), w).
Proof.
  intros request w Hm Hc. repeat split.
  - unfold Gated._parse_request_data.
    now rewrite (body_method_not_get _ Hm), Hc.
  - unfold Worker._parse_json_body, try_except. now rewrite Hc.
  - unfold Worker.body_for, Worker._parse_json_body, try_except, bind.
    now rewrite Hm, Hc.
Qed.

Lemma C7_witness :
  Gated._parse_request_data
    (Sample.request "post" "/wake" [] [("Content-Type", "text/plain")] Sample.no_body)
    Sample.online =
    (Raise (HTTPException 400 "Unsupported content type"), Sample.online) /\
  Worker._parse_json_body
    (Sample.request "post" "/wake" [] [("Content-Type", "text/plain")] Sample.no_body)
    Sample.online = (Return (JObj []), Sample.online) /\
  Worker.body_for
    (Sample.request "post" "/wake" [] [("Content-Type", "text/plain")] Sample.no_body)
    "POST" Sample.online = (Return (Some (JObj [])), Sample.online).
Proof.
  apply (C7_content_type_policy
           (Sample.request "post" "/wake" [] [("Content-Type", "text/plain")]
              Sample.no_body) Sample.online); reflexivity.
Defined.

(** The multi-API worker takes a POST with a text/plain body for a
    request with the empty mapping: its parser does not fail, and the
    lock command goes upstream. *)
Lemma C7_counterexample :
  let request :=
    Sample.request "POST" "/api/tessie/5YJ3E1EA1KF000001/command/lock" []
      [("Content-Type", "text/plain")] Sample.no_body in
  fst (Worker._parse_json_body request Sample.online) = Return (JObj []) /\
  (forall status message,
      fst (Worker._parse_json_body request Sample.online)
      <> Raise (HTTPException status message)) /\
  fst (Worker.fetch request Sample.tessie_only Sample.online) =
    Return (Worker._json_response (JObj [("result", JBool true)]) 200).
Proof.
  cbv zeta. split; [reflexivity |]. split; [| reflexivity].
  intros status message H. discriminate H.
Qed.

(** ** The bearer-token gate of the single-API worker *)

Section Gate.
Variable jwt_decode : string -> string -> bool.
Variables get_state wake start_charging : string -> string -> M json.
Variable set_charge_limit : string -> string -> Z -> M json.

(** The gate reads the request and the environment only. *)
Lemma authorize_pure request env w :
  snd (Gated._authorize_request jwt_decode request env w) = w.
Proof.
  unfold Gated._authorize_request.
  destruct (assoc _ _) as [a |]; [| reflexivity].
  destruct (_ || _); [reflexivity |].
  unfold bind, item.
  destruct (index _ _); [| reflexivity]. simpl.
  destruct (String.eqb _ _); [reflexivity |].
  destruct (JWT_SECRET env); [| reflexivity].
  destruct (negb _); [reflexivity |].
  destruct (jwt_decode _ _); reflexivity.
Qed.

(** A header that is missing, empty or without the "Bearer " prefix is
    refused with 401. *)
Lemma authorize_malformed request env w :
  match assoc "Authorization" (req_headers request) with
  | Some a => startswith a "Bearer " = false
  | None => True
  end ->
  Gated._authorize_request jwt_decode request env w =
    (Raise (HTTPException 401 "Missing or invalid Authorization header"), w).
Proof.
  unfold Gated._authorize_request.
  destruct (assoc _ _) as [a |]; [| reflexivity].
  intros ->. now rewrite orb_true_r.
Qed.

Lemma split_once_bearer rest :
  split_once ("Bearer " ++ rest) " " = ["Bearer"; rest].
Proof. reflexivity. Qed.

Lemma startswith_nonempty a p :
  startswith a (String p EmptyString) = true -> String.eqb a "" = false.
Proof. destruct a; [discriminate | reflexivity]. Qed.

(** What the gate does with a header "Bearer <rest>". *)
Lemma authorize_bearer request env w rest :
  assoc "Authorization" (req_headers request) = Some ("Bearer " ++ rest) ->
  Gated._authorize_request jwt_decode request env w =
    (if String.eqb (strip rest) "" then
       Raise (HTTPException 401 "Missing bearer token")
     else
       match JWT_SECRET env with
       | Some secret =>
           if String.eqb secret "" then
             Raise (HTTPException 500 "JWT secret is not configured")
           else if jwt_decode (strip rest) secret then Return tt
           else Raise (HTTPException 403 "Invalid token")
       | None => Raise (HTTPException 500 "JWT secret is not configured")
       end, w).
Proof.
  intros H. unfold Gated._authorize_request. rewrite H.
  simpl. rewrite startswith_nil. unfold bind, item. simpl.
  destruct (String.eqb (strip rest) ""); [reflexivity |].
  destruct (JWT_SECRET env) as [secret |]; [| reflexivity].
  simpl. destruct (String.eqb secret ""); simpl; [reflexivity |].
  destruct (jwt_decode _ _); reflexivity.
Qed.

(** A failure of the gate leaves [fetch] as the exception it raised. *)
Lemma fetch_gate_failure request env w e :
  fst (Gated._authorize_request jwt_decode request env w) = Raise e ->
  Gated.fetch jwt_decode get_state wake start_charging set_charge_limit
    request env w = (Raise e, w).
Proof.
  intros H. unfold Gated.fetch. apply bind_raise.
  pose proof (authorize_pure request env w) as P.
  destruct (Gated._authorize_request jwt_decode request env w) as [r w'].
  simpl in *. now subst.
Qed.

End Gate.

(** C2: a request without an Authorization header, with one that lacks
    the "Bearer " prefix, or with an empty token makes the gate raise
    HTTPException 401, and a token that the JWT library refuses makes it
    raise HTTPException 403, each time before any upstream call; but
    [fetch] runs the gate outside its [try], so it raises that exception
    instead of returning the JSON error response. *)
Theorem C2_gate_failure_escapes_fetch :
  forall jwt_decode get_state wake start_charging set_charge_limit
         (method path : string) query body (env : Env) (w : world),
    Gated.fetch jwt_decode get_state wake start_charging set_charge_limit
      (Sample.request method path query [] body) env w =
      (Raise (HTTPException 401 "Missing or invalid Authorization header"), w) /\
    Gated.fetch jwt_decode get_state wake start_charging set_charge_limit
      (Sample.request method path query [("Authorization", "Basic dXNlcg==")] body)
      env w =
      (Raise (HTTPException 401 "Missing or invalid Authorization header"), w) /\
    Gated.fetch jwt_decode get_state wake start_charging set_charge_limit
      (Sample.request method path query [("Authorization", "Bearer   ")] body)
      env w =
      (Raise (HTTPException 401 "Missing bearer token"), w) /\
    Gated.fetch (fun _ _ => false) get_state wake start_charging set_charge_limit
      (Sample.request method path query [("Authorization", "Bearer a.b.c")] body)
      Sample.tessie_only w =
      (Raise (HTTPException 403 "Invalid token"), w).
Proof.
  intros. repeat split; apply fetch_gate_failure; reflexivity.
Qed.

(** ** The closing [except] clauses *)

Section GatedFetch.
Variable jwt_decode : string -> string -> bool.
Variables get_state wake start_charging : string -> string -> M json.
Variable set_charge_limit : string -> string -> Z -> M json.

Let fetch := Gated.fetch jwt_decode get_state wake start_charging set_charge_limit.
Let routes := Gated.routes get_state wake start_charging set_charge_limit.

(** Once the gate has passed, [fetch] returns a response whatever the
    parser and the route handler do. *)
Lemma gated_fetch_returns_after_gate request env w :
  fst (Gated._authorize_request jwt_decode request env w) = Return tt ->
  exists resp w', fetch request env w = (Return resp, w').
Proof.
  intros G. unfold fetch, Gated.fetch.
  pose proof (authorize_pure jwt_decode request env w) as P.
  destruct (Gated._authorize_request jwt_decode request env w) as [r w0] eqn:E.
  simpl in G, P. subst r w0.
  rewrite (bind_return _ _ _ _ _ E).
  destruct (Gated.routes _ _ _ _ _ _); [| eexists; eexists; reflexivity].
  destruct (TESSIE_API_KEY env); [| eexists; eexists; reflexivity].
  destruct (negb _); [eexists; eexists; reflexivity |].
  apply returns_try. intros e.
  destruct e; eexists; (split; [reflexivity | apply returns_ret]).
Qed.

(** The guarded statements of the gated [fetch] and what becomes of an
    exception that is not an HTTPException. *)
Lemma gated_fetch_unclassified request env w handler key e w' :
  fst (Gated._authorize_request jwt_decode request env w) = Return tt ->
  routes (upper (req_method request)) (req_path request) = Some handler ->
  TESSIE_API_KEY env = Some key ->
  String.eqb key "" = false ->
  (params <- Gated._parse_request_data request ;;
   Gated.with_session (handler key params)) w = (Raise e, w') ->
  is_http_exception e = false ->
  fetch request env w =
    (Return (Gated._json_response (JObj [("error", JStr "Internal Server Error")])
               500), w').
Proof.
  intros G R K T B N. unfold fetch, Gated.fetch.
  pose proof (authorize_pure jwt_decode request env w) as P.
  destruct (Gated._authorize_request jwt_decode request env w) as [r w0] eqn:E.
  simpl in G, P. subst r w0.
  rewrite (bind_return _ _ _ _ _ E).
  unfold routes in R. rewrite R, K. simpl. rewrite T. simpl.
  unfold try_except.
  assert (X : (params <- Gated._parse_request_data request;;
               result <- Gated.with_session (handler key params);;
               ret (Gated._json_response result 200)) w = (Raise e, w')).
  { unfold bind in B |- *.
    destruct (Gated._parse_request_data request w) as [[params | e1] w1];
      [| now inversion B].
    destruct (Gated.with_session (handler key params) w1) as [[res | e2] w2];
      [discriminate | now inversion B]. }
  rewrite X. destruct e; try discriminate; reflexivity.
Qed.

End GatedFetch.

(** The multi-API [fetch] never raises: its last two clauses catch every
    exception. *)
Lemma worker_fetch_returns request env w :
  exists resp w', Worker.fetch request env w = (Return resp, w').
Proof.
  unfold Worker.fetch. apply returns_bind.
  - intros w0. eexists. eexists. reflexivity.
  - intros client. apply returns_try, on_failure_returns.
Qed.

(** An exception that leaves the guarded statements of the multi-API
    [fetch] and is not an HTTPException is answered with 500 and its own
    text after "Internal Server Error: ". *)
Lemma worker_fetch_unclassified request env w client w1 e w2 :
  UnifiedTessieClient_init (TESSIE_API_KEY env) (TESLEMETRY_API_KEY env)
    (FLEET_API_KEY env)
    (match FLEET_REGION env with Some r => r | None => "na" end) w
    = (Return client, w1) ->
  Worker.guarded client request env w1 = (Raise e, w2) ->
  is_http_exception e = false ->
  fst (Worker.fetch request env w) =
    Return (Worker._error_response 500
              ("Internal Server Error: " ++ str_of_exn e)).
Proof.
  intros I G N. unfold Worker.fetch.
  rewrite (bind_return _ _ _ _ _ I). unfold try_except. rewrite G.
  destruct e; try discriminate; reflexivity.
Qed.

(** C3 (amended): the multi-API [fetch] always returns a response, and an
    exception of its guarded statements that is not an HTTPException is
    answered with 500 and the body "Internal Server Error: " followed by
    the text of the exception; the gated [fetch], once its gate has
    passed, always returns a response, and an exception of its parser or
    route handler that is not an HTTPException is answered with 500 and
    the body "Internal Server Error". *)
Theorem C3_unclassified_exceptions_answered_500 :
  (forall request env w,
      exists resp w', Worker.fetch request env w = (Return resp, w')) /\
  (forall request env w client w1 e w2,
      UnifiedTessieClient_init (TESSIE_API_KEY env) (TESLEMETRY_API_KEY env)
        (FLEET_API_KEY env)
        (match FLEET_REGION env with Some r => r | None => "na" end) w
        = (Return client, w1) ->
      Worker.guarded client request env w1 = (Raise e, w2) ->
      is_http_exception e = false ->
      fst (Worker.fetch request env w) =
        Return (Worker._error_response 500
                  ("Internal Server Error: " ++ str_of_exn e))) /\
  (forall jwt_decode get_state wake start_charging set_charge_limit request env w,
      fst (Gated._authorize_request jwt_decode request env w) = Return tt ->
      exists resp w',
        Gated.fetch jwt_decode get_state wake start_charging set_charge_limit
          request env w = (Return resp, w')) /\
  (forall jwt_decode get_state wake start_charging set_charge_limit
          request env w handler key e w',
      fst (Gated._authorize_request jwt_decode request env w) = Return tt ->
      Gated.routes get_state wake start_charging set_charge_limit
        (upper (req_method request)) (req_path request) = Some handler ->
      TESSIE_API_KEY env = Some key ->
      String.eqb key "" = false ->
      (params <- Gated._parse_request_data request ;;
       Gated.with_session (handler key params)) w = (Raise e, w') ->
      is_http_exception e = false ->
      Gated.fetch jwt_decode get_state wake start_charging set_charge_limit
        request env w =
        (Return (Gated._json_response
                   (JObj [("error", JStr "Internal Server Error")]) 500), w')).
Proof.
  refine (conj _ (conj _ (conj _ _))).
  - exact worker_fetch_returns.
  - exact worker_fetch_unclassified.
  - exact gated_fetch_returns_after_gate.
  - exact gated_fetch_unclassified.
Qed.

Lemma C3_witness :
  fst (Worker.fetch
         (Sample.request "GET" "/api/tessie/vehicles"
            [("only_active", ["true"; "false"])] [] Sample.no_body)
         Sample.tessie_only Sample.online) =
    Return (Worker._error_response 500
              "Internal Server Error: 'list' object has no attribute 'lower'") /\
  Sample.gated_fetch
    (Sample.request "POST" "/wake" []
       [("Authorization", "Bearer signed.secret");
        ("Content-Type", "application/json")]
       (inl (JObj [("vin", JArr [])])))
    Sample.tessie_only Sample.online =
    (Return (Gated._json_response (JObj [("error", JStr "Internal Server Error")])
               500), Sample.online).
Proof.
  destruct C3_unclassified_exceptions_answered_500 as (_ & W & _ & G).
  split.
  - apply (W (Sample.request "GET" "/api/tessie/vehicles"
                [("only_active", ["true"; "false"])] [] Sample.no_body)
             Sample.tessie_only Sample.online
             {| tessie := Some (TessieClient_init "tessie-key");
                telemetry := None; fleet := None |}
             (opened Sample.online)
             (PyError "AttributeError" "'list' object has no attribute 'lower'")
             (opened Sample.online)); reflexivity.
  - apply (G Sample.toy_jwt Sample.toy_get_state Sample.toy_wake
             Sample.toy_start_charging Sample.toy_set_charge_limit
             (Sample.request "POST" "/wake" []
                [("Authorization", "Bearer signed.secret");
                 ("Content-Type", "application/json")]
                (inl (JObj [("vin", JArr [])])))
             Sample.tessie_only Sample.online
             (Gated._handle_wake Sample.toy_wake) "tessie-key"
             (PyError "IndexError" "list index out of range")
             Sample.online); reflexivity.
Defined.

(** A repeated [only_active] parameter makes the Tessie vehicle list
    raise AttributeError; the multi-API worker answers 500 with a body
    that differs from {"error": "Internal Server Error"}. *)
Lemma C3_counterexample :
  let request :=
    Sample.request "GET" "/api/tessie/vehicles"
      [("only_active", ["true"; "false"])] [] Sample.no_body in
  fst (Worker.guarded
         {| tessie := Some (TessieClient_init "tessie-key");
            telemetry := None; fleet := None |}
         request Sample.tessie_only (opened Sample.online)) =
    Raise (PyError "AttributeError" "'list' object has no attribute 'lower'") /\
  fst (Worker.fetch request Sample.tessie_only Sample.online) =
    Return (Worker._error_response 500
              "Internal Server Error: 'list' object has no attribute 'lower'") /\
  fst (Worker.fetch request Sample.tessie_only Sample.online) <>
    Return (Worker._json_response (JObj [("error", JStr "Internal Server Error")])
              500).
Proof.
  cbv zeta. split; [reflexivity |]. split; [reflexivity |].
  intros H. discriminate H.
Qed.

(** ** The low-level request *)

(** [_request] on an open pool, by the reply of the upstream. *)
Lemma request_spec self method endpoint params json_data w :
  pool_open w = true ->
  let c := request_call self method endpoint params json_data in
  _request self method endpoint params json_data w =
    match upstream w (List.length (calls w)) c with
    | HttpResponse s t p =>
        if is_success s then
          match p with
          | inl v => (Return v, record w c [event self endpoint s None])
          | inr message =>
              (Raise (TessieAPIError ("Request failed: " ++ message) None),
               record w c [event self endpoint s None;
                           event self endpoint 0
                             (Some ("Request failed: " ++ message))])
          end
        else
          (Raise (TessieAPIError ("HTTP " ++ str_of_int s ++ ": " ++ t) (Some s)),
           record w c [event self endpoint s None;
                       event self endpoint s
                         (Some ("HTTP " ++ str_of_int s ++ ": " ++ t))])
    | NoResponse detail =>
        (Raise (TessieAPIError ("Request failed: " ++ detail) None),
         record w c [event self endpoint 0 (Some ("Request failed: " ++ detail))])
    end.
Proof.
  intros O c. subst c.
  unfold _request, request_call, try_except, bind, client_request.
  rewrite O.
  destruct (upstream w _ _) as [s t p | detail].
  - simpl. unfold raise_for_status, response_json. simpl.
    destruct (is_success s); simpl.
    + destruct p as [v | message]; simpl; unfold record, event; simpl;
        rewrite ?O, <- ?app_assoc; reflexivity.
    + unfold record, event. simpl. rewrite ?O, <- ?app_assoc. reflexivity.
  - simpl. unfold record, event. simpl. rewrite ?O. reflexivity.
Qed.

(** ** The route blocks and their tables *)

Lemma bind_assoc {A B C} (m : M A) (f : A -> M B) (g : B -> M C) w :
  bind (bind m f) g w = bind m (fun a => bind (f a) g) w.
Proof. unfold bind. destruct (m w) as [[a | e] w1]; reflexivity. Qed.

Lemma bind_cong {A B} (m : M A) (k1 k2 : A -> M B) w :
  (forall a w', k1 a w' = k2 a w') -> bind m k1 w = bind m k2 w.
Proof. intros H. unfold bind. destruct (m w) as [[a | e] w1]; [apply H | reflexivity]. Qed.

Lemma try_ext {A} (b1 b2 : M A) h w :
  b1 w = b2 w -> try_except b1 h w = try_except b2 h w.
Proof. unfold try_except. now intros ->. Qed.

(** Two computations that differ by the nesting of their binds. *)
Ltac same_run :=
  unfold bind;
  repeat first
    [ reflexivity
    | match goal with
      | |- context [if ?c then _ else _] => destruct c
      end
    | match goal with
      | |- context [match ?m ?w with _ => _ end] =>
          destruct (m w) as [[? | ?] ?]
      end ].

Lemma tessie_routes_by_table client api request path method w :
  tessie client = Some api ->
  Worker.tessie_routes client request path method w =
    (json_body <- Worker.body_for request method ;;
     Table.by_table Table.tessie_rules
       (fun op => Table.tessie_run op api
                    (Worker._extract_path_suffix path "/api/tessie")
                    (Worker._parse_query_params request) json_body)
       client (Worker._extract_path_suffix path "/api/tessie") method "Tessie") w.
Proof.
  intros H. unfold Worker.tessie_routes. rewrite H.
  generalize (Worker._extract_path_suffix path "/api/tessie") as endpoint.
  generalize (Worker._parse_query_params request) as params.
  intros params endpoint.
  apply bind_cong. clear w. intros jb w.
  unfold Table.by_table, Table.first_match, Table.tessie_rules.
  cbn [find]. unfold Table.rule_matches, Table.shape_matches.
  cbn [Table.rule_shape Table.rule_method Table.rule_op].
  rewrite ?andb_true_r.
  repeat match goal with
         | |- try_except (if ?c then _ else _) _ _ = _ =>
             destruct c; cbn [option_map Table.rule_op Table.tessie_run]
         end;
    try reflexivity; apply try_ext; same_run.
Qed.

Lemma telemetry_routes_by_table client api request path method w :
  telemetry client = Some api ->
  Worker.telemetry_routes client request path method w =
    Table.by_table Table.telemetry_rules
      (fun op => Table.telemetry_run op api
                   (Worker._extract_path_suffix path "/api/telemetry") method
                   (Worker._parse_query_params request))
      client (Worker._extract_path_suffix path "/api/telemetry") method
      "Teslemetry" w.
Proof.
  intros H. unfold Worker.telemetry_routes. rewrite H.
  generalize (Worker._extract_path_suffix path "/api/telemetry") as endpoint.
  generalize (Worker._parse_query_params request) as params.
  intros params endpoint.
  unfold Table.by_table, Table.first_match, Table.telemetry_rules.
  cbn [find]. unfold Table.rule_matches, Table.shape_matches.
  cbn [Table.rule_shape Table.rule_method Table.rule_op].
  rewrite ?andb_true_r.
  repeat match goal with
         | |- try_except (if ?c then _ else _) _ _ = _ =>
             destruct c; cbn [option_map Table.rule_op Table.telemetry_run]
         end;
    try reflexivity; apply try_ext; same_run.
Qed.

Lemma fleet_routes_by_table client api request path method w :
  fleet client = Some api ->
  Worker.fleet_routes client request path method w =
    (json_body <- Worker.body_for request method ;;
     Table.by_table Table.fleet_rules
       (fun op => Table.fleet_run op api
                    (Worker._extract_path_suffix path "/api/fleet")
                    (Worker._parse_query_params request) json_body)
       client (Worker._extract_path_suffix path "/api/fleet") method "Fleet") w.
Proof.
  intros H. unfold Worker.fleet_routes. rewrite H.
  generalize (Worker._extract_path_suffix path "/api/fleet") as endpoint.
  generalize (Worker._parse_query_params request) as params.
  intros params endpoint.
  apply bind_cong. clear w. intros jb w.
  unfold Table.by_table, Table.first_match, Table.fleet_rules.
  cbn [find]. unfold Table.rule_matches, Table.shape_matches.
  cbn [Table.rule_shape Table.rule_method Table.rule_op].
  rewrite ?andb_true_r.
  repeat match goal with
         | |- try_except (if ?c then _ else _) _ _ = _ =>
             destruct c; cbn [option_map Table.rule_op Table.fleet_run]
         end;
    try reflexivity; apply try_ext; same_run.
Qed.

(** ** Descriptors *)

Lemma has_char_app c a b : has_char c (a ++ b) = has_char c a || has_char c b.
Proof.
  induction a as [| x a IH]; simpl; [reflexivity |].
  now rewrite IH, orb_assoc.
Qed.

Lemma prefix_slash_no_slash p d :
  has_char "/" d = false -> String.prefix (String "/" p) d = false.
Proof.
  intros H. destruct d as [| a d]; [reflexivity |].
  cbn [has_char] in H. apply orb_false_elim in H. destruct H as [H _].
  cbn [String.prefix].
  destruct (ascii_dec "/" a) as [<- |]; [discriminate | reflexivity].
Qed.

(** A descriptor without a slash contains no pattern that starts with
    one, and ends with none. *)
Lemma contains_slash_no_slash p d :
  has_char "/" d = false -> contains (String "/" p) d = false.
Proof.
  induction d as [| a d IH]; intros H.
  - reflexivity.
  - cbn [contains]. rewrite (prefix_slash_no_slash p _ H).
    simpl in H. apply orb_false_elim in H. destruct H as [_ H].
    now rewrite (IH H).
Qed.

Lemma eqb_slash_no_slash p d :
  has_char "/" d = false -> String.eqb d (String "/" p) = false.
Proof.
  destruct d as [| a d]; simpl; [reflexivity |].
  intros H. apply orb_false_elim in H. destruct H as [H _]. now rewrite H.
Qed.

Lemma endswith_slash_no_slash p d :
  has_char "/" d = false -> endswith d (String "/" p) = false.
Proof.
  induction d as [| a d IH]; intros H.
  - reflexivity.
  - cbn [endswith]. rewrite (eqb_slash_no_slash p _ H).
    simpl in H. apply orb_false_elim in H. destruct H as [_ H].
    now rewrite (IH H).
Qed.

Lemma endswith_refl s : endswith s s = true.
Proof. destruct s; simpl; now rewrite ?Ascii.eqb_refl, ?String.eqb_refl. Qed.

Lemma endswith_app a suf : endswith (a ++ suf) suf = true.
Proof.
  induction a as [| x a IH]; simpl.
  - apply endswith_refl.
  - rewrite IH. apply orb_true_r.
Qed.

Lemma lstrip_no_slash d : has_char "/" d = false -> lstrip "/" d = d.
Proof.
  destruct d as [| a d]; simpl; [reflexivity |].
  intros H. apply orb_false_elim in H. destruct H as [H _]. now rewrite H.
Qed.

Lemma lstrip_first a d r :
  Ascii.eqb a "/" = false -> lstrip "/" (String a d ++ r) = String a d ++ r.
Proof. intros H. simpl. now rewrite H. Qed.

Lemma append_assoc (a b c : string) : (a ++ b) ++ c = a ++ (b ++ c).
Proof. induction a; simpl; now rewrite ?IHa. Qed.

Lemma append_nil_r (a : string) : a ++ "" = a.
Proof. induction a; simpl; now rewrite ?IHa. Qed.

Lemma prefix_nil s : String.prefix "" s = true.
Proof. now destruct s. Qed.

(** Splitting at "/" cuts off the part before the first slash... *)
Lemma split_from_first vin rest : forall cur,
  has_char "/" vin = false ->
  split_from "/" (vin ++ String "/" rest) 0 cur
  = (cur ++ vin) :: split_from "/" rest 0 "".
Proof.
  induction vin as [| a v IH]; intros cur H.
  - cbn [append split_from String.prefix String.length Nat.pred].
    destruct (ascii_dec "/" "/") as [_ | N]; [| now elim N].
    rewrite prefix_nil, append_nil_r. reflexivity.
  - cbn [has_char] in H. apply orb_false_elim in H. destruct H as [Ha Hv].
    cbn [append split_from String.prefix].
    destruct (ascii_dec "/" a) as [<- |]; [discriminate |].
    rewrite (IH _ Hv), append_assoc. reflexivity.
Qed.

(** ... and leaves a descriptor without a slash whole. *)
Lemma split_from_whole d : forall cur,
  has_char "/" d = false -> split_from "/" d 0 cur = [cur ++ d].
Proof.
  induction d as [| a d IH]; intros cur H.
  - cbn [split_from]. now rewrite append_nil_r.
  - cbn [has_char] in H. apply orb_false_elim in H. destruct H as [Ha Hd].
    cbn [split_from String.prefix].
    destruct (ascii_dec "/" a) as [<- |]; [discriminate |].
    rewrite (IH _ Hd), append_assoc. reflexivity.
Qed.

Lemma first_segment vin rest :
  has_char "/" vin = false ->
  item (split (vin ++ String "/" rest) "/") 0 = ret vin.
Proof.
  intros H. unfold split. now rewrite (split_from_first vin rest "" H).
Qed.

Lemma eqb_has_char_differs c a b :
  has_char c a = true -> has_char c b = false -> String.eqb a b = false.
Proof.
  intros Ha Hb. destruct (String.eqb_spec a b) as [-> |]; [congruence | reflexivity].
Qed.

(** ** Steps that leave the world alone *)

Lemma pure_ret {A} (a : A) : pure (ret a).
Proof. intros w. left. now exists a. Qed.

Lemma pure_raise {A} e : pure (@raise A e).
Proof. intros w. right. now exists e. Qed.

Lemma pure_lift {A} (r : A + exn) : pure (lift r).
Proof. destruct r; [apply pure_ret | apply pure_raise]. Qed.

Lemma pure_item l i : pure (item l i).
Proof. unfold item. destruct (index l i); [apply pure_ret | apply pure_raise]. Qed.

Lemma pure_bind {A B} (m : M A) (k : A -> M B) :
  pure m -> (forall a, pure (k a)) -> pure (bind m k).
Proof.
  intros Hm Hk w. unfold bind.
  destruct (Hm w) as [(a & ->) | (e & ->)]; [apply Hk | right; now exists e].
Qed.

Lemma pure_try {A} (body : M A) handler :
  pure body -> (forall e h, handler e = Some h -> pure h) ->
  pure (try_except body handler).
Proof.
  intros Hb Hh w. unfold try_except.
  destruct (Hb w) as [(a & ->) | (e & ->)]; [left; now exists a |].
  destruct (handler e) as [h |] eqn:E; [apply (Hh e h E) | right; now exists e].
Qed.

Lemma pure_parse_json_body request : pure (Worker._parse_json_body request).
Proof.
  unfold Worker._parse_json_body. apply pure_try.
  - destruct (startswith _ _); [apply pure_lift | apply pure_ret].
  - intros e h H. inversion H. apply pure_raise.
Qed.

Lemma pure_body_for request method : pure (Worker.body_for request method).
Proof.
  unfold Worker.body_for. destruct (mem _ _); [| apply pure_ret].
  apply pure_bind; [apply pure_parse_json_body | intros; apply pure_ret].
Qed.

Lemma pure_only_active_of params : pure (Worker.only_active_of params).
Proof.
  unfold Worker.only_active_of.
  destruct (assoc _ _) as [[] |]; [apply pure_ret | apply pure_raise | apply pure_ret].
Qed.

Lemma pure_percent_of jb : pure (Worker.percent_of jb).
Proof.
  unfold Worker.percent_of. destruct jb as [j |]; [| apply pure_ret].
  destruct (truthy j); [apply pure_lift | apply pure_ret].
Qed.

(** ** Upstream failures *)

Lemma fails_raise {A} err e w : fails_with err (@raise A e) w.
Proof. left. now exists e. Qed.

Lemma fails_bind {A B} err (m : M A) (k : A -> M B) w :
  pure m -> (forall a, fails_with err (k a) w) -> fails_with err (bind m k) w.
Proof.
  intros Hm Hk. unfold fails_with, bind.
  destruct (Hm w) as [(a & ->) | (e & ->)]; [apply Hk | left; now exists e].
Qed.

Lemma app_one_neq {A} (l : list A) (x : A) : (l ++ [x])%list <> l.
Proof.
  intros H. apply (f_equal (@List.length A)) in H.
  rewrite length_app in H. simpl in H. lia.
Qed.

Section Failing.
Variable w : world.
Hypothesis pool : pool_open w = true.

Section Http.
Variables (code : Z) (body : string) (parsed : json + string).
Hypothesis reply_is :
  forall c, upstream w (List.length (calls w)) c = HttpResponse code body parsed.
Hypothesis not_2xx : is_success code = false.

Lemma request_http_error self method endpoint params json_data :
  exists w',
    _request self method endpoint params json_data w =
      (Raise (TessieAPIError ("HTTP " ++ str_of_int code ++ ": " ++ body)
                (Some code)), w') /\
    calls w' <> calls w.
Proof.
  eexists. rewrite (request_spec _ _ _ _ _ _ pool). cbv zeta.
  rewrite reply_is, not_2xx. split; [reflexivity |].
  apply app_one_neq.
Qed.
End Http.

Section Transport.
Variable detail : string.
Hypothesis reply_is :
  forall c, upstream w (List.length (calls w)) c = NoResponse detail.

Lemma request_transport_error self method endpoint params json_data :
  exists w',
    _request self method endpoint params json_data w =
      (Raise (TessieAPIError ("Request failed: " ++ detail) None), w') /\
    calls w' <> calls w.
Proof.
  eexists. rewrite (request_spec _ _ _ _ _ _ pool). cbv zeta.
  rewrite reply_is. split; [reflexivity |].
  apply app_one_neq.
Qed.
End Transport.

(** Every operation of the three tables fails with [err] as soon as
    every [_request] does. *)
Section Operations.
Variable err : exn.
Hypothesis request_fails :
  forall self method endpoint params json_data,
    exists w',
      _request self method endpoint params json_data w = (Raise err, w') /\
      calls w' <> calls w.

Lemma fails_request self method endpoint params json_data :
  fails_with err (_request self method endpoint params json_data) w.
Proof. right. apply request_fails. Qed.

Ltac fails_step :=
  first
    [ apply fails_request
    | apply fails_raise
    | apply fails_bind;
      [ first [ apply pure_item | apply pure_lift | apply pure_only_active_of
              | apply pure_percent_of ]
      | intros ]
    | match goal with
      | |- fails_with _ (if ?c then _ else _) _ => destruct c
      | |- fails_with _ (match ?c with _ => _ end) _ => destruct c
      end ].

Lemma tessie_run_fails op api endpoint params jb :
  fails_with err (Table.tessie_run op api endpoint params jb) w.
Proof.
  destruct op; unfold Table.tessie_run;
    unfold Tessie.list_vehicles, Tessie.state, Tessie.battery, Tessie.wake,
      Tessie.start_charging, Tessie.stop_charging, Tessie.set_charge_limit,
      Tessie.lock, Tessie.unlock, Tessie.flash_lights, Tessie.honk,
      Tessie.start_climate, Tessie.stop_climate;
    repeat fails_step.
Qed.

Lemma telemetry_run_fails op api endpoint method params :
  fails_with err (Table.telemetry_run op api endpoint method params) w.
Proof.
  destruct op; unfold Table.telemetry_run;
    unfold Teslemetry.ping, Teslemetry.test, Teslemetry.metadata,
      Teslemetry.scopes, Teslemetry.server_side_polling,
      Teslemetry.vehicle_data_refresh;
    repeat fails_step.
Qed.

Lemma fleet_run_fails op api endpoint params jb :
  fails_with err (Table.fleet_run op api endpoint params jb) w.
Proof.
  destruct op; unfold Table.fleet_run;
    unfold Fleet.list_vehicles, Fleet.vehicle_data, Fleet.wake_up, Fleet.command;
    repeat fails_step.
Qed.

End Operations.

End Failing.

(** A table-driven block whose operations all fail with an upstream
    error: either no upstream call was made, or the answer is that
    error. *)
Lemma by_table_failing {Op} (rules : list (Table.rule Op)) run client
    endpoint method family message status_code w r w' :
  (forall op, fails_with (TessieAPIError message status_code) (run op) w) ->
  Table.by_table rules run client endpoint method family w = (r, w') ->
  calls w' = calls w \/
  r = Return (Worker._error_response (Worker.status_or_500 status_code) message).
Proof.
  intros F E. unfold Table.by_table, try_except in E.
  destruct (Table.first_match rules endpoint method) as [op |].
  - unfold bind in E at 1.
    destruct (F op) as [(e & R) | (w1 & R & _)]; rewrite R in E.
    + left.
      destruct (Worker.on_api_error client e) as [h |] eqn:H.
      * destruct e; try discriminate. inversion H; subst h.
        inversion E; reflexivity.
      * inversion E; reflexivity.
    + right. simpl in E. inversion E; reflexivity.
  - left. inversion E; reflexivity.
Qed.

Lemma after_pure {A B} (m : M A) (k : A -> M B) w r w' :
  pure m -> bind m k w = (r, w') ->
  (exists a, k a w = (r, w')) \/ w' = w.
Proof.
  intros P E. unfold bind in E.
  destruct (P w) as [(a & R) | (e & R)]; rewrite R in E.
  - left. now exists a.
  - right. now inversion E.
Qed.

Section FailingRoutes.
Variables (w : world) (message : string) (status_code : option Z).
Hypothesis request_fails :
  forall self method endpoint params json_data,
    exists w',
      _request self method endpoint params json_data w =
        (Raise (TessieAPIError message status_code), w') /\
      calls w' <> calls w.

Variables (client : UnifiedTessieClient) (request : Request).
Variables (path method : string).

Let answer : outcome Response :=
  Return (Worker._error_response (Worker.status_or_500 status_code) message).

Lemma tessie_routes_failing r w' :
  Worker.tessie_routes client request path method w = (r, w') ->
  calls w' = calls w \/ r = answer.
Proof.
  intros E. destruct (tessie client) as [api |] eqn:T.
  - rewrite (tessie_routes_by_table _ api _ _ _ _ T) in E.
    apply after_pure in E; [| apply pure_body_for].
    destruct E as [(jb & E) | ->]; [| now left].
    apply (by_table_failing _ _ _ _ _ _ _ _ _ _ _
             (fun op => tessie_run_fails w _ request_fails op _ _ _ _) E).
  - left. unfold Worker.tessie_routes in E. rewrite T in E.
    inversion E; reflexivity.
Qed.

Lemma telemetry_routes_failing r w' :
  Worker.telemetry_routes client request path method w = (r, w') ->
  calls w' = calls w \/ r = answer.
Proof.
  intros E. destruct (telemetry client) as [api |] eqn:T.
  - rewrite (telemetry_routes_by_table _ api _ _ _ _ T) in E.
    apply (by_table_failing _ _ _ _ _ _ _ _ _ _ _
             (fun op => telemetry_run_fails w _ request_fails op _ _ _ _) E).
  - left. unfold Worker.telemetry_routes in E. rewrite T in E.
    inversion E; reflexivity.
Qed.

Lemma fleet_routes_failing r w' :
  Worker.fleet_routes client request path method w = (r, w') ->
  calls w' = calls w \/ r = answer.
Proof.
  intros E. destruct (fleet client) as [api |] eqn:T.
  - rewrite (fleet_routes_by_table _ api _ _ _ _ T) in E.
    apply after_pure in E; [| apply pure_body_for].
    destruct E as [(jb & E) | ->]; [| now left].
    apply (by_table_failing _ _ _ _ _ _ _ _ _ _ _
             (fun op => fleet_run_fails w _ request_fails op _ _ _ _) E).
  - left. unfold Worker.fleet_routes in E. rewrite T in E.
    inversion E; reflexivity.
Qed.

End FailingRoutes.

(** Under the prefix of a family, the guarded statements are the route
    block of that family. *)
Lemma guarded_family f client request env :
  startswith (req_path request) (family_prefix f ++ "/") = true ->
  Worker.guarded client request env =
    match f with
    | FTessie => Worker.tessie_routes client request (req_path request)
                   (upper (req_method request))
    | FTelemetry => Worker.telemetry_routes client request (req_path request)
                      (upper (req_method request))
    | FFleet => Worker.fleet_routes client request (req_path request)
                  (upper (req_method request))
    end.
Proof.
  intros H. apply startswith_split in H. destruct H as [r Hr].
  unfold Worker.guarded.
  generalize (Worker.tessie_routes client request (req_path request)
                (upper (req_method request))).
  generalize (Worker.telemetry_routes client request (req_path request)
                (upper (req_method request))).
  generalize (Worker.fleet_routes client request (req_path request)
                (upper (req_method request))).
  intros fl te ts. rewrite Hr.
  destruct f; simpl; rewrite startswith_nil; reflexivity.
Qed.

(** The multi-API [fetch] under the prefix of a family, when every
    upstream request fails with the same error: if an upstream call was
    made, the answer carries the status and the message of that error. *)
Lemma fetch_failing f request env w message status_code resp w' :
  startswith (req_path request) (family_prefix f ++ "/") = true ->
  (forall self method endpoint params json_data,
      exists w1,
        _request self method endpoint params json_data (opened w) =
          (Raise (TessieAPIError message status_code), w1) /\
        calls w1 <> calls w) ->
  Worker.fetch request env w = (Return resp, w') ->
  calls w' <> calls w ->
  resp = Worker._error_response (Worker.status_or_500 status_code) message.
Proof.
  intros P F E N. unfold Worker.fetch in E.
  set (region := match FLEET_REGION env with Some r => r | None => "na" end) in E.
  destruct (init_spec (TESSIE_API_KEY env) (TESLEMETRY_API_KEY env)
              (FLEET_API_KEY env) region w) as (client & I & _).
  rewrite (bind_return _ _ _ _ _ I) in E.
  rewrite (guarded_family f _ _ _ P) in E.
  unfold try_except in E.
  match type of E with
  | match ?g with _ => _ end = _ => destruct g as [r1 w1] eqn:G
  end.
  assert (X : calls w1 = calls (opened w) \/
              r1 = Return (Worker._error_response
                             (Worker.status_or_500 status_code) message)).
  { destruct f.
    - apply (tessie_routes_failing (opened w) message status_code F
               client request _ _ r1 w1 G).
    - apply (telemetry_routes_failing (opened w) message status_code F
               client request _ _ r1 w1 G).
    - apply (fleet_routes_failing (opened w) message status_code F
               client request _ _ r1 w1 G). }
  destruct r1 as [resp1 | e].
  - inversion E; subst. destruct X as [C | X]; [now elim N | now inversion X].
  - exfalso. destruct X as [C | X]; [| discriminate].
    apply N. destruct e; simpl in E; inversion E; simpl; exact C.
Qed.

Lemma status_or_500_http code : http_status code -> Worker.status_or_500 (Some code) = code.
Proof.
  unfold http_status, Worker.status_or_500. intros H.
  destruct (Z.eqb_spec code 0); [lia | reflexivity].
Qed.

(** C1 (amended): when the upstream answers a call with a status outside
    200..299, [_request] raises TessieAPIError with the message
    "HTTP <code>: <body>" and that status code, and for a request under
    the prefix of one of the three families that reached the upstream the
    multi-API worker answers with that status and the body
    {"error": <message>}; when the call gets no HTTP response, the error
    has the message "Request failed: <detail>" and no status code, and
    the worker answers such a request with 500. *)
Theorem C1_upstream_errors_translated :
  (forall self method endpoint params json_data w code body parsed,
      pool_open w = true ->
      upstream w (List.length (calls w))
        (request_call self method endpoint params json_data)
        = HttpResponse code body parsed ->
      http_status code ->
      is_success code = false ->
      fst (_request self method endpoint params json_data w) =
        Raise (TessieAPIError ("HTTP " ++ str_of_int code ++ ": " ++ body)
                 (Some code))) /\
  (forall f request env w code body parsed resp w',
      startswith (req_path request) (family_prefix f ++ "/") = true ->
      (forall c, upstream w (List.length (calls w)) c
                 = HttpResponse code body parsed) ->
      http_status code ->
      is_success code = false ->
      Worker.fetch request env w = (Return resp, w') ->
      calls w' <> calls w ->
      resp = Worker._error_response code
               ("HTTP " ++ str_of_int code ++ ": " ++ body)) /\
  (forall self method endpoint params json_data w detail,
      pool_open w = true ->
      upstream w (List.length (calls w))
        (request_call self method endpoint params json_data)
        = NoResponse detail ->
      fst (_request self method endpoint params json_data w) =
        Raise (TessieAPIError ("Request failed: " ++ detail) None)) /\
  (forall f request env w detail resp w',
      startswith (req_path request) (family_prefix f ++ "/") = true ->
      (forall c, upstream w (List.length (calls w)) c = NoResponse detail) ->
      Worker.fetch request env w = (Return resp, w') ->
      calls w' <> calls w ->
      resp = Worker._error_response 500 ("Request failed: " ++ detail)).
Proof.
  refine (conj _ (conj _ (conj _ _))).
  - intros self method endpoint params json_data w code body parsed O U _ N.
    rewrite (request_spec _ _ _ _ _ _ O). cbv zeta. now rewrite U, N.
  - intros f request env w code body parsed resp w' P U S N E C.
    rewrite <- (status_or_500_http code S) at 1.
    apply (fetch_failing f request env w _ (Some code) resp w' P); [| exact E | exact C].
    intros. apply (request_http_error (opened w) eq_refl code body parsed U N).
  - intros self method endpoint params json_data w detail O U.
    rewrite (request_spec _ _ _ _ _ _ O). cbv zeta. now rewrite U.
  - intros f request env w detail resp w' P U E C.
    apply (fetch_failing f request env w _ None resp w' P); [| exact E | exact C].
    intros. apply (request_transport_error (opened w) eq_refl detail U).
Qed.

Lemma C1_witness :
  (exists resp w',
      Worker.fetch
        (Sample.request "GET" "/api/tessie/5YJ3E1EA1KF000001/state" [] []
           Sample.no_body)
        Sample.tessie_only
        (Sample.world_of (HttpResponse 401 "Unauthorized" (inr "not JSON")))
      = (Return resp, w') /\
      resp = Worker._error_response 401 "HTTP 401: Unauthorized") /\
  (exists resp w',
      Worker.fetch
        (Sample.request "GET" "/api/tessie/5YJ3E1EA1KF000001/state" [] []
           Sample.no_body)
        Sample.tessie_only Sample.offline
      = (Return resp, w') /\
      resp = Worker._error_response 500 "Request failed: connection refused").
Proof.
  destruct C1_upstream_errors_translated as (_ & H & _ & T).
  split.
  - eexists. eexists. split; [vm_compute; reflexivity |].
    eapply (H FTessie
             (Sample.request "GET" "/api/tessie/5YJ3E1EA1KF000001/state" [] []
                Sample.no_body)
             Sample.tessie_only
             (Sample.world_of (HttpResponse 401 "Unauthorized" (inr "not JSON")))
             401 "Unauthorized" (inr "not JSON")).
    + reflexivity.
    + intros c. reflexivity.
    + unfold http_status. lia.
    + reflexivity.
    + vm_compute. reflexivity.
    + simpl. discriminate.
  - eexists. eexists. split; [vm_compute; reflexivity |].
    eapply (T FTessie
             (Sample.request "GET" "/api/tessie/5YJ3E1EA1KF000001/state" [] []
                Sample.no_body)
             Sample.tessie_only Sample.offline "connection refused").
    + reflexivity.
    + intros c. reflexivity.
    + vm_compute. reflexivity.
    + simpl. discriminate.
Defined.

(** The health endpoint probes the Tessie upstream with the same client.
    When the probe is answered 401 the client raises the error of the
    statement above, but the worker reports it inside its own 200 answer. *)
Lemma C1_counterexample :
  let w := Sample.world_of (HttpResponse 401 "Unauthorized" (inr "not JSON")) in
  let probe :=
    request_call (TessieClient_init "tessie-key") "GET" "vehicles"
      (Some [("only_active", QOne "true")]) None in
  let r := Worker.fetch (Sample.request "GET" "/health" [] [] Sample.no_body)
             Sample.tessie_only w in
  upstream w 0 probe = HttpResponse 401 "Unauthorized" (inr "not JSON") /\
  calls (snd r) = [probe] /\
  fst (Tessie.list_vehicles (TessieClient_init "tessie-key") true (opened w)) =
    Raise (TessieAPIError "HTTP 401: Unauthorized" (Some 401)) /\
  exists resp,
    fst r = Return resp /\
    Host.status resp = 200 /\
    resp <> Worker._error_response 401 "HTTP 401: Unauthorized".
Proof.
  cbv zeta. repeat (split; [reflexivity |]).
  eexists. split; [reflexivity |]. split; [reflexivity |].
  intros H. discriminate H.
Qed.

(** ** Dispatch within the Tessie family *)

Lemma extract_tessie d :
  Worker._extract_path_suffix ("/api/tessie/" ++ d) "/api/tessie" = lstrip "/" d.
Proof.
  unfold Worker._extract_path_suffix. simpl. reflexivity.
Qed.

Lemma lstrip_segment vin rest :
  has_char "/" vin = false -> vin <> "" ->
  lstrip "/" (vin ++ rest) = vin ++ rest.
Proof.
  destruct vin as [| a v]; [congruence |]. intros H _.
  cbn [has_char] in H. apply orb_false_elim in H. destruct H as [H _].
  now apply lstrip_first.
Qed.

(** The descriptor <vin>/state selects the vehicle-state rule. *)
Lemma first_match_state vin method :
  Table.first_match Table.tessie_rules (vin ++ "/state") method = Some Table.State.
Proof.
  unfold Table.first_match, Table.tessie_rules. cbn [find].
  unfold Table.rule_matches, Table.shape_matches.
  cbn [Table.rule_shape Table.rule_method].
  rewrite (eqb_has_char_differs "/" (vin ++ "/state") "vehicles").
  - rewrite endswith_app. reflexivity.
  - rewrite has_char_app. apply orb_true_r.
  - reflexivity.
Qed.

(** A descriptor without a slash other than "vehicles" selects no rule of
    the Tessie table; in particular no command rule matches it. *)
Lemma first_match_bare d method :
  has_char "/" d = false ->
  (forall r, In r Table.tessie_rules ->
             Table.is_exact (Table.rule_shape r) = false ->
             Table.rule_matches r d method = false) /\
  (d <> "vehicles" ->
   Table.first_match Table.tessie_rules d method = None).
Proof.
  intros H. split.
  - intros r I X. unfold Table.rule_matches.
    simpl in I.
    repeat (destruct I as [<- | I];
            [ try discriminate X; cbn [Table.rule_shape Table.shape_matches];
              now rewrite ?(endswith_slash_no_slash _ _ H),
                          ?(contains_slash_no_slash _ _ H) |]).
    destruct I.
  - intros N. unfold Table.first_match, Table.tessie_rules. cbn [find].
    unfold Table.rule_matches, Table.shape_matches.
    cbn [Table.rule_shape Table.rule_method].
    destruct (String.eqb_spec d "vehicles") as [-> | _]; [now elim N |].
    rewrite !(endswith_slash_no_slash _ _ H), !(contains_slash_no_slash _ _ H).
    reflexivity.
Qed.

Lemma body_for_get request :
  Worker.body_for request "GET" = ret None.
Proof. reflexivity. Qed.

Section TessieConfigured.
Variables (request : Request) (env : Env) (w : world) (key : string).
Hypothesis key_set : TESSIE_API_KEY env = Some key.
Hypothesis key_not_empty : String.eqb key "" = false.

Let api := TessieClient_init key.

Lemma fetch_tessie d :
  req_path request = "/api/tessie/" ++ d ->
  exists client,
    tessie client = Some api /\
    Worker.fetch request env w =
      try_except
        (json_body <- Worker.body_for request (upper (req_method request)) ;;
         Table.by_table Table.tessie_rules
           (fun op => Table.tessie_run op api (lstrip "/" d)
                        (Worker._parse_query_params request) json_body)
           client (lstrip "/" d) (upper (req_method request)) "Tessie")
        (Worker.on_failure client) (opened w).
Proof.
  intros P. unfold Worker.fetch.
  set (region := match FLEET_REGION env with Some r => r | None => "na" end).
  destruct (init_spec (TESSIE_API_KEY env) (TESLEMETRY_API_KEY env)
              (FLEET_API_KEY env) region w) as (client & I & _ & _ & _ & T).
  assert (T' : tessie client = Some api).
  { apply T; [exact key_set |]. rewrite key_set. simpl. now rewrite key_not_empty. }
  exists client. split; [exact T' |].
  rewrite (bind_return _ _ _ _ _ I).
  rewrite (guarded_family FTessie).
  - apply try_ext. rewrite (tessie_routes_by_table _ api _ _ _ _ T').
    rewrite P, extract_tessie. reflexivity.
  - rewrite P. simpl. apply startswith_nil.
Qed.

(** GET /api/tessie/<vin>/state with a successful upstream. *)
Lemma fetch_tessie_state vin code text j :
  req_path request = "/api/tessie/" ++ vin ++ "/state" ->
  upper (req_method request) = "GET" ->
  has_char "/" vin = false -> vin <> "" ->
  upstream w (List.length (calls w))
    (request_call api "GET" (vin ++ "/state") None None)
    = HttpResponse code text (inl j) ->
  is_success code = true ->
  Worker.fetch request env w =
    (Return (Worker._json_response j 200),
     closed (record (opened w)
               (request_call api "GET" (vin ++ "/state") None None)
               [event api (vin ++ "/state") code None])).
Proof.
  intros P G S N U K.
  destruct (fetch_tessie _ P) as (client & T & ->).
  rewrite G, body_for_get, (lstrip_segment _ _ S N).
  apply try_return.
  unfold bind at 1. cbn [ret].
  unfold Table.by_table. rewrite first_match_state.
  apply try_return.
  cbn [Table.tessie_run]. rewrite (first_segment vin "state" S).
  unfold bind at 1. unfold bind at 1. cbn [ret]. unfold Tessie.state.
  rewrite (request_spec api "GET" (vin ++ "/state") None None (opened w) eq_refl).
  cbv zeta. cbn [opened upstream calls].
  rewrite U, K. reflexivity.
Qed.

(** A descriptor that is a bare VIN: 404, no upstream call. *)
Lemma fetch_tessie_bare d jb :
  req_path request = "/api/tessie/" ++ d ->
  has_char "/" d = false -> d <> "vehicles" ->
  Worker.body_for request (upper (req_method request)) (opened w)
    = (Return jb, opened w) ->
  Worker.fetch request env w =
    (Return (Worker._error_response 404 ("Tessie endpoint not found: " ++ d)),
     closed (opened w)).
Proof.
  intros P S N B.
  destruct (fetch_tessie _ P) as (client & T & ->).
  rewrite (lstrip_no_slash _ S).
  apply try_return. rewrite (bind_return _ _ _ _ _ B).
  unfold Table.by_table.
  rewrite (proj2 (first_match_bare d _ S) N).
  reflexivity.
Qed.

End TessieConfigured.

(** The first rule of a table that matches decides, whatever matches
    after it. *)
Lemma first_match_spec {Op} (rules : list (Table.rule Op)) endpoint method op :
  Table.first_match rules endpoint method = Some op <->
  exists before r after,
    rules = (before ++ r :: after)%list /\
    Table.rule_matches r endpoint method = true /\
    Table.rule_op r = op /\
    forall r', In r' before -> Table.rule_matches r' endpoint method = false.
Proof.
  unfold Table.first_match. induction rules as [| x rules IH]; simpl.
  - split; [discriminate |]. intros (b & r & a & E & _). now destruct b.
  - destruct (Table.rule_matches x endpoint method) eqn:X.
    + split.
      * intros H. inversion H. exists [], x, rules. simpl. now repeat split.
      * intros (b & r & a & E & M & O & F). destruct b as [| y b].
        -- simpl in E. inversion E; subst. reflexivity.
        -- simpl in E. inversion E; subst.
           rewrite (F y (or_introl eq_refl)) in X. discriminate.
    + rewrite IH. split.
      * intros (b & r & a & E & M & O & F). exists (x :: b), r, a.
        subst rules. repeat split; try assumption.
        intros r' [<- | I]; [exact X | now apply F].
      * intros (b & r & a & E & M & O & F). destruct b as [| y b].
        -- simpl in E. inversion E; subst. congruence.
        -- simpl in E. inversion E; subst. exists b, r, a.
           repeat split; try assumption. intros r' I. apply F. now right.
Qed.

(** C4: each route block of the multi-API worker is the ordered table of
    its family run with first match winning, the exact descriptors stand
    before the rules by suffix or substring, and "vehicles" and "ping"
    select their own rule; a GET to /api/tessie/<vin>/state takes <vin>
    from the first segment of the descriptor, makes the one upstream call
    GET <vin>/state and returns the upstream JSON with status 200; a
    descriptor that is a bare VIN matches no rule by suffix or substring
    and is answered 404 without an upstream call. *)
Theorem C4_ordered_dispatch :
  (forall client api request path method w,
      tessie client = Some api ->
      Worker.tessie_routes client request path method w =
        (json_body <- Worker.body_for request method ;;
         Table.by_table Table.tessie_rules
           (fun op => Table.tessie_run op api
                        (Worker._extract_path_suffix path "/api/tessie")
                        (Worker._parse_query_params request) json_body)
           client (Worker._extract_path_suffix path "/api/tessie") method
           "Tessie") w) /\
  (forall client api request path method w,
      telemetry client = Some api ->
      Worker.telemetry_routes client request path method w =
        Table.by_table Table.telemetry_rules
          (fun op => Table.telemetry_run op api
                       (Worker._extract_path_suffix path "/api/telemetry") method
                       (Worker._parse_query_params request))
          client (Worker._extract_path_suffix path "/api/telemetry") method
          "Teslemetry" w) /\
  (forall client api request path method w,
      fleet client = Some api ->
      Worker.fleet_routes client request path method w =
        (json_body <- Worker.body_for request method ;;
         Table.by_table Table.fleet_rules
           (fun op => Table.fleet_run op api
                        (Worker._extract_path_suffix path "/api/fleet")
                        (Worker._parse_query_params request) json_body)
           client (Worker._extract_path_suffix path "/api/fleet") method
           "Fleet") w) /\
  (forall Op (rules : list (Table.rule Op)) endpoint method op,
      Table.first_match rules endpoint method = Some op <->
      exists before r after,
        rules = (before ++ r :: after)%list /\
        Table.rule_matches r endpoint method = true /\
        Table.rule_op r = op /\
        forall r', In r' before -> Table.rule_matches r' endpoint method = false) /\
  (Table.literals_first Table.tessie_rules = true /\
   Table.literals_first Table.telemetry_rules = true /\
   Table.literals_first Table.fleet_rules = true) /\
  (forall method,
      Table.first_match Table.tessie_rules "vehicles" method
        = Some Table.ListVehicles /\
      Table.first_match Table.telemetry_rules "ping" method = Some Table.Ping) /\
  (forall request env w key vin code text j,
      TESSIE_API_KEY env = Some key ->
      String.eqb key "" = false ->
      req_path request = "/api/tessie/" ++ vin ++ "/state" ->
      upper (req_method request) = "GET" ->
      has_char "/" vin = false ->
      vin <> "" ->
      upstream w (List.length (calls w))
        (request_call (TessieClient_init key) "GET" (vin ++ "/state") None None)
        = HttpResponse code text (inl j) ->
      is_success code = true ->
      item (split (Worker._extract_path_suffix (req_path request) "/api/tessie")
              "/") 0 = ret vin /\
      exists w',
        Worker.fetch request env w = (Return (Worker._json_response j 200), w') /\
        calls w' =
          (calls w ++
           [request_call (TessieClient_init key) "GET" (vin ++ "/state")
              None None])%list) /\
  (forall request env w key d jb,
      TESSIE_API_KEY env = Some key ->
      String.eqb key "" = false ->
      req_path request = "/api/tessie/" ++ d ->
      has_char "/" d = false ->
      d <> "vehicles" ->
      Worker.body_for request (upper (req_method request)) (opened w)
        = (Return jb, opened w) ->
      (forall r, In r Table.tessie_rules ->
                 Table.is_exact (Table.rule_shape r) = false ->
                 Table.rule_matches r d (upper (req_method request)) = false) /\
      exists w',
        Worker.fetch request env w =
          (Return (Worker._error_response 404
                     ("Tessie endpoint not found: " ++ d)), w') /\
        calls w' = calls w).
Proof.
  refine (conj _ (conj _ (conj _ (conj _ (conj _ (conj _ (conj _ _))))))).
  - exact tessie_routes_by_table.
  - exact telemetry_routes_by_table.
  - exact fleet_routes_by_table.
  - intros Op. exact first_match_spec.
  - repeat split.
  - intros method. split; reflexivity.
  - intros request env w key vin code text j K E P G S N U C. split.
    + rewrite P, extract_tessie, (lstrip_segment _ _ S N).
      apply (first_segment vin "state" S).
    + eexists. split.
      * apply (fetch_tessie_state request env w key K E vin code text j P G S N U C).
      * reflexivity.
  - intros request env w key d jb K E P S N B. split.
    + apply (proj1 (first_match_bare d _ S)).
    + eexists. split.
      * apply (fetch_tessie_bare request env w key K E d jb P S N B).
      * reflexivity.
Qed.

Lemma C4_witness :
  (exists w',
      Worker.fetch
        (Sample.request "GET" "/api/tessie/5YJ3E1EA1KF000001/state" [] []
           Sample.no_body)
        Sample.tessie_only Sample.online
      = (Return (Worker._json_response (JObj [("result", JBool true)]) 200), w') /\
      calls w' =
        [request_call (TessieClient_init "tessie-key") "GET"
           "5YJ3E1EA1KF000001/state" None None]) /\
  (exists w',
      Worker.fetch
        (Sample.request "POST" "/api/tessie/5YJ3E1EA1KF000001" [] []
           Sample.no_body)
        Sample.tessie_only Sample.online
      = (Return (Worker._error_response 404
                   "Tessie endpoint not found: 5YJ3E1EA1KF000001"), w') /\
      calls w' = []).
Proof.
  destruct C4_ordered_dispatch as (_ & _ & _ & _ & _ & _ & S & B).
  split.
  - apply (S (Sample.request "GET" "/api/tessie/5YJ3E1EA1KF000001/state" [] []
                Sample.no_body)
             Sample.tessie_only Sample.online "tessie-key" "5YJ3E1EA1KF000001"
             200 "{}" (JObj [("result", JBool true)]));
      try reflexivity.
    discriminate.
  - apply (B (Sample.request "POST" "/api/tessie/5YJ3E1EA1KF000001" [] []
                Sample.no_body)
             Sample.tessie_only Sample.online "tessie-key" "5YJ3E1EA1KF000001"
             (Some (JObj [])));
      try reflexivity.
    discriminate.
Defined.

(** The order of the table decides between two rules that both match:
    a descriptor that ends in /state is a state request even when it
    contains a command. *)
Example state_before_lock :
  Table.rule_matches
    {| Table.rule_shape := Table.Contains "/command/lock";
       Table.rule_method := Some "POST"; Table.rule_op := Table.Lock |}
    "5YJ3E1EA1KF000001/command/lock/state" "POST" = true /\
  Table.first_match Table.tessie_rules "5YJ3E1EA1KF000001/command/lock/state"
    "POST" = Some Table.State.
Proof. split; reflexivity. Qed.

(** ** The charge limit in the multi-API worker *)

Lemma endswith_after_segment vin s p :
  has_char "/" vin = false ->
  endswith (vin ++ s) (String "/" p) = endswith s (String "/" p).
Proof.
  induction vin as [| a v IH]; intros H; [reflexivity |].
  cbn [has_char] in H. apply orb_false_elim in H. destruct H as [Ha Hv].
  cbn [append endswith String.eqb]. rewrite Ha. simpl. now apply IH.
Qed.

Lemma contains_after_segment vin s p :
  has_char "/" vin = false ->
  contains (String "/" p) (vin ++ s) = contains (String "/" p) s.
Proof.
  induction vin as [| a v IH]; intros H; [reflexivity |].
  cbn [has_char] in H. apply orb_false_elim in H. destruct H as [Ha Hv].
  cbn [append contains String.prefix].
  destruct (ascii_dec "/" a) as [<- |]; [discriminate |].
  simpl. now apply IH.
Qed.

Lemma first_match_set_charge_limit vin :
  has_char "/" vin = false ->
  Table.first_match Table.tessie_rules (vin ++ "/command/set_charge_limit") "POST"
  = Some Table.SetChargeLimit.
Proof.
  intros H. unfold Table.first_match, Table.tessie_rules. cbn [find].
  unfold Table.rule_matches, Table.shape_matches.
  cbn [Table.rule_shape Table.rule_method].
  rewrite (eqb_has_char_differs "/" (vin ++ "/command/set_charge_limit") "vehicles");
    [| rewrite has_char_app; apply orb_true_r | reflexivity].
  rewrite !(endswith_after_segment _ _ _ H), !(contains_after_segment _ _ _ H).
  reflexivity.
Qed.

(** A JSON object that carries "percent" is what [body_for] hands on, and
    [percent_of] reads the value. *)
Lemma percent_of_object request fields p w :
  startswith (header_or_empty request "Content-Type") "application/json" = true ->
  req_json request = inl (JObj fields) ->
  assoc "percent" fields = Some p ->
  Worker.body_for request "POST" w = (Return (Some (JObj fields)), w) /\
  Worker.percent_of (Some (JObj fields)) w = (Return p, w).
Proof.
  intros C J A. split.
  - unfold Worker.body_for, Worker._parse_json_body, bind, try_except.
    cbn [mem String.eqb Ascii.eqb Bool.eqb orb]. now rewrite C, J.
  - unfold Worker.percent_of. destruct fields as [| f fields]; [discriminate |].
    cbn [truthy]. unfold get, lift. now rewrite A.
Qed.

(** POST /api/tessie/<vin>/command/set_charge_limit with a percent that
    [int] accepts: the one upstream call is POST
    <vin>/command/set_charge_limit with the JSON body {"percent": n}. *)
Lemma fetch_tessie_set_charge_limit request env w key vin fields p n code text j :
  TESSIE_API_KEY env = Some key ->
  String.eqb key "" = false ->
  req_path request = "/api/tessie/" ++ vin ++ "/command/set_charge_limit" ->
  upper (req_method request) = "POST" ->
  has_char "/" vin = false -> vin <> "" ->
  startswith (header_or_empty request "Content-Type") "application/json" = true ->
  req_json request = inl (JObj fields) ->
  assoc "percent" fields = Some p ->
  int p = inl n ->
  upstream w (List.length (calls w))
    (request_call (TessieClient_init key) "POST"
       (vin ++ "/command/set_charge_limit") None
       (Some (JObj [("percent", JNum n)])))
    = HttpResponse code text (inl j) ->
  is_success code = true ->
  Worker.fetch request env w =
    (Return (Worker._json_response j 200),
     closed (record (opened w)
               (request_call (TessieClient_init key) "POST"
                  (vin ++ "/command/set_charge_limit") None
                  (Some (JObj [("percent", JNum n)])))
               [event (TessieClient_init key)
                  (vin ++ "/command/set_charge_limit") code None])).
Proof.
  intros K E P G S N C J A I U X.
  destruct (fetch_tessie request env w key K E _ P) as (client & T & ->).
  destruct (percent_of_object request fields p (opened w) C J A) as [B Q].
  rewrite G, (lstrip_segment _ _ S N).
  apply try_return. rewrite (bind_return _ _ _ _ _ B).
  unfold Table.by_table. rewrite (first_match_set_charge_limit _ S).
  apply try_return.
  cbn [Table.tessie_run].
  rewrite (first_segment vin "command/set_charge_limit" S).
  unfold bind at 1. unfold bind at 1. cbn [ret].
  rewrite (bind_return _ _ _ _ _ Q).
  assert (Z : Worker.is_none p = false).
  { destruct p; try reflexivity. discriminate I. }
  rewrite Z, I. unfold bind at 1. cbn [lift ret]. unfold Tessie.set_charge_limit.
  rewrite (request_spec (TessieClient_init key) "POST"
             (vin ++ "/command/set_charge_limit") None
             (Some (JObj [("percent", JNum n)])) (opened w) eq_refl).
  cbv zeta. cbn [opened upstream calls].
  rewrite U, X. reflexivity.
Qed.

(** The parts of the charge-limit contract that both workers keep, on the
    requests of the design: percent 80 goes upstream as {"percent": 80},
    a missing percent is answered 400 without an upstream call. *)
Example set_charge_limit_80 :
  let request :=
    Sample.request "POST" "/api/tessie/5YJ3E1EA1KF000001/command/set_charge_limit"
      [] [("Content-Type", "application/json")]
      (inl (JObj [("percent", JNum 80)])) in
  let missing :=
    Sample.request "POST" "/api/tessie/5YJ3E1EA1KF000001/command/set_charge_limit"
      [] [("Content-Type", "application/json")] (inl (JObj [("limit", JNum 80)])) in
  calls (snd (Worker.fetch request Sample.tessie_only Sample.online)) =
    [request_call (TessieClient_init "tessie-key") "POST"
       "5YJ3E1EA1KF000001/command/set_charge_limit" None
       (Some (JObj [("percent", JNum 80)]))] /\
  Worker.fetch missing Sample.tessie_only Sample.online =
    (Return (Worker._error_response 400 "Missing 'percent' parameter"),
     Sample.online).
Proof. split; reflexivity. Qed.


(** ** The charge limit in the gated worker *)

Lemma int_error_kind p e :
  int p = inr e ->
  exists m,
    e = PyError "ValueError" m \/ e = PyError "TypeError" m \/
    e = PyError "OverflowError" m.
Proof.
  destruct p as [| b | n | x | s | l | o]; simpl; intros H;
    try discriminate H; try (inversion H; eexists; auto; fail).
  - destruct x as [m x | negative |]; [discriminate H | |];
      inversion H; eexists; auto.
  - destruct (read_int s); [discriminate H | |]; inversion H; eexists; auto.
Qed.

(** With a usable VIN, a percent that is absent, or that [int] refuses
    with a TypeError or a ValueError, is answered with HTTPException 400
    before the upstream operation runs. *)
Lemma gated_set_charge_limit_rejects set_charge_limit key params vin w :
  Gated._extract_vin params w = (Return vin, w) ->
  match assoc "percent" params with
  | None | Some JNull => True
  | Some p => exists e, int p = inr e /\ type_or_value_error e = true
  end ->
  exists message,
    Gated._handle_set_charge_limit set_charge_limit key params w =
      (Raise (HTTPException 400 message), w).
Proof.
  intros V H. unfold Gated._handle_set_charge_limit.
  rewrite (bind_return _ _ _ _ _ V).
  destruct (assoc "percent" params) as [p |]; [| eexists; reflexivity].
  destruct p; try (eexists; reflexivity);
    destruct H as (e & H & T); try discriminate H;
    destruct (int_error_kind _ _ H) as (m & [-> | [-> | ->]]);
    try discriminate T;
    unfold bind, try_except, lift; rewrite H; eexists; reflexivity.
Qed.

(** C5: the multi-API worker does not guard [int(percent)].  For a POST
    to /api/tessie/<vin>/command/set_charge_limit with the JSON body
    {"percent": "abc"} it makes no upstream call, but the ValueError
    reaches the last [except] clause and the answer is 500, not 400;
    the gated worker answers the same body with 400. *)
Theorem C5_non_integer_percent_answered_500 :
  forall (r : reply),
    let request :=
      Sample.request "POST" "/api/tessie/5YJ3E1EA1KF000001/command/set_charge_limit"
        [] [("Content-Type", "application/json")]
        (inl (JObj [("percent", JStr "abc")])) in
    let gated_request :=
      Sample.request "POST" "/command/set_charge_limit" []
        [("Authorization", "Bearer signed.secret");
         ("Content-Type", "application/json")]
        (inl (JObj [("vin", JStr "5YJ3E1EA1KF000001"); ("percent", JStr "abc")])) in
    Worker.fetch request Sample.tessie_only (Sample.world_of r) =
      (Return (Worker._error_response 500
                 "Internal Server Error: invalid literal for int() with base 10: 'abc'"),
       Sample.world_of r) /\
    calls (snd (Worker.fetch request Sample.tessie_only (Sample.world_of r))) = [] /\
    Sample.gated_fetch gated_request Sample.tessie_only (Sample.world_of r) =
      (Return (Gated._error_response 400 "'percent' must be an integer"),
       Sample.world_of r).
Proof.
  intros r. cbv zeta. repeat split.
Qed.

(** ** The builtins on small inputs *)

Example split_ex1 : Py.split "VIN1/command/lock" "/" = ["VIN1"; "command"; "lock"].
Proof. reflexivity. Qed.
Example split_ex2 : Py.split "VIN1/command/lock" "/command/" = ["VIN1"; "lock"].
Proof. reflexivity. Qed.
Example split_ex3 : Py.split "" "/" = [""].
Proof. reflexivity. Qed.
Example split_ex4 : Py.split "a//b/" "/" = ["a"; ""; "b"; ""].
Proof. reflexivity. Qed.
Example int_ex1 : Py.int (Py.JStr " 8_0 ") = inl 80.
Proof. reflexivity. Qed.
Example int_ex2 : Py.int_of_str "abc" = None.
Proof. reflexivity. Qed.
Example str_ex1 : Py.str_of_int 401 = "401".
Proof. reflexivity. Qed.
Example ends_ex1 : Py.endswith "VIN/state" "/state" = true.
Proof. reflexivity. Qed.
Example ends_ex2 : Py.endswith "state" "/state" = false.
Proof. reflexivity. Qed.
Example strip_ex : Py.strip "  ab c  " = "ab c".
Proof. reflexivity. Qed.
Example upper_ex : Py.upper "get" = "GET".
Proof. reflexivity. Qed.

(* ================================================================== *)
(** * Further properties of the workers *)

Import Cover.

(** ** Upstream calls of a request *)

(** [_request] adds its one call to the record, or none on a closed
    pool, and leaves the pool as it was. *)
Lemma request_calls self method endpoint params json_data w r w' :
  _request self method endpoint params json_data w = (r, w') ->
  pool_open w' = pool_open w /\
  calls w' = if pool_open w
             then (calls w ++ [request_call self method endpoint params json_data])%list
             else calls w.
Proof.
  destruct (pool_open w) eqn:O.
  - rewrite (request_spec _ _ _ _ _ _ O). cbv zeta.
    destruct (upstream w _ _) as [s t p | d].
    + destruct (is_success s); [destruct p |]; intros H; inversion H; subst;
        simpl; now rewrite O.
    + intros H; inversion H; subst; simpl; now rewrite O.
  - unfold _request, try_except, bind, client_request. rewrite O. simpl.
    intros H. inversion H; subst. simpl. now rewrite O.
Qed.

Lemma quiet_pure {A} (m : M A) : pure m -> quiet m.
Proof.
  intros P w r w' E.
  destruct (P w) as [(a & R) | (e & R)]; rewrite R in E; now inversion E.
Qed.

Lemma quiet_close_ret {A} client (x : A) : quiet (close client ;;; ret x).
Proof. intros w r w' E. now inversion E. Qed.

Lemma quiet_respond client result : quiet (Worker.respond client result).
Proof. apply quiet_close_ret. Qed.

Lemma quiet_on_api_error client e h :
  Worker.on_api_error client e = Some h -> quiet h.
Proof.
  destruct e; simpl; intros H; try discriminate. inversion H.
  apply quiet_close_ret.
Qed.

Lemma quiet_on_failure client e h :
  Worker.on_failure client e = Some h -> quiet h.
Proof. destruct e; simpl; intros H; inversion H; apply quiet_close_ret. Qed.

Section OneCall.
Variables (api : BaseAPIClient) (ok : string -> bool).

Lemma one_call_quiet {A} (m : M A) w : quiet m -> one_call api ok m w.
Proof. intros Q r w' E. left. exact (Q _ _ _ E). Qed.

Lemma one_call_request method endpoint params json_data w :
  ok method = true ->
  one_call api ok (_request api method endpoint params json_data) w.
Proof.
  intros K r w' E. apply request_calls in E. destruct E as [_ E].
  destruct (pool_open w); [right | now left].
  now exists method, endpoint, params, json_data.
Qed.

Lemma one_call_bind_pure {A B} (m : M A) (k : A -> M B) w :
  pure m -> (forall a, one_call api ok (k a) w) ->
  one_call api ok (bind m k) w.
Proof.
  intros P H r w' E. unfold bind in E.
  destruct (P w) as [(a & R) | (e & R)]; rewrite R in E.
  - exact (H a _ _ E).
  - left. now inversion E.
Qed.

(** A step that made its call, followed by steps that make none. *)
Lemma one_call_then_quiet {A B} (m : M A) (k : A -> M B) w :
  one_call api ok m w -> (forall a, quiet (k a)) ->
  one_call api ok (bind m k) w.
Proof.
  intros H Q r w' E. unfold bind in E.
  destruct (m w) as [[a | e] w1] eqn:R.
  - rewrite (Q a _ _ _ E). exact (H _ _ R).
  - inversion E; subst. exact (H _ _ R).
Qed.

Lemma one_call_try {A} (body : M A) handler w :
  one_call api ok body w ->
  (forall e h, handler e = Some h -> quiet h) ->
  one_call api ok (try_except body handler) w.
Proof.
  intros H Q r w' E. unfold try_except in E.
  destruct (body w) as [[a | e] w1] eqn:R.
  - inversion E; subst. exact (H _ _ R).
  - destruct (handler e) as [h |] eqn:X.
    + rewrite (Q e h X _ _ _ E). exact (H _ _ R).
    + inversion E; subst. exact (H _ _ R).
Qed.

(** A table-driven block makes the call of the operation it selects. *)
Lemma one_call_by_table {Op} (rules : list (Table.rule Op)) run client
    endpoint method family w :
  (forall op, Table.first_match rules endpoint method = Some op ->
              one_call api ok (run op) w) ->
  one_call api ok (Table.by_table rules run client endpoint method family) w.
Proof.
  intros H. unfold Table.by_table. apply one_call_try.
  - destruct (Table.first_match rules endpoint method) as [op |].
    + apply one_call_then_quiet; [now apply H | intros; apply quiet_respond].
    + apply one_call_quiet, quiet_close_ret.
  - apply quiet_on_api_error.
Qed.

End OneCall.

Ltac one_call_step :=
  first
    [ apply one_call_request; reflexivity
    | apply one_call_quiet, quiet_pure, pure_raise
    | apply one_call_bind_pure;
      [ first [ apply pure_item | apply pure_lift | apply pure_only_active_of
              | apply pure_percent_of ]
      | intros ]
    | match goal with
      | |- one_call _ _ (if ?c then _ else _) _ => destruct c
      | |- one_call _ _ (match ?c with _ => _ end) _ => destruct c
      end ].

(** Each operation of the three tables makes at most the one call of its
    client. *)
Lemma tessie_run_one_call op api endpoint params jb w :
  one_call api any_method (Table.tessie_run op api endpoint params jb) w.
Proof.
  destruct op; unfold Table.tessie_run;
    unfold Tessie.list_vehicles, Tessie.state, Tessie.battery, Tessie.wake,
      Tessie.start_charging, Tessie.stop_charging, Tessie.set_charge_limit,
      Tessie.lock, Tessie.unlock, Tessie.flash_lights, Tessie.honk,
      Tessie.start_climate, Tessie.stop_climate;
    repeat one_call_step.
Qed.

Lemma telemetry_run_one_call op api endpoint method params w :
  one_call api any_method (Table.telemetry_run op api endpoint method params) w.
Proof.
  destruct op; unfold Table.telemetry_run;
    unfold Teslemetry.ping, Teslemetry.test, Teslemetry.metadata,
      Teslemetry.scopes, Teslemetry.server_side_polling,
      Teslemetry.vehicle_data_refresh;
    repeat one_call_step.
Qed.

Lemma fleet_run_one_call op api endpoint params jb w :
  one_call api any_method (Table.fleet_run op api endpoint params jb) w.
Proof.
  destruct op; unfold Table.fleet_run;
    unfold Fleet.list_vehicles, Fleet.vehicle_data, Fleet.wake_up, Fleet.command;
    repeat one_call_step.
Qed.

Lemma init_clients env w :
  UnifiedTessieClient_init (TESSIE_API_KEY env) (TESLEMETRY_API_KEY env)
    (FLEET_API_KEY env)
    (match FLEET_REGION env with Some r => r | None => "na" end) w =
    (Return {| tessie := family_client env FTessie;
               telemetry := family_client env FTelemetry;
               fleet := family_client env FFleet |}, opened w).
Proof. reflexivity. Qed.

Lemma startswith_app p r : startswith (p ++ r) p = true.
Proof.
  unfold startswith. induction p as [| a p IH]; simpl.
  - apply prefix_nil.
  - destruct (ascii_dec a a) as [_ | N]; [exact IH | now elim N].
Qed.

(** What [family_client] binds: the token of the family and one of its
    hosts. *)
Lemma family_client_facts env f api :
  family_client env f = Some api ->
  family_token env f = Some (access_token api) /\
  In (base_url api) (family_hosts f).
Proof.
  destruct f; simpl.
  - destruct (TESSIE_API_KEY env) as [t |]; [| discriminate].
    destruct (truthy_str (Some t)); [| discriminate].
    intros H. inversion H. simpl. auto.
  - destruct (TESLEMETRY_API_KEY env) as [t |]; [| discriminate].
    destruct (truthy_str (Some t)); [| discriminate].
    intros H. inversion H. simpl. auto.
  - destruct (FLEET_API_KEY env) as [t |]; [| discriminate].
    destruct (truthy_str (Some t)); [| discriminate].
    intros H. inversion H. split; [reflexivity |].
    unfold FleetAPIClient_init, region_urls. cbn [assoc base_url].
    destruct (String.eqb "na" _); [simpl; auto |].
    destruct (String.eqb "eu" _); [simpl; auto |].
    destruct (String.eqb "cn" _); simpl; auto.
Qed.

(** Under the prefix of a family, [fetch] runs the route block of that
    family under its two closing clauses. *)
Lemma fetch_family f request env w :
  startswith (req_path request) (family_prefix f ++ "/") = true ->
  Worker.fetch request env w =
    try_except (family_block f (clients env) request)
      (Worker.on_failure (clients env)) (opened w).
Proof.
  intros P. unfold Worker.fetch.
  rewrite (bind_return _ _ _ _ _ (init_clients env w)).
  fold (clients env). now rewrite (guarded_family f _ _ _ P).
Qed.

Lemma try_quiet {A} (body : M A) handler w r w' :
  (forall r1 w1, body w = (r1, w1) -> calls w1 = calls w) ->
  (forall e h, handler e = Some h -> quiet h) ->
  try_except body handler w = (r, w') -> calls w' = calls w.
Proof.
  intros B Q E. unfold try_except in E.
  destruct (body w) as [[a | e] w1] eqn:R.
  - inversion E; subst. exact (B _ _ eq_refl).
  - destruct (handler e) as [h |] eqn:X.
    + rewrite (Q e h X _ _ _ E). exact (B _ _ eq_refl).
    + inversion E; subst. exact (B _ _ eq_refl).
Qed.

(** The route block of a family whose token is not set makes no call. *)
Lemma block_unconfigured f env request w r w' :
  family_client env f = None ->
  family_block f (clients env) request w = (r, w') -> calls w' = calls w.
Proof.
  intros C E. destruct f; unfold family_block in E.
  - unfold Worker.tessie_routes in E. cbn [clients tessie] in E.
    rewrite C in E. now inversion E.
  - unfold Worker.telemetry_routes in E. cbn [clients telemetry] in E.
    rewrite C in E. now inversion E.
  - unfold Worker.fleet_routes in E. cbn [clients fleet] in E.
    rewrite C in E. now inversion E.
Qed.

Lemma fetch_unconfigured_quiet f request env w r w' :
  startswith (req_path request) (family_prefix f ++ "/") = true ->
  family_client env f = None ->
  Worker.fetch request env w = (r, w') -> calls w' = calls w.
Proof.
  intros P C E. rewrite (fetch_family f _ _ _ P) in E.
  apply (try_quiet _ _ _ _ _ (fun r1 w1 => block_unconfigured f env request _ r1 w1 C)
           (quiet_on_failure _) E).
Qed.

(** Any property of the one call that holds for the operations a block
    can select holds for the block. *)
Lemma tessie_block_one_call env request api ok w :
  family_client env FTessie = Some api ->
  (forall op e params jb,
      Table.first_match Table.tessie_rules e (upper (req_method request)) = Some op ->
      one_call api ok (Table.tessie_run op api e params jb) w) ->
  one_call api ok (family_block FTessie (clients env) request) w.
Proof.
  intros C H r w' E. unfold family_block in E.
  rewrite (tessie_routes_by_table _ api) in E by exact C.
  revert r w' E. apply one_call_bind_pure; [apply pure_body_for |].
  intros jb. apply one_call_by_table. intros op F. now apply H.
Qed.

Lemma telemetry_block_one_call env request api ok w :
  family_client env FTelemetry = Some api ->
  (forall op e params,
      Table.first_match Table.telemetry_rules e (upper (req_method request)) = Some op ->
      one_call api ok
        (Table.telemetry_run op api e (upper (req_method request)) params) w) ->
  one_call api ok (family_block FTelemetry (clients env) request) w.
Proof.
  intros C H r w' E. unfold family_block in E.
  rewrite (telemetry_routes_by_table _ api) in E by exact C.
  revert r w' E. apply one_call_by_table. intros op F. now apply H.
Qed.

Lemma fleet_block_one_call env request api ok w :
  family_client env FFleet = Some api ->
  (forall op e params jb,
      Table.first_match Table.fleet_rules e (upper (req_method request)) = Some op ->
      one_call api ok (Table.fleet_run op api e params jb) w) ->
  one_call api ok (family_block FFleet (clients env) request) w.
Proof.
  intros C H r w' E. unfold family_block in E.
  rewrite (fleet_routes_by_table _ api) in E by exact C.
  revert r w' E. apply one_call_bind_pure; [apply pure_body_for |].
  intros jb. apply one_call_by_table. intros op F. now apply H.
Qed.

(** X1: a request under the prefix of a family makes at most one upstream
    call, and that call goes to a host of that family with the bearer
    token of that family: no request reaches another family's upstream
    or carries another family's token. *)
Theorem X1_one_call_with_own_credentials :
  forall (f : family) (request : Request) (env : Env) (w : world) r w',
    startswith (req_path request) (family_prefix f ++ "/") = true ->
    Worker.fetch request env w = (r, w') ->
    calls w' = calls w \/
    exists c token host,
      calls w' = (calls w ++ [c])%list /\
      family_token env f = Some token /\
      assoc "Authorization" (uc_headers c) = Some ("Bearer " ++ token) /\
      In host (family_hosts f) /\
      startswith (uc_url c) (host ++ "/") = true.
Proof.
  intros f request env w r w' P E.
  destruct (family_client env f) as [api |] eqn:C.
  - rewrite (fetch_family f _ _ _ P) in E.
    assert (B : one_call api any_method (family_block f (clients env) request)
                  (opened w)).
    { destruct f.
      - apply (tessie_block_one_call env request api _ _ C); intros.
        apply tessie_run_one_call.
      - apply (telemetry_block_one_call env request api _ _ C); intros.
        apply telemetry_run_one_call.
      - apply (fleet_block_one_call env request api _ _ C); intros.
        apply fleet_run_one_call. }
    destruct (one_call_try api any_method _ _ _ B (quiet_on_failure _) _ _ E)
      as [H | (method & endpoint & params & js & _ & H)].
    + now left.
    + right. destruct (family_client_facts _ _ _ C) as [T I].
      exists (request_call api method endpoint params js), (access_token api),
        (base_url api).
      refine (conj H (conj T (conj eq_refl (conj I _)))).
      cbn [request_call uc_url]. rewrite <- append_assoc. apply startswith_app.
  - left. exact (fetch_unconfigured_quiet f request env w r w' P C E).
Qed.

Lemma X1_witness :
  exists c,
    calls (snd (Worker.fetch
                  (Sample.request "POST"
                     "/api/tessie/5YJ3E1EA1KF000001/command/honk" [] []
                     Sample.no_body)
                  Sample.tessie_only Sample.online)) = [c] /\
    assoc "Authorization" (uc_headers c) = Some "Bearer tessie-key" /\
    startswith (uc_url c) "https://api.tessie.com/" = true.
Proof.
  destruct (X1_one_call_with_own_credentials FTessie
              (Sample.request "POST"
                 "/api/tessie/5YJ3E1EA1KF000001/command/honk" [] []
                 Sample.no_body)
              Sample.tessie_only Sample.online _ _ eq_refl eq_refl)
    as [H | (c & token & host & H & T & A & I & S)].
  - discriminate H.
  - exists c. split; [exact H |].
    inversion T; subst token.
    destruct I as [<- | []]. split; assumption.
Defined.

(** ** Requests that are not POST *)

Lemma tessie_not_post endpoint method op :
  String.eqb method "POST" = false ->
  Table.first_match Table.tessie_rules endpoint method = Some op ->
  op = Table.ListVehicles \/ op = Table.State \/ op = Table.Battery.
Proof.
  intros M. unfold Table.first_match, Table.tessie_rules. cbn [find].
  unfold Table.rule_matches, Table.shape_matches.
  cbn [Table.rule_shape Table.rule_method Table.rule_op].
  rewrite M, ?andb_false_r, ?andb_true_r.
  destruct (String.eqb endpoint "vehicles"); [intros H; inversion H; auto |].
  destruct (endswith endpoint "/state"); [intros H; inversion H; auto |].
  destruct (endswith endpoint "/battery"); [intros H; inversion H; auto |].
  discriminate.
Qed.

Lemma fleet_not_post endpoint method op :
  String.eqb method "POST" = false ->
  Table.first_match Table.fleet_rules endpoint method = Some op ->
  op = Table.FleetVehicles \/ op = Table.VehicleData.
Proof.
  intros M. unfold Table.first_match, Table.fleet_rules. cbn [find].
  unfold Table.rule_matches, Table.shape_matches.
  cbn [Table.rule_shape Table.rule_method Table.rule_op].
  rewrite M, ?andb_false_r, ?andb_true_r.
  destruct (String.eqb endpoint "vehicles"); [intros H; inversion H; auto |].
  destruct (contains "/vehicle_data" endpoint); [intros H; inversion H; auto |].
  discriminate.
Qed.

Lemma tessie_reads_get op api endpoint params jb w :
  op = Table.ListVehicles \/ op = Table.State \/ op = Table.Battery ->
  one_call api is_get (Table.tessie_run op api endpoint params jb) w.
Proof.
  intros [-> | [-> | ->]]; unfold Table.tessie_run;
    unfold Tessie.list_vehicles, Tessie.state, Tessie.battery;
    repeat one_call_step.
Qed.

Lemma fleet_reads_get op api endpoint params jb w :
  op = Table.FleetVehicles \/ op = Table.VehicleData ->
  one_call api is_get (Table.fleet_run op api endpoint params jb) w.
Proof.
  intros [-> | ->]; unfold Table.fleet_run;
    unfold Fleet.list_vehicles, Fleet.vehicle_data;
    repeat one_call_step.
Qed.

(** X2: a request to the Tessie or the Fleet family whose method is not
    POST never sends a command upstream: the only upstream call it can
    make is a GET. *)
Theorem X2_only_post_sends_commands :
  forall (f : family) (request : Request) (env : Env) (w : world) r w',
    f <> FTelemetry ->
    startswith (req_path request) (family_prefix f ++ "/") = true ->
    String.eqb (upper (req_method request)) "POST" = false ->
    Worker.fetch request env w = (r, w') ->
    calls w' = calls w \/
    exists c, calls w' = (calls w ++ [c])%list /\ uc_method c = "GET".
Proof.
  intros f request env w r w' N P M E.
  destruct (family_client env f) as [api |] eqn:C.
  - rewrite (fetch_family f _ _ _ P) in E.
    assert (B : one_call api is_get (family_block f (clients env) request)
                  (opened w)).
    { destruct f; [| now elim N |].
      - apply (tessie_block_one_call env request api _ _ C); intros.
        apply tessie_reads_get, (tessie_not_post _ _ _ M H).
      - apply (fleet_block_one_call env request api _ _ C); intros.
        apply fleet_reads_get, (fleet_not_post _ _ _ M H). }
    destruct (one_call_try api is_get _ _ _ B (quiet_on_failure _) _ _ E)
      as [H | (method & e & p & j & G & H)].
    + now left.
    + right. eexists. split; [exact H |].
      unfold is_get in G. now apply String.eqb_eq in G.
  - left. exact (fetch_unconfigured_quiet f request env w r w' P C E).
Qed.

Lemma X2_witness :
  calls (snd (Worker.fetch
                (Sample.request "GET" "/api/tessie/5YJ3E1EA1KF000001/command/lock"
                   [] [] Sample.no_body)
                Sample.tessie_only Sample.online)) = [] \/
  exists c,
    calls (snd (Worker.fetch
                  (Sample.request "GET"
                     "/api/tessie/5YJ3E1EA1KF000001/command/lock" [] []
                     Sample.no_body)
                  Sample.tessie_only Sample.online)) = [c] /\
    uc_method c = "GET".
Proof.
  eapply (X2_only_post_sends_commands FTessie
            (Sample.request "GET" "/api/tessie/5YJ3E1EA1KF000001/command/lock"
               [] [] Sample.no_body)
            Sample.tessie_only Sample.online).
  - discriminate.
  - reflexivity.
  - reflexivity.
  - vm_compute. reflexivity.
Defined.

(** ** The call a request makes *)

Lemma makes_request api method endpoint params json_data w :
  pool_open w = true ->
  makes (request_call api method endpoint params json_data)
    (_request api method endpoint params json_data) w.
Proof.
  intros O r w' E. apply request_calls in E. destruct E as [_ E].
  now rewrite O in E.
Qed.

Lemma makes_then_quiet {A B} c (m : M A) (k : A -> M B) w :
  makes c m w -> (forall a, quiet (k a)) -> makes c (bind m k) w.
Proof.
  intros H Q r w' E. unfold bind in E.
  destruct (m w) as [[a | e] w1] eqn:R.
  - rewrite (Q a _ _ _ E). exact (H _ _ R).
  - inversion E; subst. exact (H _ _ R).
Qed.

Lemma makes_try {A} c (body : M A) handler w :
  makes c body w -> (forall e h, handler e = Some h -> quiet h) ->
  makes c (try_except body handler) w.
Proof.
  intros H Q r w' E. unfold try_except in E.
  destruct (body w) as [[a | e] w1] eqn:R.
  - inversion E; subst. exact (H _ _ R).
  - destruct (handler e) as [h |] eqn:X.
    + rewrite (Q e h X _ _ _ E). exact (H _ _ R).
    + inversion E; subst. exact (H _ _ R).
Qed.

Lemma makes_after {A B} c (m : M A) (k : A -> M B) w a :
  m w = (Return a, w) -> makes c (k a) w -> makes c (bind m k) w.
Proof. intros R H r w' E. rewrite (bind_return _ _ _ _ _ R) in E. exact (H _ _ E). Qed.

Lemma makes_by_table {Op} (rules : list (Table.rule Op)) run client
    endpoint method family c w op :
  Table.first_match rules endpoint method = Some op ->
  makes c (run op) w ->
  makes c (Table.by_table rules run client endpoint method family) w.
Proof.
  intros F H. unfold Table.by_table. rewrite F.
  apply makes_try; [| apply quiet_on_api_error].
  apply makes_then_quiet; [exact H | intros; apply quiet_respond].
Qed.

(** The call of a request under a family prefix is the call of its route
    block. *)
Lemma fetch_makes f request env w c :
  startswith (req_path request) (family_prefix f ++ "/") = true ->
  makes c (family_block f (clients env) request) (opened w) ->
  calls (snd (Worker.fetch request env w)) = (calls w ++ [c])%list.
Proof.
  intros P H. rewrite (fetch_family f _ _ _ P).
  destruct (try_except _ _ _) as [r w'] eqn:E.
  exact (makes_try c _ _ _ H (quiet_on_failure _) _ _ E).
Qed.

Lemma extract_telemetry d :
  Worker._extract_path_suffix ("/api/telemetry/" ++ d) "/api/telemetry"
  = lstrip "/" d.
Proof. unfold Worker._extract_path_suffix. simpl. reflexivity. Qed.

Lemma extract_fleet d :
  Worker._extract_path_suffix ("/api/fleet/" ++ d) "/api/fleet" = lstrip "/" d.
Proof. unfold Worker._extract_path_suffix. simpl. reflexivity. Qed.

Lemma prefix_app p r : String.prefix p (p ++ r) = true.
Proof. apply (startswith_app p r). Qed.

Lemma contains_here p b : contains p (p ++ b) = true.
Proof.
  destruct p as [| a p]; [now destruct b |].
  cbn [append contains].
  rewrite (prefix_app (String a p) b : String.prefix (String a p) (String a (p ++ b)) = true).
  reflexivity.
Qed.

(** A string contains what stands in its middle or at its end. *)
Lemma contains_middle p a b : contains p (a ++ p ++ b) = true.
Proof.
  induction a as [| x a IH].
  - exact (contains_here p b).
  - cbn [append contains]. rewrite IH. apply orb_true_r.
Qed.

Lemma contains_suffix p a : contains p (a ++ p) = true.
Proof. rewrite <- (append_nil_r p) at 2. apply contains_middle. Qed.

Lemma has_slash_middle a b : has_char "/" (a ++ String "/" b) = true.
Proof. rewrite has_char_app. simpl. apply orb_true_r. Qed.

(** ** Server-side polling *)

Lemma first_match_polling seg vin method :
  Table.first_match Table.telemetry_rules
    (seg ++ String "/" (vin ++ "/polling")) method = Some Table.Polling.
Proof.
  unfold Table.first_match, Table.telemetry_rules. cbn [find].
  unfold Table.rule_matches, Table.shape_matches.
  cbn [Table.rule_shape Table.rule_method].
  rewrite !(eqb_has_char_differs "/" (seg ++ String "/" (vin ++ "/polling")))
    by (apply has_slash_middle || reflexivity).
  change (seg ++ String "/" (vin ++ "/polling"))
    with (seg ++ "/" ++ (vin ++ "/polling")).
  rewrite <- !append_assoc. rewrite contains_suffix. reflexivity.
Qed.

Lemma second_segment seg vin rest :
  has_char "/" seg = false -> has_char "/" vin = false ->
  item (split (seg ++ String "/" (vin ++ String "/" rest)) "/") 1 = ret vin.
Proof.
  intros S V. unfold split.
  rewrite (split_from_first seg _ "" S), (split_from_first vin rest "" V).
  reflexivity.
Qed.

Section Polling.
Variables (request : Request) (env : Env) (w : world) (key seg vin : string).
Hypothesis key_set : TESLEMETRY_API_KEY env = Some key.
Hypothesis key_not_empty : String.eqb key "" = false.
Hypothesis path_is :
  req_path request = "/api/telemetry/" ++ seg ++ "/" ++ vin ++ "/polling".
Hypothesis seg_plain : has_char "/" seg = false.
Hypothesis seg_not_empty : seg <> "".
Hypothesis vin_plain : has_char "/" vin = false.

Let api := TeslemetryClient_init key None.

Lemma telemetry_client : family_client env FTelemetry = Some api.
Proof. simpl. rewrite key_set. simpl. now rewrite key_not_empty. Qed.

(** The verb that goes upstream once the chain has chosen [enabled]. *)
Lemma polling_call enabled verb :
  (forall w0,
      Table.telemetry_run Table.Polling api (seg ++ "/" ++ vin ++ "/polling")
        (upper (req_method request)) (Worker._parse_query_params request) w0
      = Teslemetry.server_side_polling api vin enabled w0) ->
  verb = match enabled with
         | None => "GET"
         | Some true => "POST"
         | Some false => "DELETE"
         end ->
  calls (snd (Worker.fetch request env w)) =
    (calls w ++
     [request_call api verb ("vehicles/" ++ vin ++ "/polling") None None])%list.
Proof.
  intros R V. apply (fetch_makes FTelemetry).
  { rewrite path_is. simpl. apply startswith_nil. }
  unfold family_block. intros r w' E.
  rewrite (telemetry_routes_by_table _ api) in E by apply telemetry_client.
  rewrite path_is, extract_telemetry, (lstrip_segment _ _ seg_plain seg_not_empty)
    in E.
  revert r w' E.
  apply (makes_by_table _ _ _ _ _ _ _ _ Table.Polling).
  - apply first_match_polling.
  - intros r w' E. rewrite R in E. subst verb.
    destruct enabled as [[|] |];
      exact (makes_request _ _ _ _ _ (opened w) eq_refl _ _ E).
Qed.

End Polling.

Lemma polling_run api seg vin method params w0 :
  has_char "/" seg = false -> has_char "/" vin = false ->
  Table.telemetry_run Table.Polling api (seg ++ "/" ++ vin ++ "/polling")
    method params w0 =
    (if Worker.qval_is_none (assoc "enabled" params) && String.eqb method "GET"
     then Teslemetry.server_side_polling api vin None
     else if Worker.qval_is (assoc "enabled" params) "true"
             || String.eqb method "POST"
     then Teslemetry.server_side_polling api vin (Some true)
     else if Worker.qval_is (assoc "enabled" params) "false"
             || String.eqb method "DELETE"
     then Teslemetry.server_side_polling api vin (Some false)
     else raise (HTTPException 400 "Invalid polling operation")) w0.
Proof.
  intros S V. cbn [Table.telemetry_run].
  change (seg ++ "/" ++ vin ++ "/polling")
    with (seg ++ String "/" (vin ++ String "/" "polling")).
  rewrite (second_segment seg vin "polling" S V). reflexivity.
Qed.

(** X3: for a request to /api/telemetry/<segment>/<vin>/polling the verb
    sent upstream to vehicles/<vin>/polling is decided by method and
    query together: a plain GET reads; POST always enables, also with
    enabled=false; a GET with enabled=true enables and a GET with
    enabled=false disables, so a GET can change the polling state; the
    first segment of the descriptor is not looked at. *)
Theorem X3_polling_verb :
  forall (request : Request) (env : Env) (w : world) (key seg vin : string),
    TESLEMETRY_API_KEY env = Some key ->
    String.eqb key "" = false ->
    req_path request = "/api/telemetry/" ++ seg ++ "/" ++ vin ++ "/polling" ->
    has_char "/" seg = false ->
    seg <> "" ->
    has_char "/" vin = false ->
    let enabled := assoc "enabled" (Worker._parse_query_params request) in
    let method := upper (req_method request) in
    let sent verb :=
      calls (snd (Worker.fetch request env w)) =
        (calls w ++
         [request_call (TeslemetryClient_init key None) verb
            ("vehicles/" ++ vin ++ "/polling") None None])%list in
    (method = "GET" -> enabled = None -> sent "GET") /\
    (method = "POST" -> sent "POST") /\
    (method = "GET" -> enabled = Some (QOne "true") -> sent "POST") /\
    (method = "GET" -> enabled = Some (QOne "false") -> sent "DELETE") /\
    (method = "DELETE" -> enabled = None -> sent "DELETE").
Proof.
  intros request env w key seg vin K E P S N V. cbv zeta.
  refine (conj _ (conj _ (conj _ (conj _ _)))).
  - intros M Q.
    apply (polling_call request env w key seg vin K E P S N None); [| reflexivity].
    intros w0. rewrite (polling_run _ _ _ _ _ _ S V), M, Q. reflexivity.
  - intros M.
    apply (polling_call request env w key seg vin K E P S N (Some true));
      [| reflexivity].
    intros w0. rewrite (polling_run _ _ _ _ _ _ S V), M.
    cbn [String.eqb Ascii.eqb Bool.eqb andb].
    rewrite andb_false_r, orb_true_r. reflexivity.
  - intros M Q.
    apply (polling_call request env w key seg vin K E P S N (Some true));
      [| reflexivity].
    intros w0. rewrite (polling_run _ _ _ _ _ _ S V), M, Q. reflexivity.
  - intros M Q.
    apply (polling_call request env w key seg vin K E P S N (Some false));
      [| reflexivity].
    intros w0. rewrite (polling_run _ _ _ _ _ _ S V), M, Q. reflexivity.
  - intros M Q.
    apply (polling_call request env w key seg vin K E P S N (Some false));
      [| reflexivity].
    intros w0. rewrite (polling_run _ _ _ _ _ _ S V), M, Q. reflexivity.
Qed.

Lemma X3_witness :
  calls (snd (Worker.fetch
                (Sample.request "GET" "/api/telemetry/vehicles/5YJ3E1EA1KF000001/polling"
                   [("enabled", ["true"])] [] Sample.no_body)
                {| JWT_SECRET := None; TESSIE_API_KEY := None;
                   TESLEMETRY_API_KEY := Some "telemetry-key";
                   FLEET_API_KEY := None; FLEET_REGION := None; ASSETS := None |}
                Sample.online)) =
    [request_call (TeslemetryClient_init "telemetry-key" None) "POST"
       "vehicles/5YJ3E1EA1KF000001/polling" None None].
Proof.
  destruct (X3_polling_verb
              (Sample.request "GET"
                 "/api/telemetry/vehicles/5YJ3E1EA1KF000001/polling"
                 [("enabled", ["true"])] [] Sample.no_body)
              {| JWT_SECRET := None; TESSIE_API_KEY := None;
                 TESLEMETRY_API_KEY := Some "telemetry-key";
                 FLEET_API_KEY := None; FLEET_REGION := None; ASSETS := None |}
              Sample.online "telemetry-key" "vehicles" "5YJ3E1EA1KF000001"
              eq_refl eq_refl eq_refl eq_refl ltac:(discriminate) eq_refl)
    as (_ & _ & H & _).
  apply H; reflexivity.
Defined.

(** ** Fleet commands *)

Lemma split_from_skip sep s1 : forall rest cur,
  split_from sep (s1 ++ rest) (String.length s1) cur = split_from sep rest 0 cur.
Proof.
  induction s1 as [| a s1 IH]; intros rest cur; [reflexivity |].
  cbn [append String.length split_from]. apply IH.
Qed.

(** A piece without a slash holds no separator that starts with one. *)
Lemma split_from_plain p s : forall cur,
  has_char "/" s = false -> split_from (String "/" p) s 0 cur = [cur ++ s].
Proof.
  induction s as [| a s IH]; intros cur H.
  - cbn [split_from]. now rewrite append_nil_r.
  - cbn [split_from]. rewrite (prefix_slash_no_slash p _ H).
    cbn [has_char] in H. apply orb_false_elim in H. destruct H as [_ H].
    rewrite (IH _ H), append_assoc. reflexivity.
Qed.

Lemma split_from_sep p vin rest : forall cur,
  has_char "/" vin = false ->
  split_from (String "/" p) (vin ++ String "/" p ++ rest) 0 cur
  = (cur ++ vin) :: split_from (String "/" p) rest 0 "".
Proof.
  induction vin as [| a v IH]; intros cur H.
  - cbn [append split_from].
    rewrite (prefix_app (String "/" p) rest : String.prefix (String "/" p)
                                              (String "/" (p ++ rest)) = true).
    cbn [String.length Nat.pred]. rewrite split_from_skip, append_nil_r.
    reflexivity.
  - change (String a v ++ String "/" p ++ rest)
      with (String a (v ++ String "/" p ++ rest)).
    cbn [split_from].
    assert (X : String.prefix (String "/" p) (String a (v ++ String "/" p ++ rest))
                = false).
    { cbn [has_char] in H. apply orb_false_elim in H. destruct H as [H _].
      cbn [String.prefix].
      destruct (ascii_dec "/" a) as [<- |]; [discriminate | reflexivity]. }
    rewrite X.
    cbn [has_char] in H. apply orb_false_elim in H. destruct H as [_ H].
    rewrite (IH _ H), append_assoc. reflexivity.
Qed.

Lemma split_command vin name :
  has_char "/" vin = false -> has_char "/" name = false ->
  split (vin ++ "/command/" ++ name) "/command/" = [vin; name].
Proof.
  intros V N. unfold split.
  rewrite (split_from_sep "command/" vin name "" V),
    (split_from_plain "command/" name "" N).
  reflexivity.
Qed.

(** Which Fleet rule takes <vin>/command/<name>: the substring rules for
    vehicle data and wake-up stand before the command rule and take every
    name that begins with theirs. *)
Lemma first_match_command vin name :
  has_char "/" vin = false -> has_char "/" name = false ->
  Table.first_match Table.fleet_rules (vin ++ "/command/" ++ name) "POST" =
    Some (if startswith name "vehicle_data" then Table.VehicleData
          else if startswith name "wake_up" then Table.WakeUp
          else Table.Command).
Proof.
  intros V N. unfold Table.first_match, Table.fleet_rules. cbn [find].
  unfold Table.rule_matches, Table.shape_matches.
  cbn [Table.rule_shape Table.rule_method].
  rewrite (eqb_has_char_differs "/" (vin ++ "/command/" ++ name) "vehicles")
    by (apply has_slash_middle || reflexivity).
  rewrite !(contains_after_segment _ _ _ V).
  cbn [append contains String.prefix].
  repeat match goal with
         | |- context [ascii_dec ?a ?b] =>
             let d := eval vm_compute in (Ascii.eqb a b) in
             match d with
             | true => destruct (ascii_dec a b) as [_ | X]; [| now elim X]
             | false => destruct (ascii_dec a b) as [X |]; [discriminate X |]
             end
         end.
  cbn [orb andb]. rewrite !(contains_slash_no_slash _ _ N), ?orb_false_r.
  rewrite prefix_nil. unfold startswith.
  destruct (String.prefix "vehicle_data" name); [reflexivity |].
  destruct (String.prefix "wake_up" name); reflexivity.
Qed.

Section FleetCommand.
Variables (request : Request) (env : Env) (w : world).
Variables (key vin name : string) (jb : option json).
Hypothesis key_set : FLEET_API_KEY env = Some key.
Hypothesis key_not_empty : String.eqb key "" = false.
Hypothesis path_is :
  req_path request = "/api/fleet/" ++ vin ++ "/command/" ++ name.
Hypothesis method_is : upper (req_method request) = "POST".
Hypothesis vin_plain : has_char "/" vin = false.
Hypothesis vin_not_empty : vin <> "".
Hypothesis name_plain : has_char "/" name = false.
Hypothesis body_is :
  Worker.body_for request "POST" (opened w) = (Return jb, opened w).

Let api :=
  FleetAPIClient_init key
    (match FLEET_REGION env with Some r => r | None => "na" end).

Lemma fleet_client : family_client env FFleet = Some api.
Proof. simpl. rewrite key_set. simpl. now rewrite key_not_empty. Qed.

Lemma fleet_command_call c :
  makes c
    (Table.fleet_run
       (if startswith name "vehicle_data" then Table.VehicleData
        else if startswith name "wake_up" then Table.WakeUp
        else Table.Command)
       api (vin ++ "/command/" ++ name)
       (Worker._parse_query_params request) jb) (opened w) ->
  calls (snd (Worker.fetch request env w)) = (calls w ++ [c])%list.
Proof.
  intros H. apply (fetch_makes FFleet).
  { rewrite path_is. simpl. apply startswith_nil. }
  unfold family_block. intros r w' E.
  rewrite (fleet_routes_by_table _ api) in E by apply fleet_client.
  rewrite path_is, extract_fleet, (lstrip_segment _ _ vin_plain vin_not_empty),
    method_is in E.
  revert r w' E. apply (makes_after _ _ _ _ _ body_is).
  apply (makes_by_table _ _ _ _ _ _ _ _ _
           (first_match_command vin name vin_plain name_plain)).
  exact H.
Qed.

End FleetCommand.

(** X4: a POST to /api/fleet/<vin>/command/<name> goes upstream as POST
    api/1/vehicles/<vin>/command/<name> with the caller's JSON body
    unchanged - unless <name> begins with "wake_up" (and likewise
    "vehicle_data"): the substring rules that stand first take such a
    request, and a name like wake_up_now is sent as the plain wake_up
    call, without the name and the body. *)
Theorem X4_fleet_command_forwarding :
  forall (request : Request) (env : Env) (w : world)
         (key vin name : string) (jb : option json),
    FLEET_API_KEY env = Some key ->
    String.eqb key "" = false ->
    req_path request = "/api/fleet/" ++ vin ++ "/command/" ++ name ->
    upper (req_method request) = "POST" ->
    has_char "/" vin = false ->
    vin <> "" ->
    has_char "/" name = false ->
    Worker.body_for request "POST" (opened w) = (Return jb, opened w) ->
    startswith name "vehicle_data" = false ->
    let api :=
      FleetAPIClient_init key
        (match FLEET_REGION env with Some r => r | None => "na" end) in
    calls (snd (Worker.fetch request env w)) =
      (calls w ++
       [if startswith name "wake_up"
        then request_call api "POST" ("api/1/vehicles/" ++ vin ++ "/wake_up")
               None None
        else request_call api "POST"
               ("api/1/vehicles/" ++ vin ++ "/command/" ++ name) None jb])%list.
Proof.
  intros request env w key vin name jb K E P M V N L B D. cbv zeta.
  apply (fleet_command_call request env w key vin name jb K E P M V N L B).
  rewrite D. destruct (startswith name "wake_up").
  - cbn [Table.fleet_run].
    change (vin ++ "/command/" ++ name)
      with (vin ++ String "/" ("command/" ++ name)).
    rewrite (first_segment vin ("command/" ++ name) V).
    intros r w' X. unfold bind in X. cbn [ret] in X.
    exact (makes_request _ _ _ _ _ (opened w) eq_refl _ _ X).
  - cbn [Table.fleet_run]. rewrite (split_command vin name V L).
    intros r w' X. unfold bind, item in X. cbn [index nth_error ret] in X.
    exact (makes_request _ _ _ _ _ (opened w) eq_refl _ _ X).
Qed.

Lemma X4_witness :
  let env :=
    {| JWT_SECRET := None; TESSIE_API_KEY := None; TESLEMETRY_API_KEY := None;
       FLEET_API_KEY := Some "fleet-key"; FLEET_REGION := Some "eu";
       ASSETS := None |} in
  let body := JObj [("percent", JNum 80)] in
  calls (snd (Worker.fetch
                (Sample.request "POST"
                   "/api/fleet/5YJ3E1EA1KF000001/command/set_charge_limit" []
                   [("Content-Type", "application/json")] (inl body))
                env Sample.online)) =
    [request_call (FleetAPIClient_init "fleet-key" "eu") "POST"
       "api/1/vehicles/5YJ3E1EA1KF000001/command/set_charge_limit" None
       (Some body)] /\
  calls (snd (Worker.fetch
                (Sample.request "POST"
                   "/api/fleet/5YJ3E1EA1KF000001/command/wake_up_now" []
                   [("Content-Type", "application/json")] (inl body))
                env Sample.online)) =
    [request_call (FleetAPIClient_init "fleet-key" "eu") "POST"
       "api/1/vehicles/5YJ3E1EA1KF000001/wake_up" None None].
Proof.
  cbv zeta. split.
  - exact (X4_fleet_command_forwarding
             (Sample.request "POST"
                "/api/fleet/5YJ3E1EA1KF000001/command/set_charge_limit" []
                [("Content-Type", "application/json")]
                (inl (JObj [("percent", JNum 80)])))
             {| JWT_SECRET := None; TESSIE_API_KEY := None;
                TESLEMETRY_API_KEY := None; FLEET_API_KEY := Some "fleet-key";
                FLEET_REGION := Some "eu"; ASSETS := None |}
             Sample.online "fleet-key" "5YJ3E1EA1KF000001" "set_charge_limit"
             (Some (JObj [("percent", JNum 80)]))
             eq_refl eq_refl eq_refl eq_refl eq_refl
             (fun H => ltac:(discriminate H)) eq_refl eq_refl eq_refl).
  - exact (X4_fleet_command_forwarding
             (Sample.request "POST"
                "/api/fleet/5YJ3E1EA1KF000001/command/wake_up_now" []
                [("Content-Type", "application/json")]
                (inl (JObj [("percent", JNum 80)])))
             {| JWT_SECRET := None; TESSIE_API_KEY := None;
                TESLEMETRY_API_KEY := None; FLEET_API_KEY := Some "fleet-key";
                FLEET_REGION := Some "eu"; ASSETS := None |}
             Sample.online "fleet-key" "5YJ3E1EA1KF000001" "wake_up_now"
             (Some (JObj [("percent", JNum 80)]))
             eq_refl eq_refl eq_refl eq_refl eq_refl
             (fun H => ltac:(discriminate H)) eq_refl eq_refl eq_refl).
Defined.

(* ================================================================== *)
(** ** The health and status probes *)

Lemma family_client_truthy env f :
  Worker.is_some (family_client env f) =
  truthy_str (match f with
              | FTessie => TESSIE_API_KEY env
              | FTelemetry => TESLEMETRY_API_KEY env
              | FFleet => FLEET_API_KEY env
              end).
Proof.
  destruct f; simpl.
  - destruct (TESSIE_API_KEY env) as [k |]; [| reflexivity].
    simpl. now destruct (String.eqb k "").
  - destruct (TESLEMETRY_API_KEY env) as [k |]; [| reflexivity].
    simpl. now destruct (String.eqb k "").
  - destruct (FLEET_API_KEY env) as [k |]; [| reflexivity].
    simpl. now destruct (String.eqb k "").
Qed.

Lemma configured_clients env :
  configured env =
  ((if Worker.is_some (family_client env FTessie) then 1 else 0) +
   (if Worker.is_some (family_client env FTelemetry) then 1 else 0) +
   (if Worker.is_some (family_client env FFleet) then 1 else 0))%nat.
Proof. now rewrite !family_client_truthy. Qed.

(** The check of a configured family, by the reply of the upstream. *)
Lemma probe_run f env api w :
  family_client env f = Some api ->
  pool_open w = true ->
  exists s w',
    probe f (clients env) w = (Return s, w') /\
    pool_open w' = true /\
    calls w' = (calls w ++ [probe_call f api])%list /\
    match upstream w (List.length (calls w)) (probe_call f api) with
    | NoResponse _ => Health.status s = UNHEALTHY
    | HttpResponse code _ p =>
        if is_success code then
          match p with
          | inr _ => Health.status s = UNHEALTHY
          | inl v =>
              match f with
              | FTelemetry => Health.status s = HEALTHY
              | _ => Health.status s = HEALTHY \/ Health.status s = UNHEALTHY
              end
          end
        else Health.status s = error_status (Some code)
    end.
Proof.
  intros C O.
  destruct f; unfold probe, check_tessie, check_telemetry, check_fleet;
    cbn [clients tessie telemetry fleet]; rewrite C;
    unfold Tessie.list_vehicles, Teslemetry.ping, Fleet.list_vehicles,
      try_except, bind, probe_call, str_bool_lower;
    rewrite (request_spec _ _ _ _ _ _ O); cbv zeta;
    (destruct (upstream w _ _) as [code t p | d];
     [destruct (is_success code); [destruct p as [v | m] |] |]);
    try (destruct v as [| | | | | | fields]; cbn;
         try (destruct (assoc _ fields) as [x |]; cbn; [destruct x; cbn |]));
    do 2 eexists;
    (refine (conj eq_refl (conj _ (conj eq_refl _)));
     [exact O | first [reflexivity | now left | now right]]).
Qed.

Lemma error_status_degraded code :
  error_status (Some code) = DEGRADED <-> code <> 0 /\ code < 500.
Proof.
  unfold error_status.
  destruct (code =? 0) eqn:Z0; destruct (code <? 500) eqn:L; simpl;
    split; try discriminate; try lia; intros; reflexivity.
Qed.

Lemma error_status_known code : error_status code <> UNKNOWN.
Proof.
  unfold error_status. destruct code as [c |]; [| discriminate].
  destruct (negb (c =? 0) && (c <? 500)); discriminate.
Qed.

Lemma error_status_not_healthy code : error_status code <> HEALTHY.
Proof.
  unfold error_status. destruct code as [c |]; [| discriminate].
  destruct (negb (c =? 0) && (c <? 500)); discriminate.
Qed.

(** X5: the health check of a configured family makes its one probe call
    and classifies the upstream by the reply: DEGRADED exactly when the
    upstream answered with a status outside 200..299 that is below 500 -
    a 3xx redirect included; HEALTHY only for a 2xx answer with a JSON
    body, and for Teslemetry for every such answer; never UNKNOWN.  A
    transport failure, a 5xx answer and a 2xx answer that is not JSON
    are UNHEALTHY. *)
Theorem X5_probe_classification :
  forall (f : family) (env : Env) (api : BaseAPIClient) (w : world),
    family_client env f = Some api ->
    pool_open w = true ->
    let reply := upstream w (List.length (calls w)) (probe_call f api) in
    exists s w',
      probe f (clients env) w = (Return s, w') /\
      calls w' = (calls w ++ [probe_call f api])%list /\
      Health.status s <> UNKNOWN /\
      (Health.status s = DEGRADED <->
       exists code t p,
         reply = HttpResponse code t p /\
         is_success code = false /\ code <> 0 /\ code < 500) /\
      (Health.status s = HEALTHY ->
       exists code t v,
         reply = HttpResponse code t (inl v) /\ is_success code = true) /\
      (f = FTelemetry ->
       forall code t v,
         reply = HttpResponse code t (inl v) -> is_success code = true ->
         Health.status s = HEALTHY) /\
      (forall detail, reply = NoResponse detail -> Health.status s = UNHEALTHY).
Proof.
  intros f env api w C O reply.
  destruct (probe_run f env api w C O) as (s & w' & R & _ & K & V).
  exists s, w'. refine (conj R (conj K _)).
  fold reply in V. destruct reply as [code t p | d].
  - destruct (is_success code) eqn:S.
    + destruct p as [v | m].
      * assert (H : Health.status s = HEALTHY \/ Health.status s = UNHEALTHY)
          by (destruct f; auto).
        refine (conj _ (conj _ (conj _ (conj _ _)))).
        -- destruct H as [H | H]; rewrite H; discriminate.
        -- split.
           ++ intros D. destruct H as [H | H]; rewrite H in D; discriminate.
           ++ intros (c & t' & p' & E & S' & _). inversion E; subst.
              rewrite S in S'. discriminate.
        -- intros _. now exists code, t, v.
        -- intros F c t' v' E _. subst f. exact V.
        -- discriminate.
      * refine (conj _ (conj _ (conj _ (conj _ _)))).
        -- rewrite V. discriminate.
        -- split.
           ++ rewrite V. discriminate.
           ++ intros (c & t' & p' & E & S' & _). inversion E; subst.
              rewrite S in S'. discriminate.
        -- rewrite V. discriminate.
        -- intros _ c t' v' E. discriminate.
        -- discriminate.
    + refine (conj _ (conj _ (conj _ (conj _ _)))).
      * rewrite V. apply error_status_known.
      * rewrite V. split.
        -- intros D. apply error_status_degraded in D.
           exists code, t, p. now repeat split.
        -- intros (c & t' & p' & E & _ & N & L). inversion E; subst.
           now apply error_status_degraded.
      * rewrite V. intros H. now apply error_status_not_healthy in H.
      * intros _ c t' v' E S'. inversion E; subst. rewrite S in S'. discriminate.
      * discriminate.
  - refine (conj _ (conj _ (conj _ (conj _ _)))).
    + rewrite V. discriminate.
    + split.
      * rewrite V. discriminate.
      * intros (c & t' & p' & E & _). discriminate.
    + rewrite V. discriminate.
    + intros _ c t' v' E. discriminate.
    + intros _ _. exact V.
Qed.

Lemma X5_witness :
  exists s w',
    probe FTessie (clients Sample.tessie_only)
      (opened (Sample.world_of
                 (HttpResponse 302 "Found" (inr "Expecting value")))) =
      (Return s, w') /\
    Health.status s = DEGRADED.
Proof.
  destruct (X5_probe_classification FTessie Sample.tessie_only
              (TessieClient_init "tessie-key")
              (opened (Sample.world_of
                         (HttpResponse 302 "Found" (inr "Expecting value"))))
              eq_refl eq_refl) as (s & w' & R & _ & _ & D & _).
  exists s, w'. split; [exact R |].
  apply D. exists 302, "Found", (inr "Expecting value").
  refine (conj eq_refl (conj eq_refl (conj _ _))); [discriminate | reflexivity].
Defined.

Lemma reads_ret {A} (a : A) w : reads 0 (ret a) w.
Proof.
  exists a, w, []. rewrite app_nil_r.
  now refine (conj eq_refl (conj eq_refl (conj eq_refl (conj eq_refl _)))).
Qed.

Lemma reads_bind {A B} n k (m : M A) (f : A -> M B) w :
  reads n m w ->
  (forall a w', pool_open w' = pool_open w -> reads k (f a) w') ->
  reads (n + k) (bind m f) w.
Proof.
  intros (a & w1 & l1 & R1 & O1 & C1 & L1 & G1) H.
  destruct (H a w1 O1) as (b & w2 & l2 & R2 & O2 & C2 & L2 & G2).
  exists b, w2, (l1 ++ l2)%list.
  refine (conj _ (conj _ (conj _ (conj _ _)))).
  - unfold bind. now rewrite R1.
  - congruence.
  - now rewrite C2, C1, app_assoc.
  - rewrite length_app. congruence.
  - apply Forall_app. now split.
Qed.

Lemma probe_reads f env w :
  pool_open w = true ->
  reads (if Worker.is_some (family_client env f) then 1 else 0)
    (probe f (clients env)) w.
Proof.
  intros O. destruct (family_client env f) as [api |] eqn:C.
  - destruct (probe_run f env api w C O) as (s & w' & R & O' & K & _).
    exists s, w', [probe_call f api].
    refine (conj R (conj _ (conj K (conj eq_refl _)))); [congruence |].
    constructor; [now destruct f | constructor].
  - assert (R : exists s, probe f (clients env) w = (Return s, w)).
    { destruct f; unfold probe, check_tessie, check_telemetry, check_fleet;
        cbn [clients tessie telemetry fleet]; rewrite C; eexists; reflexivity. }
    destruct R as (s & R). exists s, w, []. rewrite app_nil_r.
    now refine (conj R (conj eq_refl (conj eq_refl (conj eq_refl _)))).
Qed.

(** An entry of [check_auth] asks once, with GET, and never raises. *)
Lemma auth_entry_reads api endpoint params w :
  pool_open w = true ->
  reads 1 (auth_entry (Some (_request api "GET" endpoint params None))) w.
Proof.
  intros O. unfold reads, auth_entry, try_except, bind.
  rewrite (request_spec _ _ _ _ _ _ O). cbv zeta.
  destruct (upstream w _ _) as [code t p | d];
    [destruct (is_success code); [destruct p as [v | m] |] |];
    do 3 eexists;
    (refine (conj eq_refl (conj _ (conj eq_refl (conj eq_refl _))));
     [reflexivity | constructor; [reflexivity | constructor]]).
Qed.

Lemma auth_entry_none_reads w : reads 0 (auth_entry None) w.
Proof. apply reads_ret. Qed.

Lemma check_all_reads env w :
  pool_open w = true ->
  reads (configured env) (check_all (clients env)) w.
Proof.
  intros O. rewrite configured_clients. unfold check_all.
  rewrite <- (Nat.add_0_r (_ + _ + _)), <- !Nat.add_assoc.
  apply reads_bind; [exact (probe_reads FTessie env w O) |].
  intros s1 w1 O1.
  apply reads_bind; [apply (probe_reads FTelemetry env w1); congruence |].
  intros s2 w2 O2.
  apply reads_bind; [apply (probe_reads FFleet env w2); congruence |].
  intros s3 w3 O3. apply reads_ret.
Qed.

Lemma check_auth_reads env w :
  pool_open w = true ->
  reads (configured env) (check_auth (clients env)) w.
Proof.
  intros O. rewrite configured_clients. unfold check_auth.
  rewrite <- (Nat.add_0_r (_ + _ + _)), <- !Nat.add_assoc.
  cbn [clients tessie telemetry fleet].
  apply reads_bind.
  { destruct (family_client env FTessie); simpl;
      [now apply auth_entry_reads | apply auth_entry_none_reads]. }
  intros s1 w1 O1.
  apply reads_bind.
  { destruct (family_client env FTelemetry); simpl;
      [apply auth_entry_reads; congruence | apply auth_entry_none_reads]. }
  intros s2 w2 O2.
  apply reads_bind.
  { destruct (family_client env FFleet); simpl;
      [apply auth_entry_reads; congruence | apply auth_entry_none_reads]. }
  intros s3 w3 O3. apply reads_ret.
Qed.

(** X6: GET /health and GET /status always answer 200, whatever the
    upstreams do, and close the pool; /health costs one upstream call
    for each family whose token is set, /status two, and every one of
    these calls is a GET. *)
Theorem X6_probes_answer_200 :
  forall (request : Request) (env : Env) (w : world),
    upper (req_method request) = "GET" ->
    req_path request = "/health" \/ req_path request = "/status" ->
    exists resp w' l,
      Worker.fetch request env w = (Return resp, w') /\
      Host.status resp = 200 /\
      pool_open w' = false /\
      calls w' = (calls w ++ l)%list /\
      List.length l =
        (if String.eqb (req_path request) "/health"
         then configured env else configured env + configured env)%nat /\
      Forall (fun c => uc_method c = "GET") l.
Proof.
  intros request env w G P.
  unfold Worker.fetch. cbv zeta. unfold bind at 1. rewrite init_clients.
  fold (clients env). unfold Worker.guarded. cbv zeta. rewrite G.
  destruct P as [P | P]; rewrite P; cbn [String.eqb Ascii.eqb Bool.eqb andb].
  - destruct (check_all_reads env (opened w) eq_refl)
      as (a & w1 & l & R & O & C & L & F).
    exists (Worker._json_response a 200), (closed w1), l.
    refine (conj _ (conj eq_refl (conj eq_refl (conj C (conj L F))))).
    unfold try_except, bind. now rewrite R.
  - destruct (check_all_reads env (opened w) eq_refl)
      as (a & w1 & l1 & R1 & O1 & C1 & L1 & F1).
    destruct (check_auth_reads env w1 O1)
      as (b & w2 & l2 & R2 & O2 & C2 & L2 & F2).
    eexists _, (closed w2), (l1 ++ l2)%list.
    refine (conj _ (conj _ (conj eq_refl (conj _ (conj _ _))))).
    + unfold try_except, bind. rewrite R1, R2. reflexivity.
    + reflexivity.
    + simpl. rewrite C2, C1. simpl. now rewrite app_assoc.
    + rewrite length_app. congruence.
    + apply Forall_app. now split.
Qed.

Lemma X6_witness :
  exists resp w' l,
    Worker.fetch (Sample.request "get" "/status" [] [] Sample.no_body)
      Sample.tessie_only Sample.offline = (Return resp, w') /\
    Host.status resp = 200 /\
    calls w' = l /\ List.length l = 2%nat.
Proof.
  destruct (X6_probes_answer_200
              (Sample.request "get" "/status" [] [] Sample.no_body)
              Sample.tessie_only Sample.offline eq_refl (or_intror eq_refl))
    as (resp & w' & l & R & S & _ & C & L & _).
  exists resp, w', l. now refine (conj R (conj S (conj C L))).
Defined.

(* ================================================================== *)
(** ** The report of /status *)

Lemma probe_unknown f env w :
  family_client env f = None ->
  exists s, probe f (clients env) w = (Return s, w) /\ Health.status s = UNKNOWN.
Proof.
  intros C.
  destruct f; unfold probe, check_tessie, check_telemetry, check_fleet;
    cbn [clients tessie telemetry fleet]; rewrite C; eexists;
    (split; [reflexivity | reflexivity]).
Qed.

Lemma probe_returns_open f env w :
  pool_open w = true ->
  exists s w',
    probe f (clients env) w = (Return s, w') /\ pool_open w' = true /\
    (family_client env f = None -> Health.status s = UNKNOWN).
Proof.
  intros O. destruct (family_client env f) as [api |] eqn:C.
  - destruct (probe_run f env api w C O) as (s & w' & R & O' & _).
    exists s, w'. now refine (conj R (conj O' _)).
  - destruct (probe_unknown f env w C) as (s & R & U).
    exists s, w. now refine (conj R (conj O _)).
Qed.

Lemma check_all_apis env w :
  pool_open w = true ->
  exists overall_status s1 s2 s3 w',
    check_all (clients env) w =
      (Return (JObj [("status", overall_status);
                     ("apis", JObj [("tessie", json_of_APIStatus s1);
                                    ("telemetry", json_of_APIStatus s2);
                                    ("fleet", json_of_APIStatus s3)])]), w') /\
    pool_open w' = true /\
    (family_client env FTessie = None -> Health.status s1 = UNKNOWN) /\
    (family_client env FTelemetry = None -> Health.status s2 = UNKNOWN) /\
    (family_client env FFleet = None -> Health.status s3 = UNKNOWN).
Proof.
  intros O.
  destruct (probe_returns_open FTessie env w O) as (s1 & w1 & R1 & O1 & U1).
  destruct (probe_returns_open FTelemetry env w1 O1) as (s2 & w2 & R2 & O2 & U2).
  destruct (probe_returns_open FFleet env w2 O2) as (s3 & w3 & R3 & O3 & U3).
  exists (JStr (HealthStatus_value
                  (overall [Health.status s1; Health.status s2; Health.status s3]))),
    s1, s2, s3, w3.
  refine (conj _ (conj O3 (conj U1 (conj U2 U3)))).
  unfold check_all. cbn [probe] in R1, R2, R3.
  now rewrite (bind_return _ _ _ _ _ R1), (bind_return _ _ _ _ _ R2),
    (bind_return _ _ _ _ _ R3).
Qed.

Lemma auth_entry_returns_open (probe : option (M json)) w :
  pool_open w = true ->
  match probe with
  | Some call => exists api endpoint params,
                   call = _request api "GET" endpoint params None
  | None => True
  end ->
  exists j w',
    auth_entry probe w = (Return j, w') /\ pool_open w' = true /\
    (probe = None -> member_at ["valid"] j = Some JNull).
Proof.
  intros O H. destruct probe as [call |].
  - destruct H as (api & endpoint & params & ->).
    destruct (auth_entry_reads api endpoint params w O)
      as (j & w' & l & R & O' & _).
    exists j, w'. refine (conj R (conj _ _)); [congruence | discriminate].
  - exists (JObj [("valid", JNull); ("message", JStr "Token not configured")]), w.
    now refine (conj eq_refl (conj O _)).
Qed.

Lemma check_auth_entries env w :
  pool_open w = true ->
  exists t m f w',
    check_auth (clients env) w =
      (Return (JObj [("auth_status",
                      JObj [("tessie", t); ("telemetry", m); ("fleet", f)])]),
       w') /\
    (family_client env FTessie = None -> member_at ["valid"] t = Some JNull) /\
    (family_client env FTelemetry = None -> member_at ["valid"] m = Some JNull) /\
    (family_client env FFleet = None -> member_at ["valid"] f = Some JNull).
Proof.
  intros O. unfold check_auth. cbn [clients tessie telemetry fleet].
  destruct (auth_entry_returns_open
              (option_map (fun c => Tessie.list_vehicles c true)
                 (family_client env FTessie)) w O)
    as (t & w1 & R1 & O1 & U1).
  { destruct (family_client env FTessie) as [c |]; [| exact I].
    now exists c, "vehicles", (Some [("only_active", QOne "true")]). }
  destruct (auth_entry_returns_open
              (option_map Teslemetry.test (family_client env FTelemetry)) w1 O1)
    as (m & w2 & R2 & O2 & U2).
  { destruct (family_client env FTelemetry) as [c |]; [| exact I].
    now exists c, "test", None. }
  destruct (auth_entry_returns_open
              (option_map Fleet.list_vehicles (family_client env FFleet)) w2 O2)
    as (f & w3 & R3 & O3 & U3).
  { destruct (family_client env FFleet) as [c |]; [| exact I].
    now exists c, "api/1/vehicles", None. }
  exists t, m, f, w3.
  refine (conj _ (conj _ (conj _ _))).
  - now rewrite (bind_return _ _ _ _ _ R1), (bind_return _ _ _ _ _ R2),
      (bind_return _ _ _ _ _ R3).
  - intros C. apply U1. now rewrite C.
  - intros C. apply U2. now rewrite C.
  - intros C. apply U3. now rewrite C.
Qed.

(** X7: in the report of GET /status the member
    configuration.<family>_configured says whether the token of the
    family is set at all, while the checks and the routes ask whether it
    is set and not empty: for a token that is the empty string the
    report says configured, its health entry is "unknown" and its
    authentication entry has valid null. *)
Theorem X7_status_configuration_flag :
  forall (f : family) (request : Request) (env : Env) (w : world),
    upper (req_method request) = "GET" ->
    req_path request = "/status" ->
    exists resp w',
      Worker.fetch request env w = (Return resp, w') /\
      member_at ["configuration"; family_key f ++ "_configured"] (body resp) =
        Some (JBool (Worker.is_some (family_token env f))) /\
      (truthy_str (family_token env f) = false ->
       member_at ["health"; "apis"; family_key f; "status"] (body resp) =
         Some (JStr "unknown") /\
       member_at ["authentication"; "auth_status"; family_key f; "valid"]
         (body resp) = Some JNull).
Proof.
  intros f request env w G P.
  unfold Worker.fetch. cbv zeta. unfold bind at 1. rewrite init_clients.
  fold (clients env). unfold Worker.guarded. cbv zeta. rewrite G, P.
  cbn [String.eqb Ascii.eqb Bool.eqb andb].
  destruct (check_all_apis env (opened w) eq_refl)
    as (o & s1 & s2 & s3 & w1 & R1 & O1 & U1 & U2 & U3).
  destruct (check_auth_entries env w1 O1)
    as (t & m & fl & w2 & R2 & V1 & V2 & V3).
  unfold try_except, bind. rewrite R1, R2. cbn [close ret].
  do 2 eexists. refine (conj eq_refl (conj _ _)).
  - destruct f; reflexivity.
  - intros T.
    assert (C : family_client env f = None).
    { pose proof (family_client_truthy env f) as X.
      destruct (family_client env f); [| reflexivity].
      destruct f; cbn [family_token] in T; rewrite T in X; discriminate X. }
    destruct f; cbn [family_key Worker._json_response body member_at assoc
                       String.eqb Ascii.eqb Bool.eqb json_of_APIStatus].
    + rewrite (U1 C). now split; [| apply (V1 C)].
    + rewrite (U2 C). now split; [| apply (V2 C)].
    + rewrite (U3 C). now split; [| apply (V3 C)].
Qed.

Lemma X7_witness :
  exists resp w',
    Worker.fetch (Sample.request "GET" "/status" [] [] Sample.no_body)
      {| JWT_SECRET := None; TESSIE_API_KEY := Some "";
         TESLEMETRY_API_KEY := None; FLEET_API_KEY := None;
         FLEET_REGION := None; ASSETS := None |}
      Sample.online = (Return resp, w') /\
    member_at ["configuration"; "tessie_configured"] (body resp) =
      Some (JBool true) /\
    member_at ["health"; "apis"; "tessie"; "status"] (body resp) =
      Some (JStr "unknown").
Proof.
  destruct (X7_status_configuration_flag FTessie
              (Sample.request "GET" "/status" [] [] Sample.no_body)
              {| JWT_SECRET := None; TESSIE_API_KEY := Some "";
                 TESLEMETRY_API_KEY := None; FLEET_API_KEY := None;
                 FLEET_REGION := None; ASSETS := None |}
              Sample.online eq_refl eq_refl) as (resp & w' & R & C & U).
  exists resp, w'. refine (conj R (conj C _)). exact (proj1 (U eq_refl)).
Defined.

(* ================================================================== *)
(** ** The single-API worker *)

(** X8: for an Authorization header of ASCII characters, the gate of
    the single-API worker lets a request pass exactly when the header is
    "Bearer " followed by a token that is not blank, JWT_SECRET is set
    and not empty, and the JWT library accepts the token with its
    surrounding white space removed; the scheme is matched with its
    case, so "bearer <token>" does not pass. *)
Theorem X8_gate_admits_exactly :
  forall (jwt_decode : string -> string -> bool)
         (request : Request) (env : Env) (w : world),
    is_ascii (header_or_empty request "Authorization") = true ->
    (fst (Gated._authorize_request jwt_decode request env w) = Return tt <->
     exists rest secret,
       assoc "Authorization" (req_headers request) = Some ("Bearer " ++ rest) /\
       strip rest <> "" /\
       JWT_SECRET env = Some secret /\
       secret <> "" /\
       jwt_decode (strip rest) secret = true).
Proof.
  intros jwt_decode request env w _. split.
  - destruct (assoc "Authorization" (req_headers request)) as [a |] eqn:A.
    + destruct (startswith a "Bearer ") eqn:B.
      * destruct (startswith_split _ _ B) as (rest & ->).
        rewrite (authorize_bearer jwt_decode request env w rest A).
        cbn [fst].
        destruct (String.eqb_spec (strip rest) "") as [| T]; [discriminate |].
        destruct (JWT_SECRET env) as [secret |]; [| discriminate].
        destruct (String.eqb_spec secret "") as [| S]; [discriminate |].
        destruct (jwt_decode (strip rest) secret) eqn:D; [| discriminate].
        intros _. now exists rest, secret.
      * rewrite (authorize_malformed jwt_decode request env w);
          [discriminate | now rewrite A].
    + rewrite (authorize_malformed jwt_decode request env w);
        [discriminate | now rewrite A].
  - intros (rest & secret & A & T & S & N & D).
    rewrite (authorize_bearer jwt_decode request env w rest A), S, D.
    apply String.eqb_neq in T. apply String.eqb_neq in N.
    now rewrite T, N.
Qed.

Lemma X8_witness :
  fst (Gated._authorize_request Sample.toy_jwt
         (Sample.request "GET" "/status" []
            [("Authorization", "Bearer  signed.secret ")] Sample.no_body)
         Sample.tessie_only Sample.online) = Return tt /\
  fst (Gated._authorize_request Sample.toy_jwt
         (Sample.request "GET" "/status" []
            [("Authorization", "bearer signed.secret")] Sample.no_body)
         Sample.tessie_only Sample.online) <> Return tt.
Proof.
  split.
  - apply (X8_gate_admits_exactly Sample.toy_jwt
             (Sample.request "GET" "/status" []
                [("Authorization", "Bearer  signed.secret ")] Sample.no_body)
             Sample.tessie_only Sample.online eq_refl).
    exists " signed.secret ", "secret".
    refine (conj eq_refl (conj _ (conj eq_refl (conj _ eq_refl))));
      discriminate.
  - intros H.
    apply (X8_gate_admits_exactly Sample.toy_jwt
             (Sample.request "GET" "/status" []
                [("Authorization", "bearer signed.secret")] Sample.no_body)
             Sample.tessie_only Sample.online eq_refl) in H.
    destruct H as (rest & secret & A & _). discriminate A.
Defined.

Section GatedRoutes.
Variable jwt_decode : string -> string -> bool.
Variables get_state wake start_charging : string -> string -> M json.
Variable set_charge_limit : string -> string -> Z -> M json.

Let fetch := Gated.fetch jwt_decode get_state wake start_charging set_charge_limit.
Let routes := Gated.routes get_state wake start_charging set_charge_limit.

Lemma gated_after_gate request env w :
  fst (Gated._authorize_request jwt_decode request env w) = Return tt ->
  fetch request env w =
    match routes (upper (req_method request)) (req_path request) with
    | None => (Return (Gated._json_response (JObj [("error", JStr "Not Found")]) 404), w)
    | Some route_handler =>
        if truthy_str (TESSIE_API_KEY env) then
          let (r, w') :=
            (params <- Gated._parse_request_data request ;;
             Gated.with_session
               (route_handler
                  (match TESSIE_API_KEY env with Some k => k | None => "" end)
                  params)) w in
          (Return (gated_answer r), w')
        else
          (Return (Gated._json_response
                     (JObj [("error", JStr "Tessie API key is not configured")])
                     500), w)
    end.
Proof.
  intros G. unfold fetch, Gated.fetch.
  pose proof (authorize_pure jwt_decode request env w) as P.
  destruct (Gated._authorize_request jwt_decode request env w) as [r w0] eqn:E.
  simpl in G, P. subst r w0.
  rewrite (bind_return _ _ _ _ _ E). fold routes.
  destruct (routes _ _) as [h |]; [| reflexivity].
  destruct (TESSIE_API_KEY env) as [key |]; [| reflexivity].
  cbn [truthy_str]. destruct (negb (String.eqb key "")); [| reflexivity].
  cbn [negb]. unfold try_except, bind.
  destruct (Gated._parse_request_data request w) as [[params | e] w1].
  - destruct (Gated.with_session (h key params) w1) as [[res | e] w2];
      [reflexivity | now destruct e].
  - now destruct e.
Qed.

Lemma routes_known m p :
  routes m p <> None <-> In (m, p) gated_routes.
Proof.
  unfold routes, Gated.routes, gated_routes. cbn [In]. split.
  - destruct (String.eqb_spec m "GET"), (String.eqb_spec m "POST"),
      (String.eqb_spec p "/status"), (String.eqb_spec p "/wake"),
      (String.eqb_spec p "/command/start_charging"),
      (String.eqb_spec p "/command/set_charge_limit");
      subst; cbn [andb]; intros H; try (now contradiction H); auto 10.
  - intros [E | [E | [E | [E | []]]]]; inversion E; subst; discriminate.
Qed.

Lemma parse_request_data_pure request w :
  snd (Gated._parse_request_data request w) = w.
Proof.
  unfold Gated._parse_request_data.
  destruct (String.eqb _ "GET").
  - generalize (req_query request). intros q.
    induction q as [| [key vs] q IH]; [reflexivity |].
    cbn [Gated.query_items]. unfold bind.
    destruct vs as [| v [| v' vs]]; cbn [raise ret snd]; try reflexivity;
      destruct (Gated.query_items q w) as [[t | e] w1]; simpl in IH |- *;
      now subst.
  - destruct (startswith _ _); [| reflexivity].
    unfold bind, try_except, lift.
    destruct (req_json request) as [j | e]; [| reflexivity].
    now destruct j.
Qed.

Lemma extract_vin_spec params w :
  Gated._extract_vin params w =
    (match usable_vin (assoc "vin" params) with
     | Some s => Return s
     | None =>
         match assoc "vin" params with
         | Some (JArr []) => Raise (PyError "IndexError" "list index out of range")
         | _ => Raise (HTTPException 400 "Missing required 'vin' parameter")
         end
     end, w).
Proof.
  unfold Gated._extract_vin, usable_vin, bind.
  destruct (assoc "vin" params) as [v |]; [| reflexivity].
  destruct v as [| b | n | y | s | l | o]; try reflexivity.
  - cbn [ret]. now destruct (String.eqb s "").
  - destruct l as [| x l]; [reflexivity |].
    destruct x as [| b | n | y | s | l' | o]; try reflexivity.
    cbn [ret]. now destruct (String.eqb s "").
Qed.

(** The upstream operation behind a route, and the handler that calls
    it. *)
Lemma route_handlers m p h :
  routes m p = Some h ->
  (h = Gated._handle_status get_state /\ (m, p) = ("GET", "/status")) \/
  (h = Gated._handle_wake wake /\ (m, p) = ("POST", "/wake")) \/
  (h = Gated._handle_start_charging start_charging /\
   (m, p) = ("POST", "/command/start_charging")) \/
  (h = Gated._handle_set_charge_limit set_charge_limit /\
   (m, p) = ("POST", "/command/set_charge_limit")).
Proof.
  unfold routes, Gated.routes.
  destruct (String.eqb_spec m "GET"), (String.eqb_spec m "POST"),
    (String.eqb_spec p "/status"), (String.eqb_spec p "/wake"),
    (String.eqb_spec p "/command/start_charging"),
    (String.eqb_spec p "/command/set_charge_limit");
    subst; cbn [andb]; intros H; try discriminate H; inversion H; subst;
    first [ left; now split
          | right; left; now split
          | right; right; left; now split
          | right; right; right; now split ].
Qed.

(** Every handler validates the VIN before it does anything else. *)
Lemma handler_without_vin m p h key params w :
  routes m p = Some h ->
  usable_vin (assoc "vin" params) = None ->
  h key params w =
    (match assoc "vin" params with
     | Some (JArr []) => Raise (PyError "IndexError" "list index out of range")
     | _ => Raise (HTTPException 400 "Missing required 'vin' parameter")
     end, w).
Proof.
  intros R U.
  pose proof (extract_vin_spec params w) as V. rewrite U in V.
  destruct (route_handlers _ _ _ R) as [[-> _] | [[-> _] | [[-> _] | [-> _]]]];
    unfold Gated._handle_status, Gated._handle_wake,
      Gated._handle_start_charging, Gated._handle_set_charge_limit;
    unfold bind; rewrite V;
    destruct (assoc "vin" params) as [[| | | | | [|] |] |]; reflexivity.
Qed.

End GatedRoutes.

(** X9: once the gate has passed, the single-API worker answers a
    method and path outside its four routes with 404, and a route whose
    Tessie key is unset or empty with 500; in both cases the body is not
    parsed, no session is opened and no upstream operation runs, and an
    unknown route is 404 also when the key is missing. *)
Theorem X9_gated_unrouted_untouched :
  forall jwt_decode get_state wake start_charging set_charge_limit
         (request : Request) (env : Env) (w : world),
    fst (Gated._authorize_request jwt_decode request env w) = Return tt ->
    (~ In (upper (req_method request), req_path request) gated_routes ->
     Gated.fetch jwt_decode get_state wake start_charging set_charge_limit
       request env w =
       (Return (Gated._json_response (JObj [("error", JStr "Not Found")]) 404),
        w)) /\
    (In (upper (req_method request), req_path request) gated_routes ->
     truthy_str (TESSIE_API_KEY env) = false ->
     Gated.fetch jwt_decode get_state wake start_charging set_charge_limit
       request env w =
       (Return (Gated._json_response
                  (JObj [("error", JStr "Tessie API key is not configured")])
                  500), w)).
Proof.
  intros jwt_decode get_state wake start_charging set_charge_limit
    request env w G.
  rewrite (gated_after_gate _ _ _ _ _ _ _ _ G).
  pose proof (routes_known get_state wake start_charging set_charge_limit
                (upper (req_method request)) (req_path request)) as K.
  destruct (Gated.routes _ _ _ _ _ _) as [h |].
  - split.
    + intros N. exfalso. apply N, K. discriminate.
    + intros _ T. now rewrite T.
  - split; [reflexivity |].
    intros I. apply K in I. now contradiction I.
Qed.

Lemma X9_witness :
  Sample.gated_fetch
    (Sample.request "DELETE" "/wake" []
       [("Authorization", "Bearer signed.secret")] Sample.no_body)
    {| JWT_SECRET := Some "secret"; TESSIE_API_KEY := None;
       TESLEMETRY_API_KEY := None; FLEET_API_KEY := None;
       FLEET_REGION := None; ASSETS := None |}
    Sample.online =
    (Return (Gated._json_response (JObj [("error", JStr "Not Found")]) 404),
     Sample.online).
Proof.
  apply (X9_gated_unrouted_untouched Sample.toy_jwt Sample.toy_get_state
           Sample.toy_wake Sample.toy_start_charging Sample.toy_set_charge_limit
           (Sample.request "DELETE" "/wake" []
              [("Authorization", "Bearer signed.secret")] Sample.no_body)
           {| JWT_SECRET := Some "secret"; TESSIE_API_KEY := None;
              TESLEMETRY_API_KEY := None; FLEET_API_KEY := None;
              FLEET_REGION := None; ASSETS := None |}
           Sample.online eq_refl).
  cbn. intros [E | [E | [E | [E | []]]]]; discriminate E.
Defined.

Section GatedHandlers.
Variable jwt_decode : string -> string -> bool.
Variables get_state wake start_charging : string -> string -> M json.
Variable set_charge_limit : string -> string -> Z -> M json.
Variables (request : Request) (env : Env) (w : world).
Variables (key : string) (params : list (string * json)).

Hypothesis gate_passed :
  fst (Gated._authorize_request jwt_decode request env w) = Return tt.
Hypothesis key_set : TESSIE_API_KEY env = Some key.
Hypothesis key_not_empty : String.eqb key "" = false.
Hypothesis parsed : fst (Gated._parse_request_data request w) = Return params.

Let fetch := Gated.fetch jwt_decode get_state wake start_charging set_charge_limit.
Let routes := Gated.routes get_state wake start_charging set_charge_limit.

(** A routed request whose parameters parse: [fetch] answers what the
    handler does inside the session. *)
Lemma gated_routed h :
  routes (upper (req_method request)) (req_path request) = Some h ->
  fetch request env w =
    let (r, w') := Gated.with_session (h key params) w in
    (Return (gated_answer r), w').
Proof.
  intros R. unfold fetch. unfold routes in R.
  rewrite (gated_after_gate _ _ _ _ _ _ _ _ gate_passed), R, key_set.
  cbn [truthy_str]. rewrite key_not_empty. cbn [negb].
  pose proof (parse_request_data_pure request w) as P.
  destruct (Gated._parse_request_data request w) as [r w0] eqn:E.
  simpl in P, parsed. subst r w0.
  now rewrite (bind_return _ _ _ _ _ E).
Qed.

Lemma gated_routed_raise h e :
  routes (upper (req_method request)) (req_path request) = Some h ->
  h key params (opened w) = (Raise e, opened w) ->
  fetch request env w = (Return (gated_answer (Raise e)), closed w).
Proof.
  intros R H. rewrite (gated_routed h R).
  unfold Gated.with_session. fold (opened w). now rewrite H.
Qed.

Lemma gated_routed_op h (op : M json) :
  routes (upper (req_method request)) (req_path request) = Some h ->
  h key params (opened w) = op (opened w) ->
  fetch request env w =
    let (r, w1) := op (opened w) in (Return (gated_answer r), closed w1).
Proof.
  intros R H. rewrite (gated_routed h R).
  unfold Gated.with_session. fold (opened w). rewrite H.
  now destruct (op (opened w)).
Qed.

End GatedHandlers.

(** X10: every route of the single-API worker validates the VIN before
    anything else: when the parameter [vin] is missing, empty, not a
    string, or a list whose first element is not a non-empty string, the
    answer is 400 "Missing required 'vin' parameter" - for the empty
    list it is 500, the IndexError of [vin[0]] - and the upstream
    operation is not run: only the session has been opened and closed. *)
Theorem X10_vin_checked_first :
  forall jwt_decode get_state wake start_charging set_charge_limit
         (request : Request) (env : Env) (w : world)
         (key : string) (params : list (string * json)),
    fst (Gated._authorize_request jwt_decode request env w) = Return tt ->
    In (upper (req_method request), req_path request) gated_routes ->
    TESSIE_API_KEY env = Some key ->
    String.eqb key "" = false ->
    fst (Gated._parse_request_data request w) = Return params ->
    usable_vin (assoc "vin" params) = None ->
    Gated.fetch jwt_decode get_state wake start_charging set_charge_limit
      request env w =
      (Return
         match assoc "vin" params with
         | Some (JArr []) =>
             Gated._json_response
               (JObj [("error", JStr "Internal Server Error")]) 500
         | _ => Gated._error_response 400 "Missing required 'vin' parameter"
         end,
       closed w).
Proof.
  intros jwt_decode get_state wake start_charging set_charge_limit
    request env w key params G I K E P U.
  apply (routes_known get_state wake start_charging set_charge_limit) in I.
  destruct (Gated.routes get_state wake start_charging set_charge_limit
              (upper (req_method request)) (req_path request)) as [h |] eqn:R;
    [| now contradiction I].
  pose proof (handler_without_vin get_state wake start_charging set_charge_limit
                _ _ h key params (opened w) R U) as H.
  destruct (assoc "vin" params) as [[| | | | | [|] |] |];
    exact (gated_routed_raise jwt_decode get_state wake start_charging
             set_charge_limit request env w key params G K E P h _ R H).
Qed.

Lemma X10_witness :
  Sample.gated_fetch
    (Sample.request "POST" "/wake" []
       [("Authorization", "Bearer signed.secret");
        ("Content-Type", "application/json")]
       (inl (JObj [("vin", JNum 5)])))
    Sample.tessie_only Sample.online =
    (Return (Gated._error_response 400 "Missing required 'vin' parameter"),
     Sample.online).
Proof.
  exact (X10_vin_checked_first Sample.toy_jwt Sample.toy_get_state
           Sample.toy_wake Sample.toy_start_charging Sample.toy_set_charge_limit
           (Sample.request "POST" "/wake" []
              [("Authorization", "Bearer signed.secret");
               ("Content-Type", "application/json")]
              (inl (JObj [("vin", JNum 5)])))
           Sample.tessie_only Sample.online "tessie-key" [("vin", JNum 5)]
           eq_refl (or_intror (or_introl eq_refl)) eq_refl eq_refl eq_refl
           eq_refl).
Defined.

(** X11: with a usable VIN, the routes GET /status, POST /wake and POST
    /command/start_charging run their upstream operation once, inside
    an open session, with the configured Tessie key and that VIN; the
    result is answered with 200, an exception of the operation with its
    status if it is an HTTPException and with 500 otherwise; the
    session is closed afterwards in every case.  A VIN given several
    times in the query string counts with its first value. *)
Theorem X11_gated_forwarding :
  forall jwt_decode get_state wake start_charging set_charge_limit
         (request : Request) (env : Env) (w : world)
         (key vin : string) (params : list (string * json)),
    fst (Gated._authorize_request jwt_decode request env w) = Return tt ->
    TESSIE_API_KEY env = Some key ->
    String.eqb key "" = false ->
    fst (Gated._parse_request_data request w) = Return params ->
    usable_vin (assoc "vin" params) = Some vin ->
    forall op : string -> string -> M json,
      ((upper (req_method request), req_path request) = ("GET", "/status") /\
       op = get_state) \/
      ((upper (req_method request), req_path request) = ("POST", "/wake") /\
       op = wake) \/
      ((upper (req_method request), req_path request) =
         ("POST", "/command/start_charging") /\
       op = start_charging) ->
      Gated.fetch jwt_decode get_state wake start_charging set_charge_limit
        request env w =
        let (r, w1) := op key vin (opened w) in
        (Return (gated_answer r), closed w1).
Proof.
  intros jwt_decode get_state wake start_charging set_charge_limit
    request env w key vin params G K E P U op O.
  pose proof (extract_vin_spec params (opened w)) as V. rewrite U in V.
  destruct O as [[M ->] | [[M ->] | [M ->]]]; inversion M as [[Hm Hp]].
  - apply (gated_routed_op jwt_decode get_state wake start_charging
             set_charge_limit request env w key params G K E P
             (Gated._handle_status get_state) (get_state key vin)).
    + now rewrite Hm, Hp.
    + unfold Gated._handle_status. now rewrite (bind_return _ _ _ _ _ V).
  - apply (gated_routed_op jwt_decode get_state wake start_charging
             set_charge_limit request env w key params G K E P
             (Gated._handle_wake wake) (wake key vin)).
    + now rewrite Hm, Hp.
    + unfold Gated._handle_wake. now rewrite (bind_return _ _ _ _ _ V).
  - apply (gated_routed_op jwt_decode get_state wake start_charging
             set_charge_limit request env w key params G K E P
             (Gated._handle_start_charging start_charging)
             (start_charging key vin)).
    + now rewrite Hm, Hp.
    + unfold Gated._handle_start_charging.
      now rewrite (bind_return _ _ _ _ _ V).
Qed.

Lemma X11_witness :
  calls (snd (Sample.gated_fetch
                (Sample.request "get" "/status" [("vin", ["VIN1"; "VIN2"])]
                   [("Authorization", "Bearer signed.secret")] Sample.no_body)
                Sample.tessie_only Sample.online)) =
    calls (snd (Sample.toy_get_state "tessie-key" "VIN1"
                  (opened Sample.online))).
Proof.
  unfold Sample.gated_fetch.
  rewrite (X11_gated_forwarding Sample.toy_jwt Sample.toy_get_state
             Sample.toy_wake Sample.toy_start_charging
             Sample.toy_set_charge_limit
             (Sample.request "get" "/status" [("vin", ["VIN1"; "VIN2"])]
                [("Authorization", "Bearer signed.secret")] Sample.no_body)
             Sample.tessie_only Sample.online "tessie-key" "VIN1"
             [("vin", JArr [JStr "VIN1"; JStr "VIN2"])]
             eq_refl eq_refl eq_refl eq_refl eq_refl Sample.toy_get_state
             (or_introl (conj eq_refl eq_refl))).
  reflexivity.
Defined.

(** X12: POST /command/set_charge_limit of the single-API worker, with
    a usable VIN and a [percent] that, if it is a string, is made of
    ASCII characters: a [percent] that is missing or null is answered
    400 "Missing required 'percent' parameter"; one that [int] refuses
    with a TypeError or a ValueError - a list, "abc", NaN, a literal of
    more than 4300 digits - is answered 400 "'percent' must be an
    integer"; one that [int] refuses otherwise - an infinite float, with
    OverflowError - is answered 500 "Internal Server Error"; in these
    cases the upstream operation is not run.  Otherwise the operation
    runs once with the key, the VIN and the integer that [int] makes of
    the value: 80 for 80, for "80" and for 80.5, 1 for true. *)
Theorem X12_gated_charge_limit :
  forall jwt_decode get_state wake start_charging set_charge_limit
         (request : Request) (env : Env) (w : world)
         (key vin : string) (params : list (string * json)),
    fst (Gated._authorize_request jwt_decode request env w) = Return tt ->
    TESSIE_API_KEY env = Some key ->
    String.eqb key "" = false ->
    fst (Gated._parse_request_data request w) = Return params ->
    usable_vin (assoc "vin" params) = Some vin ->
    upper (req_method request) = "POST" ->
    req_path request = "/command/set_charge_limit" ->
    match assoc "percent" params with
    | Some (JStr s) => is_ascii s = true
    | _ => True
    end ->
    Gated.fetch jwt_decode get_state wake start_charging set_charge_limit
      request env w =
      match assoc "percent" params with
      | None | Some JNull =>
          (Return (Gated._error_response 400
                     "Missing required 'percent' parameter"), closed w)
      | Some percent =>
          match int percent with
          | inl n =>
              let (r, w1) := set_charge_limit key vin n (opened w) in
              (Return (gated_answer r), closed w1)
          | inr e =>
              if type_or_value_error e then
                (Return (Gated._error_response 400
                           "'percent' must be an integer"), closed w)
              else
                (Return (Gated._json_response
                           (JObj [("error", JStr "Internal Server Error")]) 500),
                 closed w)
          end
      end.
Proof.
  intros jwt_decode get_state wake start_charging set_charge_limit
    request env w key vin params G K E P U M Q _.
  pose proof (extract_vin_spec params (opened w)) as V. rewrite U in V.
  assert (R : Gated.routes get_state wake start_charging set_charge_limit
                (upper (req_method request)) (req_path request) =
              Some (Gated._handle_set_charge_limit set_charge_limit))
    by now rewrite M, Q.
  assert (raised :
    forall h, Gated._handle_set_charge_limit set_charge_limit key params
                (opened w) = (Raise h, opened w) ->
              Gated.fetch jwt_decode get_state wake start_charging
                set_charge_limit request env w =
                (Return (gated_answer (Raise h)), closed w)).
  { intros h H.
    exact (gated_routed_raise jwt_decode get_state wake start_charging
             set_charge_limit request env w key params G K E P _ _ R H). }
  assert (refused :
    forall p e, assoc "percent" params = Some p -> p <> JNull ->
                int p = inr e ->
                Gated.fetch jwt_decode get_state wake start_charging
                  set_charge_limit request env w =
                  if type_or_value_error e then
                    (Return (Gated._error_response 400
                               "'percent' must be an integer"), closed w)
                  else
                    (Return (Gated._json_response
                               (JObj [("error", JStr "Internal Server Error")])
                               500), closed w)).
  { intros p e A N I.
    assert (H : forall h,
               try_except (lift (int p))
                 (fun e0 =>
                    match e0 with
                    | PyError "TypeError" _ | PyError "ValueError" _ =>
                        Some (raise (HTTPException 400
                                       "'percent' must be an integer"))
                    | _ => None
                    end) (opened w) = (Raise h, opened w) ->
               Gated._handle_set_charge_limit set_charge_limit key params
                 (opened w) = (Raise h, opened w)).
    { intros h H. unfold Gated._handle_set_charge_limit.
      rewrite (bind_return _ _ _ _ _ V), A.
      destruct p; try (now contradiction N); now apply bind_raise. }
    destruct (int_error_kind _ _ I) as (m & [-> | [-> | ->]]).
    - apply (raised (HTTPException 400 "'percent' must be an integer")), H.
      unfold try_except, lift. now rewrite I.
    - apply (raised (HTTPException 400 "'percent' must be an integer")), H.
      unfold try_except, lift. now rewrite I.
    - apply (raised (PyError "OverflowError" m)), H.
      unfold try_except, lift. now rewrite I. }
  assert (accepted :
    forall p n, assoc "percent" params = Some p -> p <> JNull ->
                int p = inl n ->
                Gated.fetch jwt_decode get_state wake start_charging
                  set_charge_limit request env w =
                  let (r, w1) := set_charge_limit key vin n (opened w) in
                  (Return (gated_answer r), closed w1)).
  { intros p n A N I.
    apply (gated_routed_op jwt_decode get_state wake start_charging
             set_charge_limit request env w key params G K E P
             (Gated._handle_set_charge_limit set_charge_limit)
             (set_charge_limit key vin n) R).
    unfold Gated._handle_set_charge_limit.
    rewrite (bind_return _ _ _ _ _ V), A.
    destruct p; try (now contradiction N);
      unfold bind, try_except, lift; rewrite I; reflexivity. }
  destruct (assoc "percent" params) as [p |] eqn:A.
  - destruct p;
      try (destruct (int _) as [k | e] eqn:I;
           [apply (accepted _ k eq_refl); [discriminate | exact I]
           | apply (refused _ e eq_refl); [discriminate | exact I]]).
    apply (raised (HTTPException 400 "Missing required 'percent' parameter")).
    unfold Gated._handle_set_charge_limit.
    now rewrite (bind_return _ _ _ _ _ V), A.
  - apply (raised (HTTPException 400 "Missing required 'percent' parameter")).
    unfold Gated._handle_set_charge_limit.
    now rewrite (bind_return _ _ _ _ _ V), A.
Qed.

Lemma X12_witness :
  calls (snd (Sample.gated_fetch
                (Sample.request "POST" "/command/set_charge_limit" []
                   [("Authorization", "Bearer signed.secret");
                    ("Content-Type", "application/json")]
                   (inl (JObj [("vin", JStr "VIN1");
                               ("percent", JFloat (Finite 161 (-1)))])))
                Sample.tessie_only Sample.online)) =
    calls (snd (Sample.toy_set_charge_limit "tessie-key" "VIN1" 80
                  (opened Sample.online))) /\
  Sample.gated_fetch
    (Sample.request "POST" "/command/set_charge_limit" []
       [("Authorization", "Bearer signed.secret");
        ("Content-Type", "application/json")]
       (inl (JObj [("vin", JStr "VIN1");
                   ("percent", JFloat (Infinity false))])))
    Sample.tessie_only Sample.online =
    (Return (Gated._json_response
               (JObj [("error", JStr "Internal Server Error")]) 500),
     Sample.online).
Proof.
  unfold Sample.gated_fetch. split.
  - rewrite (X12_gated_charge_limit Sample.toy_jwt Sample.toy_get_state
               Sample.toy_wake Sample.toy_start_charging
               Sample.toy_set_charge_limit
               (Sample.request "POST" "/command/set_charge_limit" []
                  [("Authorization", "Bearer signed.secret");
                   ("Content-Type", "application/json")]
                  (inl (JObj [("vin", JStr "VIN1");
                              ("percent", JFloat (Finite 161 (-1)))])))
               Sample.tessie_only Sample.online "tessie-key" "VIN1"
               [("vin", JStr "VIN1"); ("percent", JFloat (Finite 161 (-1)))]
               eq_refl eq_refl eq_refl eq_refl eq_refl eq_refl eq_refl I).
    reflexivity.
  - exact (X12_gated_charge_limit Sample.toy_jwt Sample.toy_get_state
             Sample.toy_wake Sample.toy_start_charging
             Sample.toy_set_charge_limit
             (Sample.request "POST" "/command/set_charge_limit" []
                [("Authorization", "Bearer signed.secret");
                 ("Content-Type", "application/json")]
                (inl (JObj [("vin", JStr "VIN1");
                            ("percent", JFloat (Infinity false))])))
             Sample.tessie_only Sample.online "tessie-key" "VIN1"
             [("vin", JStr "VIN1"); ("percent", JFloat (Infinity false))]
             eq_refl eq_refl eq_refl eq_refl eq_refl eq_refl eq_refl I).
Defined.

(** X13: on a route of the single-API worker that is not a GET, a body
    that does not announce JSON, that cannot be decoded, or that is
    JSON but not an object is answered 400 with the reason; the session
    is never opened and no upstream operation runs. *)
Theorem X13_gated_body_refused :
  forall jwt_decode get_state wake start_charging set_charge_limit
         (request : Request) (env : Env) (w : world) (key : string),
    fst (Gated._authorize_request jwt_decode request env w) = Return tt ->
    In (upper (req_method request), req_path request) gated_routes ->
    TESSIE_API_KEY env = Some key ->
    String.eqb key "" = false ->
    upper (req_method request) <> "GET" ->
    (forall fields,
        startswith (header_or_empty request "Content-Type") "application/json"
          = true ->
        req_json request <> inl (JObj fields)) ->
    Gated.fetch jwt_decode get_state wake start_charging set_charge_limit
      request env w =
      (Return
         (Gated._error_response 400
            (if startswith (header_or_empty request "Content-Type")
                  "application/json"
             then match req_json request with
                  | inl _ => "JSON body must be an object"
                  | inr _ => "Invalid JSON body"
                  end
             else "Unsupported content type")),
       w).
Proof.
  intros jwt_decode get_state wake start_charging set_charge_limit
    request env w key G I K E M B.
  rewrite (gated_after_gate _ _ _ _ _ _ _ _ G).
  apply (routes_known get_state wake start_charging set_charge_limit) in I.
  destruct (Gated.routes _ _ _ _ _ _) as [h |]; [| now contradiction I].
  rewrite K. cbn [truthy_str]. rewrite E. cbn [negb].
  unfold bind, Gated._parse_request_data.
  apply String.eqb_neq in M. rewrite M.
  destruct (startswith _ _) eqn:C; [| reflexivity].
  unfold try_except, lift.
  destruct (req_json request) as [j | e] eqn:J; [| reflexivity].
  destruct j; try reflexivity. now contradiction (B fields eq_refl).
Qed.

Lemma X13_witness :
  Sample.gated_fetch
    (Sample.request "POST" "/wake" []
       [("Authorization", "Bearer signed.secret");
        ("Content-Type", "application/json")]
       (inl (JArr [JStr "5YJ3E1EA1KF000001"])))
    Sample.tessie_only Sample.online =
    (Return (Gated._error_response 400 "JSON body must be an object"),
     Sample.online).
Proof.
  apply (X13_gated_body_refused Sample.toy_jwt Sample.toy_get_state
           Sample.toy_wake Sample.toy_start_charging Sample.toy_set_charge_limit
           (Sample.request "POST" "/wake" []
              [("Authorization", "Bearer signed.secret");
               ("Content-Type", "application/json")]
              (inl (JArr [JStr "5YJ3E1EA1KF000001"])))
           Sample.tessie_only Sample.online "tessie-key" eq_refl
           (or_intror (or_introl eq_refl)) eq_refl eq_refl).
  - discriminate.
  - intros fields _. discriminate.
Defined.

(* ================================================================== *)
(** ** Bodies, query strings and paths in the multi-API worker *)

Lemma body_for_invalid request method e w :
  mem method ["POST"; "PUT"; "PATCH"] = true ->
  startswith (header_or_empty request "Content-Type") "application/json" = true ->
  req_json request = inr e ->
  Worker.body_for request method w =
    (Raise (HTTPException 400 ("Invalid JSON body: " ++ str_of_exn e)), w).
Proof.
  intros M C J.
  unfold Worker.body_for, Worker._parse_json_body, bind, try_except, lift.
  now rewrite M, C, J.
Qed.

(** X14: in the Tessie and Fleet families a POST, PUT or PATCH that
    announces JSON and whose body cannot be decoded is answered 400
    "Invalid JSON body: ..." whatever its route, also one that takes no
    body or does not exist, and no upstream call is made; the Teslemetry
    family never reads headers or body: two requests with the same
    method, path and query string are answered alike. *)
Theorem X14_undecodable_body :
  forall (request : Request) (env : Env) (w : world),
    (forall (f : family) (api : BaseAPIClient) (e : exn),
        f <> FTelemetry ->
        startswith (req_path request) (family_prefix f ++ "/") = true ->
        family_client env f = Some api ->
        mem (upper (req_method request)) ["POST"; "PUT"; "PATCH"] = true ->
        startswith (header_or_empty request "Content-Type") "application/json"
          = true ->
        req_json request = inr e ->
        Worker.fetch request env w =
          (Return (Worker._error_response 400
                     ("Invalid JSON body: " ++ str_of_exn e)), closed w)) /\
    (forall request' : Request,
        startswith (req_path request) "/api/telemetry/" = true ->
        req_method request' = req_method request ->
        req_path request' = req_path request ->
        req_query request' = req_query request ->
        Worker.fetch request' env w = Worker.fetch request env w).
Proof.
  intros request env w. split.
  - intros f api e N P C M H J.
    rewrite (fetch_family f _ _ _ P).
    pose proof (body_for_invalid request _ e (opened w) M H J) as B.
    destruct f; [| now contradiction N |]; unfold family_block.
    + rewrite (try_caught _ _ _ _ _ _
                 (eq_trans (tessie_routes_by_table (clients env) api _ _ _ _ C)
                           (bind_raise _ _ _ _ _ B))
                 eq_refl).
      reflexivity.
    + rewrite (try_caught _ _ _ _ _ _
                 (eq_trans (fleet_routes_by_table (clients env) api _ _ _ _ C)
                           (bind_raise _ _ _ _ _ B))
                 eq_refl).
      reflexivity.
  - intros request' P M Q S.
    rewrite (fetch_family FTelemetry request env w P).
    rewrite (fetch_family FTelemetry request' env w)
      by (rewrite Q; exact P).
    unfold family_block, Worker.telemetry_routes, Worker._parse_query_params.
    now rewrite M, Q, S.
Qed.

Lemma X14_witness :
  Worker.fetch
    (Sample.request "PUT" "/api/tessie/vehicles" []
       [("Content-Type", "application/json; charset=utf-8")] Sample.no_body)
    Sample.tessie_only Sample.online =
    (Return (Worker._error_response 400 "Invalid JSON body: Expecting value"),
     Sample.online).
Proof.
  destruct (X14_undecodable_body
              (Sample.request "PUT" "/api/tessie/vehicles" []
                 [("Content-Type", "application/json; charset=utf-8")]
                 Sample.no_body)
              Sample.tessie_only Sample.online) as [H _].
  apply (H FTessie (TessieClient_init "tessie-key")
           (PyError "JSONDecodeError" "Expecting value"));
    [discriminate | reflexivity ..].
Defined.

(** X15: a POST to /api/tessie/<vin>/command/set_charge_limit whose JSON
    object carries a [percent] that [int] accepts - a string being made
    of ASCII characters and of no more than 4300 digits - makes the one
    upstream call POST <vin>/command/set_charge_limit with the body
    {"percent": n}, n the integer that [int] makes of the value: 80 for
    80, for "80" and for 80.5, 1 for true; the other members of the
    caller's object are not forwarded. *)
Theorem X15_charge_limit_coerced :
  forall (request : Request) (env : Env) (w : world)
         (key vin : string) (fields : list (string * json)) (p : json) (n : Z),
    TESSIE_API_KEY env = Some key ->
    String.eqb key "" = false ->
    req_path request = "/api/tessie/" ++ vin ++ "/command/set_charge_limit" ->
    upper (req_method request) = "POST" ->
    has_char "/" vin = false ->
    vin <> "" ->
    startswith (header_or_empty request "Content-Type") "application/json" = true ->
    req_json request = inl (JObj fields) ->
    assoc "percent" fields = Some p ->
    match p with
    | JStr s => is_ascii s = true
    | _ => True
    end ->
    int p = inl n ->
    calls (snd (Worker.fetch request env w)) =
      (calls w ++
       [request_call (TessieClient_init key) "POST"
          (vin ++ "/command/set_charge_limit") None
          (Some (JObj [("percent", JNum n)]))])%list.
Proof.
  intros request env w key vin fields p n K E P M V N C J A _ I.
  assert (F : family_client env FTessie = Some (TessieClient_init key)).
  { simpl. rewrite K. simpl. now rewrite E. }
  destruct (percent_of_object request fields p (opened w) C J A) as [B Q].
  apply (fetch_makes FTessie).
  { rewrite P. simpl. apply startswith_nil. }
  unfold family_block. intros r w' X.
  rewrite (tessie_routes_by_table (clients env) _ _ _ _ _ F) in X.
  rewrite P, extract_tessie, (lstrip_segment _ _ V N), M in X.
  revert r w' X. apply (makes_after _ _ _ _ _ B).
  apply (makes_by_table _ _ _ _ _ _ _ _ _ (first_match_set_charge_limit vin V)).
  cbn [Table.tessie_run].
  rewrite (first_segment vin "command/set_charge_limit" V).
  intros r w' X.
  unfold bind at 1 in X. cbn [ret] in X.
  rewrite (bind_return _ _ _ _ _ Q) in X.
  assert (Z : Worker.is_none p = false).
  { destruct p; try reflexivity. discriminate I. }
  rewrite Z, I in X. unfold bind at 1 in X. cbn [lift ret] in X.
  exact (makes_request _ _ _ _ _ (opened w) eq_refl _ _ X).
Qed.

Lemma X15_witness :
  calls (snd (Worker.fetch
                (Sample.request "POST"
                   "/api/tessie/5YJ3E1EA1KF000001/command/set_charge_limit" []
                   [("Content-Type", "application/json")]
                   (inl (JObj [("percent", JStr "80"); ("vin", JStr "OTHER")])))
                Sample.tessie_only Sample.online)) =
    [request_call (TessieClient_init "tessie-key") "POST"
       "5YJ3E1EA1KF000001/command/set_charge_limit" None
       (Some (JObj [("percent", JNum 80)]))].
Proof.
  exact (X15_charge_limit_coerced
           (Sample.request "POST"
              "/api/tessie/5YJ3E1EA1KF000001/command/set_charge_limit" []
              [("Content-Type", "application/json")]
              (inl (JObj [("percent", JStr "80"); ("vin", JStr "OTHER")])))
           Sample.tessie_only Sample.online "tessie-key" "5YJ3E1EA1KF000001"
           [("percent", JStr "80"); ("vin", JStr "OTHER")] (JStr "80") 80
           eq_refl eq_refl eq_refl eq_refl eq_refl
           (fun H => ltac:(discriminate H)) eq_refl eq_refl eq_refl eq_refl
           eq_refl).
Defined.

Lemma assoc_query_params request k :
  assoc k (Worker._parse_query_params request) =
  option_map (fun vs => match vs with [v] => QOne v | _ => QMany vs end)
    (assoc k (req_query request)).
Proof.
  unfold Worker._parse_query_params.
  induction (req_query request) as [| [k' vs] q IH]; [reflexivity |].
  cbn [map assoc fst snd].
  destruct (String.eqb k' k); [now destruct vs as [| v [| v' vs]] | exact IH].
Qed.

(** X16: a request for /api/tessie/vehicles whose method is not POST,
    PUT or PATCH sends the query parameter [only_active] upstream as
    "true" or "false" and nothing else: "true" when the caller gave
    none, or gave "true" in any mix of cases, and "false" for every
    other value - also for "1" and "yes".  When the parameter is
    repeated, no upstream call is made. *)
Theorem X16_only_active_normalised :
  forall (request : Request) (env : Env) (w : world) (key : string),
    TESSIE_API_KEY env = Some key ->
    String.eqb key "" = false ->
    req_path request = "/api/tessie/vehicles" ->
    mem (upper (req_method request)) ["POST"; "PUT"; "PATCH"] = false ->
    let sent (flag : string) :=
      request_call (TessieClient_init key) "GET" "vehicles"
        (Some [("only_active", QOne flag)]) None in
    calls (snd (Worker.fetch request env w)) =
      match assoc "only_active" (req_query request) with
      | None => (calls w ++ [sent "true"])%list
      | Some [v] =>
          (calls w ++
           [sent (if String.eqb (lower v) "true" then "true" else "false")])%list
      | Some _ => calls w
      end.
Proof.
  intros request env w key K E P M sent.
  assert (F : family_client env FTessie = Some (TessieClient_init key)).
  { simpl. rewrite K. simpl. now rewrite E. }
  assert (S : startswith (req_path request) (family_prefix FTessie ++ "/") = true)
    by now rewrite P.
  assert (B : Worker.body_for request (upper (req_method request)) (opened w) =
              (Return None, opened w)).
  { unfold Worker.body_for. now rewrite M. }
  assert (R : family_block FTessie (clients env) request (opened w) =
              Table.by_table Table.tessie_rules
                (fun op => Table.tessie_run op (TessieClient_init key) "vehicles"
                             (Worker._parse_query_params request) None)
                (clients env) "vehicles" (upper (req_method request)) "Tessie"
                (opened w)).
  { unfold family_block.
    rewrite (tessie_routes_by_table (clients env) _ _ _ _ _ F), P.
    now rewrite (bind_return _ _ _ _ _ B). }
  assert (T : forall m, Table.first_match Table.tessie_rules "vehicles" m =
                        Some Table.ListVehicles) by reflexivity.
  pose proof (assoc_query_params request "only_active") as Q.
  destruct (assoc "only_active" (req_query request)) as [vs |] eqn:A;
    cbn [option_map] in Q.
  - destruct vs as [| v [| v' vs]].
    + rewrite (fetch_family FTessie _ _ _ S).
      destruct (try_except _ _ _) as [r w'] eqn:X.
      refine (try_quiet _ _ _ _ _ _ (quiet_on_failure _) X).
      intros r1 w1. rewrite R. unfold Table.by_table, try_except. rewrite T.
      cbn [Table.tessie_run]. unfold bind, Worker.only_active_of. rewrite Q.
      cbn. intros H. now inversion H.
    + apply (fetch_makes FTessie _ _ _ _ S).
      intros r w'. rewrite R. revert r w'.
      apply (makes_by_table _ _ _ _ _ _ _ _ _ (T _)).
      cbn [Table.tessie_run]. unfold Worker.only_active_of. rewrite Q.
      intros r w' X. unfold bind at 1 in X. cbn [ret] in X.
      unfold Tessie.list_vehicles, str_bool_lower in X.
      apply (makes_request _ _ _ _ _ (opened w) eq_refl) in X.
      rewrite X. unfold sent. now destruct (String.eqb (lower v) "true").
    + rewrite (fetch_family FTessie _ _ _ S).
      destruct (try_except _ _ _) as [r w'] eqn:X.
      refine (try_quiet _ _ _ _ _ _ (quiet_on_failure _) X).
      intros r1 w1. rewrite R. unfold Table.by_table, try_except. rewrite T.
      cbn [Table.tessie_run]. unfold bind, Worker.only_active_of. rewrite Q.
      cbn. intros H. now inversion H.
  - apply (fetch_makes FTessie _ _ _ _ S).
    intros r w'. rewrite R. revert r w'.
    apply (makes_by_table _ _ _ _ _ _ _ _ _ (T _)).
    cbn [Table.tessie_run]. unfold Worker.only_active_of. rewrite Q.
    intros r w' X. unfold bind at 1 in X. cbn [ret] in X.
    exact (makes_request _ _ _ _ _ (opened w) eq_refl _ _ X).
Qed.

Lemma X16_witness :
  calls (snd (Worker.fetch
                (Sample.request "GET" "/api/tessie/vehicles"
                   [("only_active", ["1"])] [] Sample.no_body)
                Sample.tessie_only Sample.online)) =
    [request_call (TessieClient_init "tessie-key") "GET" "vehicles"
       (Some [("only_active", QOne "false")]) None].
Proof.
  exact (X16_only_active_normalised
           (Sample.request "GET" "/api/tessie/vehicles"
              [("only_active", ["1"])] [] Sample.no_body)
           Sample.tessie_only Sample.online "tessie-key"
           eq_refl eq_refl eq_refl eq_refl).
Defined.

Lemma extract_under f d :
  Worker._extract_path_suffix (family_prefix f ++ "/" ++ d) (family_prefix f)
  = lstrip "/" d.
Proof. destruct f; unfold Worker._extract_path_suffix; simpl; reflexivity. Qed.

(** X17: slashes that follow the prefix of a family are dropped before
    the route is chosen: two requests that differ only in the number of
    slashes between the prefix and the rest of the path, such as
    /api/tessie//vehicles and /api/tessie/vehicles, are answered alike
    and make the same upstream calls. *)
Theorem X17_leading_slashes_ignored :
  forall (f : family) (request request' : Request) (env : Env) (w : world)
         (d d' : string),
    req_path request = family_prefix f ++ "/" ++ d ->
    req_path request' = family_prefix f ++ "/" ++ d' ->
    lstrip "/" d = lstrip "/" d' ->
    req_method request' = req_method request ->
    req_query request' = req_query request ->
    req_headers request' = req_headers request ->
    req_json request' = req_json request ->
    Worker.fetch request' env w = Worker.fetch request env w.
Proof.
  intros f request request' env w d d' P P' L M Q H J.
  assert (S : forall r x, req_path r = family_prefix f ++ "/" ++ x ->
                startswith (req_path r) (family_prefix f ++ "/") = true).
  { intros r x ->. destruct f; simpl; apply startswith_nil. }
  rewrite (fetch_family f request env w (S _ _ P)).
  rewrite (fetch_family f request' env w (S _ _ P')).
  assert (B : forall m, Worker.body_for request' m = Worker.body_for request m).
  { intros m. unfold Worker.body_for, Worker._parse_json_body, header_or_empty.
    now rewrite H, J. }
  assert (X : Worker._parse_query_params request' =
              Worker._parse_query_params request).
  { unfold Worker._parse_query_params. now rewrite Q. }
  pose proof (extract_under f d) as E. pose proof (extract_under f d') as E'.
  destruct f; unfold family_block, Worker.tessie_routes,
    Worker.telemetry_routes, Worker.fleet_routes;
    rewrite P, P', M, X, ?B; cbn [family_prefix] in E, E' |- *;
    rewrite E, E', L; reflexivity.
Qed.

Lemma X17_witness :
  Worker.fetch
    (Sample.request "GET" "/api/tessie///vehicles" [] [] Sample.no_body)
    Sample.tessie_only Sample.online =
  Worker.fetch
    (Sample.request "GET" "/api/tessie/vehicles" [] [] Sample.no_body)
    Sample.tessie_only Sample.online.
Proof.
  exact (X17_leading_slashes_ignored FTessie
           (Sample.request "GET" "/api/tessie/vehicles" [] [] Sample.no_body)
           (Sample.request "GET" "/api/tessie///vehicles" [] [] Sample.no_body)
           Sample.tessie_only Sample.online "vehicles" "//vehicles"
           eq_refl eq_refl eq_refl eq_refl eq_refl eq_refl eq_refl).
Defined.

(** X18: a request that is neither GET /health nor GET /status and
    whose path is under none of the three family prefixes is handed to
    the ASSETS binding, or answered 404 "Not Found" when there is none;
    the pool is closed and no upstream call is made.  This includes
    /health and /status with another method, and a family prefix
    without the slash that follows it. *)
Theorem X18_static_fallback :
  forall (request : Request) (env : Env) (w : world),
    (String.eqb (req_path request) "/health" ||
     String.eqb (req_path request) "/status") &&
    String.eqb (upper (req_method request)) "GET" = false ->
    (forall f, startswith (req_path request) (family_prefix f ++ "/") = false) ->
    Worker.fetch request env w =
      (Return
         match ASSETS env with
         | None => Worker._error_response 404 "Not Found"
         | Some assets_binding =>
             match assets_binding request with
             | inl response => response
             | inr (HTTPException status message) =>
                 Worker._error_response status message
             | inr e =>
                 Worker._error_response 500
                   ("Internal Server Error: " ++ str_of_exn e)
             end
         end,
       closed w).
Proof.
  intros request env w H F.
  unfold Worker.fetch. rewrite (bind_return _ _ _ _ _ (init_clients env w)).
  unfold Worker.guarded. cbv zeta.
  pose proof (F FTessie) as F1. pose proof (F FTelemetry) as F2.
  pose proof (F FFleet) as F3. cbn [family_prefix append] in F1, F2, F3.
  rewrite F1, F2, F3.
  assert (H1 : String.eqb (req_path request) "/health" &&
               String.eqb (upper (req_method request)) "GET" = false).
  { destruct (String.eqb (req_path request) "/health"); [exact H | reflexivity]. }
  assert (H2 : String.eqb (req_path request) "/status" &&
               String.eqb (upper (req_method request)) "GET" = false).
  { destruct (String.eqb (req_path request) "/status");
      [now rewrite orb_true_r in H | reflexivity]. }
  rewrite H1, H2.
  destruct (ASSETS env) as [binding |]; [| reflexivity].
  unfold try_except, bind, close, lift.
  destruct (binding request) as [resp | e]; [reflexivity |].
  now destruct e.
Qed.

Lemma X18_witness :
  Worker.fetch (Sample.request "POST" "/health" [] [] Sample.no_body)
    Sample.tessie_only Sample.online =
    (Return (Worker._error_response 404 "Not Found"), Sample.online).
Proof.
  apply (X18_static_fallback
           (Sample.request "POST" "/health" [] [] Sample.no_body)
           Sample.tessie_only Sample.online eq_refl).
  intros f. now destruct f.
Defined.

(* ================================================================== *)
(** ** The client *)

(** X19: whatever the upstream does, and also on a closed pool,
    [_request] raises nothing but TessieAPIError and logs every outcome
    under its own API and endpoint: a result is returned only for a 2xx
    answer and leaves exactly one event, without an error; a failure
    leaves as its last event the message and the status that the
    TessieAPIError carries, status 0 when the error has none. *)
Theorem X19_request_logged :
  forall (self : BaseAPIClient) (method endpoint : string)
         (params : option (list (string * qval))) (json_data : option json)
         (w : world),
    let run := _request self method endpoint params json_data w in
    exists events,
      logs (snd run) = (logs w ++ events)%list /\
      Forall (fun ev => log_api ev = APIType_value (api_type self) /\
                        log_endpoint ev = endpoint) events /\
      match fst run with
      | Return _ =>
          exists code, is_success code = true /\
                       events = [event self endpoint code None]
      | Raise e =>
          exists message code earlier,
            e = TessieAPIError message code /\
            events =
              (earlier ++
               [event self endpoint (match code with Some c => c | None => 0 end)
                  (Some message)])%list
      end.
Proof.
  intros self method endpoint params json_data w run. subst run.
  destruct (pool_open w) eqn:O.
  - rewrite (request_spec _ _ _ _ _ _ O). cbv zeta.
    destruct (upstream w _ _) as [code t p | d];
      [destruct (is_success code) eqn:S; [destruct p as [v | m] |] |].
    + exists [event self endpoint code None].
      refine (conj eq_refl (conj _ _)); [repeat constructor |].
      now exists code.
    + eexists. refine (conj eq_refl (conj _ _)); [repeat constructor |].
      exists ("Request failed: " ++ m), None, [event self endpoint code None].
      now split.
    + eexists. refine (conj eq_refl (conj _ _)); [repeat constructor |].
      exists ("HTTP " ++ str_of_int code ++ ": " ++ t), (Some code),
        [event self endpoint code None].
      now split.
    + eexists. refine (conj eq_refl (conj _ _)); [repeat constructor |].
      exists ("Request failed: " ++ d), None, []. now split.
  - unfold _request, try_except, bind, client_request. rewrite O.
    cbn [str_of_exn]. unfold log_api_call, raise. cbn.
    eexists. refine (conj eq_refl (conj _ _)); [repeat constructor |].
    eexists _, None, []. now split.
Qed.

(* ================================================================== *)
(** ** The request wrapper and its canned responses *)

(** X20: in fake mode - the flag TESSIE_USE_FAKE_RESPONSES set, or the
    key equal to the fake key - [tessieRequest] answers from the canned
    responses without touching the session, also with no key at all and
    on a closed session; the VIN of the one vehicle that /vehicles
    lists is the VIN that every path ending in /state reports: the
    value of TESLA_VIN, or TESTVIN1234567890 when it is unset. *)
Theorem X20_fake_mode :
  forall (environ : list (string * string)) (method path : string)
         (api_key : option string)
         (params params' : option (list (string * qval))) (w : world),
    Wrapper._should_use_fake environ api_key = true ->
    endswith path "/state" = true ->
    let vin := Wrapper.getenv_or environ "TESLA_VIN" "TESTVIN1234567890" in
    exists vehicle state,
      Wrapper.tessieRequest environ method "/vehicles" api_key params w =
        (Return (JObj [("count", JNum 1); ("results", JArr [vehicle])]), w) /\
      Wrapper.tessieRequest environ method path api_key params' w =
        (Return state, w) /\
      get vehicle "vin" = inl (JStr vin) /\
      get state "vin" = inl (JStr vin) /\
      get state "state" = get vehicle "state".
Proof.
  intros environ method path api_key params params' w F S vin.
  assert (N : String.eqb path "/vehicles" = false).
  { destruct (String.eqb_spec path "/vehicles") as [-> |];
      [discriminate S | reflexivity]. }
  unfold Wrapper.tessieRequest, Wrapper.get_fake_response. rewrite F.
  cbn [String.eqb Ascii.eqb Bool.eqb]. rewrite N, S.
  do 2 eexists. refine (conj eq_refl (conj eq_refl _)).
  now refine (conj _ (conj _ _)).
Qed.

Lemma X20_witness :
  exists state,
    Wrapper.tessieRequest [("TESSIE_USE_FAKE_RESPONSES", " Yes ")] "GET"
      "/5YJ3E1EA1KF000001/state" None None Sample.offline =
      (Return state, Sample.offline) /\
    get state "vin" = inl (JStr "TESTVIN1234567890").
Proof.
  destruct (X20_fake_mode [("TESSIE_USE_FAKE_RESPONSES", " Yes ")] "GET"
              "/5YJ3E1EA1KF000001/state" None None None Sample.offline
              eq_refl eq_refl) as (vehicle & state & _ & R & _ & V & _).
  now exists state.
Defined.

(** X21: [tessieRequest] uses the session at most once, and only
    outside fake mode and with a key that is not empty; the call then
    goes to https://api.tessie.com followed by the path as given, with
    the caller's method and parameters, the key as bearer token and no
    body.  Without a key it raises ValueError before the session is
    used. *)
Theorem X21_wrapper_calls :
  forall (environ : list (string * string)) (method path : string)
         (api_key : option string) (params : option (list (string * qval)))
         (w : world),
    let run := Wrapper.tessieRequest environ method path api_key params w in
    (calls (snd run) = calls w \/
     exists key,
       api_key = Some key /\ key <> "" /\
       Wrapper._should_use_fake environ api_key = false /\
       calls (snd run) =
         (calls w ++
          [{| uc_method := method; uc_url := ("https://api.tessie.com" ++ path)%string;
              uc_headers := [("Authorization", ("Bearer " ++ key)%string);
                             ("Content-Type", "application/json")];
              uc_params := params; uc_json := None |}])%list) /\
    (Wrapper._should_use_fake environ api_key = false ->
     truthy_str api_key = false ->
     exists message, run = (Raise (PyError "ValueError" message), w)).
Proof.
  intros environ method path api_key params w run. subst run.
  unfold Wrapper.tessieRequest.
  destruct (Wrapper._should_use_fake environ api_key) eqn:F.
  - split; [now left | discriminate].
  - destruct api_key as [key |].
    + cbn [truthy_str]. destruct (String.eqb_spec key "") as [-> | N]; cbn [negb].
      * split; [now left | intros; eexists; reflexivity].
      * split; [| discriminate].
        unfold bind, Wrapper.session_request.
        destruct (pool_open w); [| now left].
        right. exists key. refine (conj eq_refl (conj N (conj eq_refl _))).
        destruct (upstream w _ _) as [s t p | d]; [| reflexivity].
        unfold Wrapper.raise_for_status. cbn [status_code].
        destruct (400 <=? s); [reflexivity |].
        now destruct p.
    + split; [now left | intros; eexists; reflexivity].
Qed.
